(** * servicestack-go: the generic path-based client ([client.go]) and the
    convention-based [JsonServiceClient], embedded shallowly.

    Go strings and byte slices are [string] (a sequence of 8-bit [ascii]);
    Go maps are stdpp [gmap]s, iterated in an order the runtime chooses;
    [int] is [Z].  A method with a pointer receiver is a function that takes
    the receiver's state and returns the new state next to its results. *)

From Stdlib Require Import ZArith NArith Ascii String DecimalString.
From stdpp Require Import base option list sorting strings gmap fin_maps.

Set Warnings "-register-all".

Local Open Scope string_scope.
Local Open Scope Z_scope.

(* ===================================================================== *)
(** * Strings of bytes *)
(* ===================================================================== *)

(** The byte 0x22.  String literals of this development never contain it;
    [js] writes JSON text with single quotes standing for double quotes. *)
Definition dquote : ascii := Ascii.Ascii false true false false false true false false.

Fixpoint map_bytes (f : ascii -> ascii) (s : string) : string :=
  match s with
  | EmptyString => EmptyString
  | String c s' => String (f c) (map_bytes f s')
  end.

Definition js (s : string) : string :=
  map_bytes (fun c => if Ascii.eqb c "'" then dquote else c) s.

Definition byte_in (lo hi c : ascii) : bool :=
  (N_of_ascii lo <=? N_of_ascii c)%N && (N_of_ascii c <=? N_of_ascii hi)%N.

Definition is_lower (c : ascii) : bool := byte_in "a" "z" c.
Definition is_upper (c : ascii) : bool := byte_in "A" "Z" c.
Definition is_digit (c : ascii) : bool := byte_in "0" "9" c.
Definition is_alnum (c : ascii) : bool := is_lower c || is_upper c || is_digit c.

Definition to_upper (c : ascii) : ascii :=
  if is_lower c then ascii_of_N (N_of_ascii c - 32) else c.
Definition to_lower (c : ascii) : ascii :=
  if is_upper c then ascii_of_N (N_of_ascii c + 32) else c.

Fixpoint forall_bytes (p : ascii -> bool) (s : string) : bool :=
  match s with
  | EmptyString => true
  | String c s' => p c && forall_bytes p s'
  end.

Fixpoint mem_byte (c : ascii) (s : string) : bool :=
  match s with
  | EmptyString => false
  | String d s' => Ascii.eqb c d || mem_byte c s'
  end.

Fixpoint rev_append_bytes (acc : list ascii) (s : string) : string :=
  match acc with
  | [] => s
  | c :: acc' => rev_append_bytes acc' (String c s)
  end.

(** [strings.Split(s, sep)] for a one-byte separator: the pieces between
    the occurrences of [sep], always at least one piece. *)
Fixpoint strings_Split_go (sep : ascii) (cur : list ascii) (s : string) : list string :=
  match s with
  | EmptyString => [rev_append_bytes cur EmptyString]
  | String c s' =>
      if Ascii.eqb c sep
      then rev_append_bytes cur EmptyString :: strings_Split_go sep [] s'
      else strings_Split_go sep (c :: cur) s'
  end.

Definition strings_Split (s : string) (sep : ascii) : list string :=
  strings_Split_go sep [] s.

(** [strings.TrimPrefix(s, prefix)] *)
Fixpoint strings_TrimPrefix_go (s p : string) : option string :=
  match p, s with
  | EmptyString, _ => Some s
  | String a p', String b s' => if Ascii.eqb a b then strings_TrimPrefix_go s' p' else None
  | String _ _, EmptyString => None
  end.

Definition strings_TrimPrefix (s p : string) : string :=
  match strings_TrimPrefix_go s p with
  | Some r => r
  | None => s
  end.

(** [strings.Join(elems, sep)] *)
Fixpoint strings_Join (elems : list string) (sep : string) : string :=
  match elems with
  | [] => ""
  | [x] => x
  | x :: rest => x ++ sep ++ strings_Join rest sep
  end.

(* ===================================================================== *)
(** * package fmt: the verbs the clients use *)
(* ===================================================================== *)

(** An operand of [Sprintf].  An [error] operand is given by the text of
    its [Error()] method; any other value by its dynamic type as [%T]
    prints it and its default rendering. *)
Inductive Arg : Type :=
| ArgInt (n : Z)
| ArgString (s : string)
| ArgError (msg : string)
| ArgOther (T : string) (v : string).

(** [strconv.Itoa]: decimal digits, a leading minus sign when negative. *)
Definition strconv_Itoa (n : Z) : string := NilZero.string_of_int (Z.to_int n).

Definition Arg_type (a : Arg) : string :=
  match a with
  | ArgInt _ => "int"
  | ArgString _ => "string"
  | ArgError _ => "*errors.errorString"
  | ArgOther T _ => T
  end.

Definition Arg_default (a : Arg) : string :=
  match a with
  | ArgInt n => strconv_Itoa n
  | ArgString s => s
  | ArgError msg => msg
  | ArgOther _ v => v
  end.

(** One verb applied to one operand; a verb that does not fit the operand
    prints as [%!verb(type=value)]. *)
Definition fmt_verb (verb : ascii) (a : Arg) : string :=
  let bad := "%!" ++ String verb ("(" ++ Arg_type a ++ "=" ++ Arg_default a ++ ")") in
  if Ascii.eqb verb "v" then Arg_default a
  else if Ascii.eqb verb "T" then Arg_type a
  else if Ascii.eqb verb "d" then
    match a with ArgInt n => strconv_Itoa n | _ => bad end
  else if Ascii.eqb verb "s" then
    match a with
    | ArgString s => s
    | ArgError msg => msg
    | _ => bad
    end
  else if Ascii.eqb verb "w" then
    match a with ArgError msg => msg | _ => bad end
  else bad.

Fixpoint fmt_extra (args : list Arg) : list string :=
  match args with
  | [] => []
  | a :: rest => (Arg_type a ++ "=" ++ Arg_default a) :: fmt_extra rest
  end.

(** [fmt.Sprintf(format, args...)] for formats made of plain bytes, [%%]
    and the flag-less verbs above. *)
Fixpoint fmt_Sprintf (format : string) (args : list Arg) : string :=
  match format with
  | EmptyString =>
      match args with
      | [] => ""
      | _ => "%!(EXTRA " ++ strings_Join (fmt_extra args) ", " ++ ")"
      end
  | String c rest =>
      if Ascii.eqb c "%" then
        match rest with
        | EmptyString => "%!(NOVERB)"
        | String verb rest' =>
            if Ascii.eqb verb "%" then String "%" (fmt_Sprintf rest' args)
            else
              match args with
              | [] => "%!" ++ String verb ("(MISSING)" ++ fmt_Sprintf rest' [])
              | a :: args' => fmt_verb verb a ++ fmt_Sprintf rest' args'
              end
        end
      else String c (fmt_Sprintf rest args)
  end.

(* ===================================================================== *)
(** * Errors *)
(* ===================================================================== *)

(** [ResponseError]: a field-level validation error. *)
Record ResponseError : Type := mkResponseError {
  re_ErrorCode : string;
  re_FieldName : string;
  re_Message : string;
  re_Meta : option (gmap string string)
}.

(** [ResponseStatus]: the structured error envelope.  A nil map is [None]. *)
Record ResponseStatus : Type := mkResponseStatus {
  ErrorCode : string;
  Message : string;
  StackTrace : string;
  Errors : list ResponseError;
  Meta : option (gmap string string)
}.

Definition ResponseError_zero : ResponseError := mkResponseError "" "" "" None.
Definition ResponseStatus_zero : ResponseStatus := mkResponseStatus "" "" "" [] None.

(** [WebServiceException] *)
Record WebServiceException : Type := mkWebServiceException {
  StatusCode : Z;
  StatusDescription : string;
  wsResponseStatus : ResponseStatus
}.

(** [func (e *WebServiceException) Error() string] *)
Definition WebServiceException_Error (e : WebServiceException) : string :=
  if negb (String.eqb (Message (wsResponseStatus e)) "") then
    fmt_Sprintf "%d %s: %s"
      [ArgInt (StatusCode e); ArgString (StatusDescription e);
       ArgString (Message (wsResponseStatus e))]
  else
    fmt_Sprintf "%d %s" [ArgInt (StatusCode e); ArgString (StatusDescription e)].

(** Go's [error] values as the clients meet them: a message
    ([errors.New], [fmt.Errorf] without [%w], and errors of the runtime
    and its libraries, known by their text), a [fmt.Errorf] with [%w]
    around another error, the two errors of [encoding/json] with the
    input they were raised on, and the typed exception. *)
Inductive error : Type :=
| errorString (msg : string)
| wrapError (msg : string) (err : error)
| jsonSyntaxError (data : string)
| jsonUnmarshalTypeError (data : string)
| WebServiceExceptionErr (e : WebServiceException).

Inductive Result (A : Type) : Type :=
| Ok (a : A)
| Err (err : error).
Arguments Ok {A} a.
Arguments Err {A} err.

(** [if err != nil { return h err }] *)
Notation "'try' x ':=' e 'or' h 'in' k" :=
  (match e with Ok x => k | Err err => h err end)
  (at level 10, x name, e at level 100, h at level 100, k at level 200,
   format "'[v' 'try'  x  ':='  e  'or'  h  'in' '/' k ']'").

(* ===================================================================== *)
(** * package encoding/base64 *)
(* ===================================================================== *)

Definition encodeStd : string :=
  "ABCDEFGHIJKLMNOPQRSTUVWXYZabcdefghijklmnopqrstuvwxyz0123456789+/".

Definition byte_at (tbl : string) (i : N) : ascii :=
  match String.get (N.to_nat i) tbl with
  | Some c => c
  | None => "000"%char
  end.

Definition b64 (val : N) (shift : N) : ascii :=
  byte_at encodeStd (N.land (N.shiftr val shift) 63).

(** [base64.StdEncoding.EncodeToString]: three source bytes make one
    24-bit value and four digits; a tail of one or two bytes is padded
    with [=]. *)
Fixpoint base64_StdEncoding_EncodeToString (src : string) : string :=
  match src with
  | EmptyString => EmptyString
  | String a EmptyString =>
      let val := N.shiftl (N_of_ascii a) 16 in
      String (b64 val 18) (String (b64 val 12) "==")
  | String a (String b EmptyString) =>
      let val := N.lor (N.shiftl (N_of_ascii a) 16) (N.shiftl (N_of_ascii b) 8) in
      String (b64 val 18) (String (b64 val 12) (String (b64 val 6) "="))
  | String a (String b (String c rest)) =>
      let val := N.lor (N.lor (N.shiftl (N_of_ascii a) 16) (N.shiftl (N_of_ascii b) 8))
                       (N_of_ascii c) in
      String (b64 val 18) (String (b64 val 12) (String (b64 val 6) (String (b64 val 0)
        (base64_StdEncoding_EncodeToString rest))))
  end.

(* ===================================================================== *)
(** * package net/url *)
(* ===================================================================== *)

Definition upperhex : string := "0123456789ABCDEF".

(** [shouldEscape(c, encodeQueryComponent)] *)
Definition shouldEscape (c : ascii) : bool :=
  if is_alnum c then false
  else if mem_byte c "-_.~" then false
  else true.

(** [url.QueryEscape] *)
Fixpoint url_QueryEscape (s : string) : string :=
  match s with
  | EmptyString => EmptyString
  | String c s' =>
      if shouldEscape c then
        if Ascii.eqb c " " then String "+" (url_QueryEscape s')
        else String "%" (String (byte_at upperhex (N.shiftr (N_of_ascii c) 4))
                        (String (byte_at upperhex (N.land (N_of_ascii c) 15))
                           (url_QueryEscape s')))
      else String c (url_QueryEscape s')
  end.

(** [url.Values] is [map[string][]string]. *)
Abbreviation url_Values := (gmap string (list string)).

(** [func (v Values) Add(key, value string)]: [v[key] = append(v[key], value)] *)
Definition Values_Add (key value : string) (v : url_Values) : url_Values :=
  <[key := (default [] (v !! key) ++ [value])%list]> v.

(** The keys of a map, sorted: [slices.Sort(keys)], byte-wise ascending. *)
Definition sorted_keys {A} (m : gmap string A) : list string :=
  merge_sort String.le (map_to_list m).*1.

Definition Values_pairs (v : url_Values) : list (string * string) :=
  k ← sorted_keys v; (fun x => (k, x)) <$> default [] (v !! k).

Definition encode_pair (kv : string * string) : string :=
  url_QueryEscape kv.1 ++ "=" ++ url_QueryEscape kv.2.

(** [func (v Values) Encode() string]: [key=value] pairs sorted by key and
    joined by [&], keys and values query-escaped. *)
Definition Values_Encode (v : url_Values) : string :=
  strings_Join (encode_pair <$> Values_pairs v) "&".

(* ===================================================================== *)
(** * package encoding/json: syntax *)
(* ===================================================================== *)

(** A JSON text as a tree.  A number keeps its literal; object members
    keep their order and their duplicates. *)
Inductive JSON : Type :=
| JNull
| JBool (b : bool)
| JNumber (lit : string)
| JString (s : string)
| JArray (elems : list JSON)
| JObject (members : list (string * JSON)).

Inductive Token : Type :=
| TBeginObject | TEndObject | TBeginArray | TEndArray | TComma | TColon
| TStr (s : string) | TNum (lit : string) | TTrue | TFalse | TNullLit.

(** The content of a string literal before unquoting: a byte (written
    as is or by a one-letter escape) or the code unit of a [\u] escape. *)
Inductive StrItem : Type :=
| SRaw (c : ascii)
| SU (u : N).

Definition is_cont (c : N) : bool := ((128 <=? c) && (c <=? 191))%N.

Fixpoint raw_prefix (n : nat) (l : list StrItem) : list N :=
  match n, l with
  | S n', SRaw c :: rest => N_of_ascii c :: raw_prefix n' rest
  | _, _ => []
  end.

(** The number of continuation bytes of the well-formed UTF-8 sequence
    that starts with the byte [c] and goes on with [next], if there is
    one ([utf8.DecodeRune] on a byte above 0x7F). *)
Definition utf8_tail (c : N) (next : list N) : option nat :=
  let second lo hi :=
    match next with
    | c1 :: _ => ((lo <=? c1) && (c1 <=? hi))%N
    | [] => false
    end in
  let conts k := forallb is_cont (take k (drop 1 next)) && (k <=? length (drop 1 next))%nat in
  if ((194 <=? c) && (c <=? 223))%N then if second 128%N 191%N then Some 1%nat else None
  else if (c =? 224)%N then if second 160%N 191%N && conts 1%nat then Some 2%nat else None
  else if ((225 <=? c) && (c <=? 236))%N || ((238 <=? c) && (c <=? 239))%N
       then if second 128%N 191%N && conts 1%nat then Some 2%nat else None
  else if (c =? 237)%N then if second 128%N 159%N && conts 1%nat then Some 2%nat else None
  else if (c =? 240)%N then if second 144%N 191%N && conts 2%nat then Some 3%nat else None
  else if ((241 <=? c) && (c <=? 243))%N
       then if second 128%N 191%N && conts 2%nat then Some 3%nat else None
  else if (c =? 244)%N then if second 128%N 143%N && conts 2%nat then Some 3%nat else None
  else None.

(** [utf8.EncodeRune]; surrogates and values above 0x10FFFF become U+FFFD. *)
Definition utf8_EncodeRune (r : N) : string :=
  let b (n : N) := ascii_of_N n in
  let low6 (x : N) := N.lor 128 (N.land x 63) in
  (if r <=? 127 then String (b r) ""
   else if r <=? 2047 then String (b (N.lor 192 (N.shiftr r 6))) (String (b (low6 r)) "")
   else if (55296 <=? r) && (r <=? 57343) || (1114111 <? r)
        then String (b 239) (String (b 191) (String (b 189) ""))
   else if r <=? 65535
        then String (b (N.lor 224 (N.shiftr r 12)))
               (String (b (low6 (N.shiftr r 6))) (String (b (low6 r)) ""))
   else String (b (N.lor 240 (N.shiftr r 18)))
          (String (b (low6 (N.shiftr r 12)))
             (String (b (low6 (N.shiftr r 6))) (String (b (low6 r)) ""))))%N.

Definition RuneError : N := 65533%N.

(** [unquote]: the Go string of a string literal.  [\u] escapes are
    encoded in UTF-8, a surrogate pair as one rune, a lone surrogate as
    U+FFFD; bytes that are not well-formed UTF-8 become U+FFFD one by
    one.  [pend] counts the continuation bytes still to copy. *)
Fixpoint unquote (pend : nat) (l : list StrItem) : string :=
  match l with
  | [] => ""
  | SRaw c :: rest =>
      match pend with
      | S p => String c (unquote p rest)
      | O =>
          if (N_of_ascii c <? 128)%N then String c (unquote O rest)
          else
            match utf8_tail (N_of_ascii c) (raw_prefix 3 rest) with
            | Some w => String c (unquote w rest)
            | None => utf8_EncodeRune RuneError ++ unquote O rest
            end
      end
  | SU hi :: rest =>
      if ((55296 <=? hi) && (hi <? 57344))%N then
        match rest with
        | SU lo :: rest' =>
            if (hi <? 56320)%N && (56320 <=? lo)%N && (lo <? 57344)%N
            then utf8_EncodeRune (N.lor (N.shiftl (hi - 55296) 10) (lo - 56320) + 65536)%N
                 ++ unquote O rest'
            else utf8_EncodeRune RuneError ++ unquote O rest
        | _ => utf8_EncodeRune RuneError ++ unquote O rest
        end
      else utf8_EncodeRune hi ++ unquote O rest
  end.

Definition hex_digit (c : ascii) : option N :=
  if is_digit c then Some (N_of_ascii c - 48)%N
  else if byte_in "a" "f" c then Some (N_of_ascii c - 87)%N
  else if byte_in "A" "F" c then Some (N_of_ascii c - 55)%N
  else None.

(** Where the scanner stands inside a number literal. *)
Inductive NumState : Type :=
| NNeg | NZero | NInt | NDot | NFrac | NE | NESign | NExp.

Definition num_accepting (st : NumState) : bool :=
  match st with
  | NZero | NInt | NFrac | NExp => true
  | _ => false
  end.

(** One byte inside a number: the next state, [None] when the byte
    cannot continue the literal. *)
Definition num_step (st : NumState) (c : ascii) : option NumState :=
  let exp := Ascii.eqb c "e" || Ascii.eqb c "E" in
  match st with
  | NNeg => if Ascii.eqb c "0" then Some NZero else if is_digit c then Some NInt else None
  | NZero => if Ascii.eqb c "." then Some NDot else if exp then Some NE else None
  | NInt => if is_digit c then Some NInt else if Ascii.eqb c "." then Some NDot
            else if exp then Some NE else None
  | NDot => if is_digit c then Some NFrac else None
  | NFrac => if is_digit c then Some NFrac else if exp then Some NE else None
  | NE => if Ascii.eqb c "+" || Ascii.eqb c "-" then Some NESign
          else if is_digit c then Some NExp else None
  | NESign => if is_digit c then Some NExp else None
  | NExp => if is_digit c then Some NExp else None
  end.

Inductive LexState : Type :=
| LValue
| LStr (acc : list StrItem)
| LEsc (acc : list StrItem)
| LU (acc : list StrItem) (n : nat) (u : N)
| LNum (st : NumState) (acc : list ascii)
| LLit (rest : string) (tok : Token).

Definition is_space (c : ascii) : bool := mem_byte c (String " " (String "009" (String "010" (String "013" "")))).

(** A byte met between tokens. *)
Definition lex_value (c : ascii) : option (list Token * LexState) :=
  if is_space c then Some ([], LValue)
  else if Ascii.eqb c "{" then Some ([TBeginObject], LValue)
  else if Ascii.eqb c "}" then Some ([TEndObject], LValue)
  else if Ascii.eqb c "[" then Some ([TBeginArray], LValue)
  else if Ascii.eqb c "]" then Some ([TEndArray], LValue)
  else if Ascii.eqb c "," then Some ([TComma], LValue)
  else if Ascii.eqb c ":" then Some ([TColon], LValue)
  else if Ascii.eqb c dquote then Some ([], LStr [])
  else if Ascii.eqb c "-" then Some ([], LNum NNeg [c])
  else if Ascii.eqb c "0" then Some ([], LNum NZero [c])
  else if is_digit c then Some ([], LNum NInt [c])
  else if Ascii.eqb c "t" then Some ([], LLit "rue" TTrue)
  else if Ascii.eqb c "f" then Some ([], LLit "alse" TFalse)
  else if Ascii.eqb c "n" then Some ([], LLit "ull" TNullLit)
  else None.

Definition lex_step (st : LexState) (c : ascii) : option (list Token * LexState) :=
  match st with
  | LValue => lex_value c
  | LStr acc =>
      if Ascii.eqb c dquote then Some ([TStr (unquote O (rev acc))], LValue)
      else if Ascii.eqb c "\" then Some ([], LEsc acc)
      else if (N_of_ascii c <? 32)%N then None
      else Some ([], LStr (SRaw c :: acc))
  | LEsc acc =>
      let raw (n : N) := Some ([], LStr (SRaw (ascii_of_N n) :: acc)) in
      if Ascii.eqb c "b" then raw 8%N
      else if Ascii.eqb c "f" then raw 12%N
      else if Ascii.eqb c "n" then raw 10%N
      else if Ascii.eqb c "r" then raw 13%N
      else if Ascii.eqb c "t" then raw 9%N
      else if Ascii.eqb c "\" || Ascii.eqb c "/" || Ascii.eqb c dquote
           then Some ([], LStr (SRaw c :: acc))
      else if Ascii.eqb c "u" then Some ([], LU acc 0 0%N)
      else None
  | LU acc n u =>
      match hex_digit c with
      | Some d =>
          let u' := (u * 16 + d)%N in
          if (n =? 3)%nat then Some ([], LStr (SU u' :: acc)) else Some ([], LU acc (S n) u')
      | None => None
      end
  | LNum ns acc =>
      match num_step ns c with
      | Some ns' => Some ([], LNum ns' (c :: acc))
      | None =>
          if num_accepting ns then
            match lex_value c with
            | Some (toks, st') => Some (TNum (rev_append_bytes acc "") :: toks, st')
            | None => None
            end
          else None
      end
  | LLit rest tok =>
      match rest with
      | String d rest' =>
          if Ascii.eqb c d then
            match rest' with
            | EmptyString => Some ([tok], LValue)
            | _ => Some ([], LLit rest' tok)
            end
          else None
      | EmptyString => None
      end
  end.

(** The tokens of a text, [None] when some byte cannot be scanned or the
    text ends inside a token. *)
Fixpoint lex (st : LexState) (s : string) : option (list Token) :=
  match s with
  | EmptyString =>
      match st with
      | LValue => Some []
      | LNum ns acc => if num_accepting ns then Some [TNum (rev_append_bytes acc "")] else None
      | _ => None
      end
  | String c s' =>
      match lex_step st c with
      | Some (toks, st') =>
          match lex st' s' with
          | Some rest => Some (toks ++ rest)%list
          | None => None
          end
      | None => None
      end
  end.

(** A container under construction: the elements of an array, or the
    members of an object and the key that waits for its value; both
    newest first. *)
Inductive Frame : Type :=
| FArray (acc : list JSON)
| FObject (acc : list (string * JSON)) (key : option string).

(** What the grammar allows next. *)
Inductive Expect : Type :=
| EValue | EValueOrEnd | EKeyOrEnd | EKey | EColon | ECommaOrEnd | EDone (v : JSON).

Definition maxNestingDepth : N := 10000%N.

(** A finished value goes to the container on top of the stack, or is
    the result when the stack is empty. *)
Definition deliver (v : JSON) (stack : list Frame) : option (list Frame * Expect) :=
  match stack with
  | [] => Some ([], EDone v)
  | FArray acc :: st => Some (FArray (v :: acc) :: st, ECommaOrEnd)
  | FObject acc (Some k) :: st => Some (FObject ((k, v) :: acc) None :: st, ECommaOrEnd)
  | FObject _ None :: _ => None
  end.

Definition push (f : Frame) (e : Expect) (stack : list Frame) : option (list Frame * Expect) :=
  if (N.of_nat (length stack) <? maxNestingDepth)%N then Some (f :: stack, e) else None.

Definition close_array (stack : list Frame) : option (list Frame * Expect) :=
  match stack with
  | FArray acc :: st => deliver (JArray (rev acc)) st
  | _ => None
  end.

Definition close_object (stack : list Frame) : option (list Frame * Expect) :=
  match stack with
  | FObject acc None :: st => deliver (JObject (rev acc)) st
  | _ => None
  end.

Definition set_key (k : string) (stack : list Frame) : option (list Frame * Expect) :=
  match stack with
  | FObject acc None :: st => Some (FObject acc (Some k) :: st, EColon)
  | _ => None
  end.

Definition begin_value (t : Token) (stack : list Frame) : option (list Frame * Expect) :=
  match t with
  | TStr s => deliver (JString s) stack
  | TNum lit => deliver (JNumber lit) stack
  | TTrue => deliver (JBool true) stack
  | TFalse => deliver (JBool false) stack
  | TNullLit => deliver JNull stack
  | TBeginArray => push (FArray []) EValueOrEnd stack
  | TBeginObject => push (FObject [] None) EKeyOrEnd stack
  | _ => None
  end.

Definition parse_step (stack : list Frame) (e : Expect) (t : Token) : option (list Frame * Expect) :=
  match e with
  | EValue => begin_value t stack
  | EValueOrEnd =>
      match t with
      | TEndArray => close_array stack
      | _ => begin_value t stack
      end
  | EKeyOrEnd =>
      match t with
      | TStr k => set_key k stack
      | TEndObject => close_object stack
      | _ => None
      end
  | EKey =>
      match t with
      | TStr k => set_key k stack
      | _ => None
      end
  | EColon =>
      match t with
      | TColon => Some (stack, EValue)
      | _ => None
      end
  | ECommaOrEnd =>
      match t with
      | TComma =>
          match stack with
          | FArray _ :: _ => Some (stack, EValue)
          | FObject _ _ :: _ => Some (stack, EKey)
          | [] => None
          end
      | TEndArray => close_array stack
      | TEndObject => close_object stack
      | _ => None
      end
  | EDone _ => None
  end.

Fixpoint parse_tokens (stack : list Frame) (e : Expect) (ts : list Token) : option JSON :=
  match ts with
  | [] =>
      match e with
      | EDone v => Some v
      | _ => None
      end
  | t :: ts' =>
      match parse_step stack e t with
      | Some (stack', e') => parse_tokens stack' e' ts'
      | None => None
      end
  end.

(** The value of a JSON text: one value with white space around it, as
    [checkValid] accepts it; [None] is a syntax error. *)
Definition json_parse (data : string) : option JSON :=
  match lex LValue data with
  | Some ts => parse_tokens [] EValue ts
  | None => None
  end.

(* ===================================================================== *)
(** * What the model takes from the Go runtime and libraries *)
(* ===================================================================== *)

(** Floating point, URL parsing, contexts and the wording of library
    errors are not modelled: the model is a function of them. *)
Class GoRuntime : Type := {
  (** [float64] *)
  float64 : Type;
  (** [strconv.ParseFloat(s, 64)] on a JSON number literal; [None] is a
      range error. *)
  strconv_ParseFloat : string -> option float64;
  (** how [%v] prints a [float64] *)
  fmt_float64 : float64 -> string;
  (** how [%q] prints a string *)
  strconv_Quote : string -> string;
  (** [context.Context] and [context.Background()] *)
  Context : Type;
  context_Background : Context;
  (** [url.JoinPath(base, elem)] *)
  url_JoinPath : string -> string -> Result string;
  (** the error of [url.Parse], if any *)
  url_Parse_error : string -> option error;
  (** the text of the [*json.SyntaxError] and of the
      [*json.UnmarshalTypeError] raised on an input *)
  json_SyntaxError_text : string -> string;
  json_UnmarshalTypeError_text : string -> string
}.

(** The order in which a [range] loop visits a map: some permutation of
    its entries, chosen by the runtime. *)
Record MapRange : Type := {
  range_of : forall A : Type, gmap string A -> list (string * A);
  range_of_perm : forall (A : Type) (m : gmap string A), range_of A m ≡ₚ map_to_list m
}.
Arguments range_of _ {A} _.

(** [err.Error()] *)
Definition error_Error `{GoRuntime} (err : error) : string :=
  match err with
  | errorString msg => msg
  | wrapError msg _ => msg
  | jsonSyntaxError data => json_SyntaxError_text data
  | jsonUnmarshalTypeError data => json_UnmarshalTypeError_text data
  | WebServiceExceptionErr e => WebServiceException_Error e
  end.

(** [fmt.Errorf(format, args..., err)] where the last verb of [format] is
    [%w] and [err] is its operand. *)
Definition fmt_Errorf_w `{GoRuntime} (format : string) (args : list Arg) (err : error) : error :=
  wrapError (fmt_Sprintf format (args ++ [ArgError (error_Error err)])) err.

(** [fmt.Errorf(format, args...)] without [%w] *)
Definition fmt_Errorf (format : string) (args : list Arg) : error :=
  errorString (fmt_Sprintf format args).

(* ===================================================================== *)
(** * package encoding/json: decoding *)
(* ===================================================================== *)

(** How a Go type takes a JSON value: the new value of the target and
    whether every part fitted.  A part that does not fit is skipped,
    decoding goes on, and [Unmarshal] reports a type error at the end. *)
Definition Decoder (A : Type) : Type := JSON -> A -> A * bool.

(** [json.Unmarshal(data, &v)]: the syntax of the whole input is checked
    before anything is stored. *)
Definition json_Unmarshal {A : Type} (dec : Decoder A) (data : string) (v : A) : A * option error :=
  match json_parse data with
  | None => (v, Some (jsonSyntaxError data))
  | Some j =>
      let '(v', ok) := dec j v in
      (v', if ok then None else Some (jsonUnmarshalTypeError data))
  end.

(** A member name matches a struct field by its exact name or, failing
    that, when the two are equal under Unicode case folding; the field
    names here are ASCII, which U+017F (for s) and U+212A (for k) fold
    to besides the two cases of a letter. *)
Fixpoint fold_name (s : string) : string :=
  match s with
  | EmptyString => EmptyString
  | String c s' =>
      match strings_TrimPrefix_go s (String "197" (String "191" "")) with
      | Some _ =>
          match s' with
          | String _ r => String "s" (fold_name r)
          | EmptyString => String c EmptyString
          end
      | None =>
          match strings_TrimPrefix_go s (String "226" (String "132" (String "170" ""))) with
          | Some _ =>
              match s' with
              | String _ (String _ r) => String "k" (fold_name r)
              | _ => String c EmptyString
              end
          | None => String (to_lower c) (fold_name s')
          end
      end
  end.

(** The index of the field a member name selects. *)
Definition find_field (fields : list string) (key : string) : option nat :=
  match list_find (String.eqb key) fields with
  | Some (i, _) => Some i
  | None =>
      match list_find (fun f => String.eqb (fold_name key) (fold_name f)) fields with
      | Some (i, _) => Some i
      | None => None
      end
  end.

(** The members of an object stored into a struct, one after the other;
    a member that names no field is skipped.  [set i] decodes into the
    field of index [i]. *)
Definition decode_members {A : Type} (fields : list string) (set : nat -> Decoder A)
    (members : list (string * JSON)) (old : A) : A * bool :=
  foldl (fun (st : A * bool) (m : string * JSON) =>
           match find_field fields m.1 with
           | Some i => let '(a, ok) := set i m.2 st.1 in (a, st.2 && ok)
           | None => st
           end) (old, true) members.

(** A struct takes an object; [null] leaves it as it is. *)
Definition decode_struct {A : Type} (fields : list string) (set : nat -> Decoder A) : Decoder A :=
  fun j old =>
    match j with
    | JObject members => decode_members fields set members old
    | JNull => (old, true)
    | _ => (old, false)
    end.

(** A [string] takes a string; [null] leaves it as it is. *)
Definition decode_string : Decoder string :=
  fun j old =>
    match j with
    | JString s => (s, true)
    | JNull => (old, true)
    | _ => (old, false)
    end.

(** A [map[string]string] takes an object, each member decoded into a
    fresh string and stored; [null] makes the map nil. *)
Definition decode_map_string : Decoder (option (gmap string string)) :=
  fun j old =>
    match j with
    | JObject members =>
        let '(m, ok) :=
          foldl (fun (st : gmap string string * bool) (kv : string * JSON) =>
                   let '(x, ok) := decode_string kv.2 "" in (<[kv.1 := x]> st.1, st.2 && ok))
                (default ∅ old, true) members in
        (Some m, ok)
    | JNull => (None, true)
    | _ => (old, false)
    end.

(** The elements of an array decoded into the elements of the slice at
    the same index, into zero values past its end. *)
Fixpoint decode_elems {A : Type} (zero : A) (dec : Decoder A) (elems : list JSON) (old : list A)
    : list A * bool :=
  match elems with
  | [] => ([], true)
  | j :: js =>
      let '(a, ok) := dec j (default zero (head old)) in
      let '(rest, ok') := decode_elems zero dec js (tail old) in
      (a :: rest, ok && ok')
  end.

(** A slice takes an array and gets its length; [null] makes it nil.  A
    nil slice and an empty one are both [[]], and a slice is its
    elements only: what its backing array holds past its length, which
    a third array under one repeated key could meet again, is left out. *)
Definition decode_slice {A : Type} (zero : A) (dec : Decoder A) : Decoder (list A) :=
  fun j old =>
    match j with
    | JArray elems => decode_elems zero dec elems old
    | JNull => ([], true)
    | _ => (old, false)
    end.

(** [ResponseError] and its [json] tags *)
Definition decode_ResponseError : Decoder ResponseError :=
  decode_struct ["errorCode"; "fieldName"; "message"; "meta"]
    (fun i j (e : ResponseError) =>
       match i with
       | 0%nat => let '(x, ok) := decode_string j (re_ErrorCode e) in
                  (mkResponseError x (re_FieldName e) (re_Message e) (re_Meta e), ok)
       | 1%nat => let '(x, ok) := decode_string j (re_FieldName e) in
                  (mkResponseError (re_ErrorCode e) x (re_Message e) (re_Meta e), ok)
       | 2%nat => let '(x, ok) := decode_string j (re_Message e) in
                  (mkResponseError (re_ErrorCode e) (re_FieldName e) x (re_Meta e), ok)
       | _ => let '(x, ok) := decode_map_string j (re_Meta e) in
              (mkResponseError (re_ErrorCode e) (re_FieldName e) (re_Message e) x, ok)
       end).

(** [ResponseStatus] and its [json] tags *)
Definition decode_ResponseStatus : Decoder ResponseStatus :=
  decode_struct ["errorCode"; "message"; "stackTrace"; "errors"; "meta"]
    (fun i j (s : ResponseStatus) =>
       match i with
       | 0%nat => let '(x, ok) := decode_string j (ErrorCode s) in
                  (mkResponseStatus x (Message s) (StackTrace s) (Errors s) (Meta s), ok)
       | 1%nat => let '(x, ok) := decode_string j (Message s) in
                  (mkResponseStatus (ErrorCode s) x (StackTrace s) (Errors s) (Meta s), ok)
       | 2%nat => let '(x, ok) := decode_string j (StackTrace s) in
                  (mkResponseStatus (ErrorCode s) (Message s) x (Errors s) (Meta s), ok)
       | 3%nat => let '(x, ok) := decode_slice ResponseError_zero decode_ResponseError j (Errors s) in
                  (mkResponseStatus (ErrorCode s) (Message s) (StackTrace s) x (Meta s), ok)
       | _ => let '(x, ok) := decode_map_string j (Meta s) in
              (mkResponseStatus (ErrorCode s) (Message s) (StackTrace s) (Errors s) x, ok)
       end).

(** The local struct of [parseError], whose one field [ResponseStatus]
    has the tag [responseStatus]; the struct is modelled as that field. *)
Definition decode_errorResponse : Decoder ResponseStatus :=
  decode_struct ["responseStatus"] (fun _ => decode_ResponseStatus).

(** What [interface{}] holds after decoding: [nil], [bool], [float64],
    [string], [[]interface{}] or [map[string]interface{}], the last as
    its members in the order they were stored (a later one replaces an
    earlier one of the same key). *)
Inductive Value `{GoRuntime} : Type :=
| VNil
| VBool (b : bool)
| VFloat (f : float64)
| VString (s : string)
| VSlice (l : list Value)
| VMap (m : list (string * Value)).

(** An [interface{}] takes any value. *)
Fixpoint decode_interface `{GoRuntime} (j : JSON) : Value * bool :=
  match j with
  | JNull => (VNil, true)
  | JBool b => (VBool b, true)
  | JNumber lit =>
      match strconv_ParseFloat lit with
      | Some f => (VFloat f, true)
      | None => (VNil, false)
      end
  | JString s => (VString s, true)
  | JArray elems =>
      let r := List.map decode_interface elems in
      (VSlice (List.map fst r), forallb snd r)
  | JObject members =>
      let r := List.map (fun kv : string * JSON => (fst kv, decode_interface (snd kv))) members in
      (VMap (List.map (fun x => (fst x, fst (snd x))) r), forallb (fun x => snd (snd x)) r)
  end.

(** [fmt.Sprintf("%v", value)]: a map prints its keys in sorted order. *)
Fixpoint Value_print `{GoRuntime} (v : Value) : string :=
  match v with
  | VNil => "<nil>"
  | VBool b => if b then "true" else "false"
  | VFloat f => fmt_float64 f
  | VString s => s
  | VSlice l => "[" ++ strings_Join (List.map Value_print l) " " ++ "]"
  | VMap m =>
      let printed : gmap string string :=
        list_to_map (rev (List.map (fun kv : string * Value => (fst kv, Value_print (snd kv))) m)) in
      "map[" ++ strings_Join
                  (List.map (fun k => k ++ ":" ++ default "" (printed !! k)) (sorted_keys printed))
                  " " ++ "]"
  end.

Definition Value_type `{GoRuntime} (v : Value) : string :=
  match v with
  | VNil => "<nil>"
  | VBool _ => "bool"
  | VFloat _ => "float64"
  | VString _ => "string"
  | VSlice _ => "[]interface {}"
  | VMap _ => "map[string]interface {}"
  end.

Definition ArgValue `{GoRuntime} (v : Value) : Arg := ArgOther (Value_type v) (Value_print v).

(** A [map[string]interface{}] takes an object, creating the map when it
    is nil; [null] makes it nil. *)
Definition decode_map_interface `{GoRuntime} : Decoder (option (gmap string Value)) :=
  fun j old =>
    match j with
    | JObject members =>
        let '(m, ok) :=
          foldl (fun (st : gmap string Value * bool) (kv : string * JSON) =>
                   let '(x, ok) := decode_interface kv.2 in (<[kv.1 := x]> st.1, st.2 && ok))
                (default ∅ old, true) members in
        (Some m, ok)
    | JNull => (None, true)
    | _ => (old, false)
    end.

(* ===================================================================== *)
(** * Request values *)
(* ===================================================================== *)

(** The dynamic type of a value, as far as [reflect] prints it. *)
Inductive GoType : Type :=
| TNamed (pkg name : string)
| TPtr (elem : GoType)
| TOther (printed : string).

(** [reflect.Type.String()] *)
Fixpoint GoType_String (t : GoType) : string :=
  match t with
  | TNamed pkg name => pkg ++ "." ++ name
  | TPtr elem => "*" ++ GoType_String elem
  | TOther printed => printed
  end.


(** A request value is opaque to the clients: they see its dynamic type,
    what [json.Marshal] makes of it, and how [%v] prints it. *)
Record Request : Type := mkRequest {
  req_type : GoType;
  req_json : Result string;
  req_string : string
}.

Definition ArgRequest (r : Request) : Arg := ArgOther (GoType_String (req_type r)) (req_string r).

(** [json.Marshal(v)] *)
Definition json_Marshal (v : Request) : Result string := req_json v.

(* ===================================================================== *)
(** * package net/http *)
(* ===================================================================== *)

(** [http.Header] is [map[string][]string] under canonical keys. *)
Abbreviation http_Header := (gmap string (list string)).

(** The bytes of an HTTP token. *)
Definition validHeaderFieldByte (c : ascii) : bool :=
  is_alnum c || mem_byte c "!#$%&'*+-.^_`|~".

Fixpoint canonical_go (upper : bool) (s : string) : string :=
  match s with
  | EmptyString => EmptyString
  | String c s' =>
      let c' := if upper then to_upper c else to_lower c in
      String c' (canonical_go (Ascii.eqb c' "-") s')
  end.

(** [textproto.CanonicalMIMEHeaderKey]: the first letter and every
    letter after a hyphen in upper case, the others in lower case; a key
    with a byte that is no token byte stays as it is. *)
Definition CanonicalMIMEHeaderKey (s : string) : string :=
  if forall_bytes validHeaderFieldByte s then canonical_go true s else s.

(** [func (h Header) Set(key, value string)] *)
Definition Header_Set (key value : string) (h : http_Header) : http_Header :=
  <[CanonicalMIMEHeaderKey key := [value]]> h.

(** [func (h Header) Get(key string) string] *)
Definition Header_Get (key : string) (h : http_Header) : string :=
  match h !! CanonicalMIMEHeaderKey key with
  | Some (v :: _) => v
  | _ => ""
  end.

(** [time.Duration], in nanoseconds *)
Definition time_Second : Z := 1000000000.

(** [http.Client], as far as the clients configure it *)
Record http_Client : Type := mk_http_Client {
  Timeout : Z
}.

Section Http.
Context `{GoRuntime}.

(** [http.Request] *)
Record http_Request : Type := mk_http_Request {
  Method : string;
  URL : string;
  Body : option string;
  Header : http_Header;
  Ctx : Context
}.

(** [http.Response]; [resp_Body] is what [io.ReadAll(resp.Body)] gives. *)
Record http_Response : Type := mk_http_Response {
  resp_StatusCode : Z;
  resp_Status : string;
  resp_Body : Result string
}.

(** The [Do] method of [http.Client]: the exchange with the server, which the model
    does not look into. *)
Definition Transport : Type := http_Client -> http_Request -> Result http_Response.

Definition with_Header (h : http_Header) (req : http_Request) : http_Request :=
  mk_http_Request (Method req) (URL req) (Body req) h (Ctx req).

(** [req.Header.Set(key, value)] *)
Definition req_Header_Set (key value : string) (req : http_Request) : http_Request :=
  with_Header (Header_Set key value (Header req)) req.

(** [for key, value := range headers { req.Header.Set(key, value) }] *)
Definition apply_headers (order : MapRange) (headers : gmap string string) (req : http_Request)
    : http_Request :=
  foldl (fun r kv => req_Header_Set kv.1 kv.2 r) req (range_of order headers).

(** [http.NewRequestWithContext(ctx, method, url, body)] *)
Definition http_NewRequestWithContext (ctx : option Context) (method url : string)
    (body : option string) : Result http_Request :=
  let method := if String.eqb method "" then "GET" else method in
  if negb (forall_bytes validHeaderFieldByte method) then
    Err (errorString ("net/http: invalid method " ++ strconv_Quote method))
  else
    match ctx with
    | None => Err (errorString "net/http: nil Context")
    | Some ctx =>
        match url_Parse_error url with
        | Some err => Err err
        | None => Ok (mk_http_Request method url body ∅ ctx)
        end
    end.

(** [http.NewRequest(method, url, body)] *)
Definition http_NewRequest (method url : string) (body : option string) : Result http_Request :=
  http_NewRequestWithContext (Some context_Background) method url body.

End Http.

(* ===================================================================== *)
(** * client.go: the generic path-based client *)
(* ===================================================================== *)

Module Client.
Section Client.
Context `{GoRuntime}.

(** [type Client struct] *)
Record t : Type := mk {
  BaseURL : string;
  HTTPClient : http_Client;
  Headers : gmap string string
}.

(** [func NewClient(baseURL string) *Client] *)
Definition NewClient (baseURL : string) : t :=
  mk baseURL (mk_http_Client (30 * time_Second)) ∅.

(** [func (c *Client) SetHeader(key, value string)] *)
Definition SetHeader (key value : string) (c : t) : t :=
  mk (BaseURL c) (HTTPClient c) (<[key := value]> (Headers c)).

(** [doRequest] up to the headers (lines 65 to 94 of client.go): the
    request that is handed to the transport, or the error returned
    before any exchange. *)
Definition doRequest_build (order : MapRange) (ctx : option Context) (method path : string)
    (request : option Request) (c : t) : Result http_Request :=
  try fullURL := url_JoinPath (BaseURL c) path
    or (fun err => Err (fmt_Errorf_w "failed to build URL: %w" [] err)) in
  try body := match request with
              | Some r =>
                  try jsonData := json_Marshal r
                    or (fun err => Err (fmt_Errorf_w "failed to marshal request: %w" [] err)) in
                  Ok (Some jsonData)
              | None => Ok None
              end
    or (fun err => Err err) in
  try req := http_NewRequestWithContext ctx method fullURL body
    or (fun err => Err (fmt_Errorf_w "failed to create request: %w" [] err)) in
  let req := match request with
             | Some _ => req_Header_Set "Content-Type" "application/json" req
             | None => req
             end in
  let req := req_Header_Set "Accept" "application/json" req in
  Ok (apply_headers order (Headers c) req).

(** [doRequest] from the response on (lines 103 to 121 of client.go):
    the error and the value [response] points to afterwards. *)
Definition doRequest_finish {A : Type} (dec : Decoder A) (resp : http_Response)
    (response : option A) : option error * option A :=
  try respBody := resp_Body resp
    or (fun err => (Some (fmt_Errorf_w "failed to read response body: %w" [] err), response)) in
  if (resp_StatusCode resp <? 200) || (resp_StatusCode resp >=? 300) then
    (Some (fmt_Errorf "request failed with status %d: %s"
             [ArgInt (resp_StatusCode resp); ArgString respBody]), response)
  else
    match response with
    | Some v =>
        if (0 <? String.length respBody)%nat then
          match json_Unmarshal dec respBody v with
          | (v', Some err) => (Some (fmt_Errorf_w "failed to unmarshal response: %w" [] err), Some v')
          | (v', None) => (None, Some v')
          end
        else (None, response)
    | None => (None, response)
    end.

(** [func (c *Client) doRequest(ctx, method, path, request, response) error].
    [response] is the value the caller's pointer refers to, [None] for a
    nil interface, and [dec] how its type decodes; the result is the
    error, that value after the call, and the client after the call. *)
Definition doRequest {A : Type} (dec : Decoder A) (order : MapRange) (do : Transport)
    (ctx : option Context) (method path : string) (request : option Request)
    (response : option A) (c : t) : (option error * option A) * t :=
  match doRequest_build order ctx method path request c with
  | Err err => ((Some err, response), c)
  | Ok req =>
      match do (HTTPClient c) req with
      | Err err => ((Some (fmt_Errorf_w "failed to execute request: %w" [] err), response), c)
      | Ok resp => (doRequest_finish dec resp response, c)
      end
  end.

Definition Get {A : Type} (dec : Decoder A) order do ctx (path : string) (response : option A) (c : t) :=
  doRequest dec order do ctx "GET" path None response c.

Definition Post {A : Type} (dec : Decoder A) order do ctx (path : string) (request : option Request)
    (response : option A) (c : t) :=
  doRequest dec order do ctx "POST" path request response c.

Definition Put {A : Type} (dec : Decoder A) order do ctx (path : string) (request : option Request)
    (response : option A) (c : t) :=
  doRequest dec order do ctx "PUT" path request response c.

Definition Delete {A : Type} (dec : Decoder A) order do ctx (path : string) (response : option A) (c : t) :=
  doRequest dec order do ctx "DELETE" path None response c.

Definition Patch {A : Type} (dec : Decoder A) order do ctx (path : string) (request : option Request)
    (response : option A) (c : t) :=
  doRequest dec order do ctx "PATCH" path request response c.

End Client.
End Client.

(* ===================================================================== *)
(** * The convention-based client: [JsonServiceClient] *)
(* ===================================================================== *)

Module JsonServiceClient.
Section JsonServiceClient.
Context `{GoRuntime}.

(** [type JsonServiceClient struct] *)
Record t : Type := mk {
  BaseURL : string;
  httpClient : http_Client;
  Headers : gmap string string
}.

(** [func NewJsonServiceClient(baseURL string) *JsonServiceClient] *)
Definition NewJsonServiceClient (baseURL : string) : t :=
  mk baseURL (mk_http_Client (30 * time_Second)) ∅.

(** [func (c *JsonServiceClient) SetTimeout(timeout time.Duration)] *)
Definition SetTimeout (timeout : Z) (c : t) : t :=
  mk (BaseURL c) (mk_http_Client timeout) (Headers c).

(** [func (c *JsonServiceClient) SetBearerToken(token string)] *)
Definition SetBearerToken (token : string) (c : t) : t :=
  mk (BaseURL c) (httpClient c) (<["Authorization" := "Bearer " ++ token]> (Headers c)).

(** [func basicAuth(username, password string) string] *)
Definition basicAuth (username password : string) : string :=
  let auth := username ++ ":" ++ password in
  base64_StdEncoding_EncodeToString auth.

(** [func (c *JsonServiceClient) SetCredentials(username, password string)] *)
Definition SetCredentials (username password : string) (c : t) : t :=
  mk (BaseURL c) (httpClient c)
     (<["Authorization" := "Basic " ++ basicAuth username password]> (Headers c)).

(** [func (c *JsonServiceClient) getRequestPath(request interface{}) string] *)
Definition getRequestPath (c : t) (request : Request) : string :=
  let typeName := fmt_Sprintf "%T" [ArgRequest request] in
  let parts := strings_Split typeName "." in
  let typeName := if (1 <? length parts)%nat then default "" (last parts) else typeName in
  let typeName := strings_TrimPrefix typeName "*" in
  "/json/reply/" ++ typeName.

(** The body of the loop of [toQueryString]:
    [if value != nil { params.Add(key, fmt.Sprintf("%v", value)) }] *)
Definition add_param (params : url_Values) (kv : string * Value) : url_Values :=
  match kv.2 with
  | VNil => params
  | value => Values_Add kv.1 (fmt_Sprintf "%v" [ArgValue value]) params
  end.

(** [func toQueryString(v interface{}) (string, error)] *)
Definition toQueryString (order : MapRange) (v : Request) : Result string :=
  try jsonData := json_Marshal v or (fun err => Err err) in
  match json_Unmarshal decode_map_interface jsonData None with
  | (_, Some err) => Err err
  | (data, None) =>
      let params := foldl add_param ∅ (range_of order (default ∅ data)) in
      Ok (Values_Encode params)
  end.

(** [func (c *JsonServiceClient) parseError(statusCode, statusDescription, body) error] *)
Definition parseError (c : t) (statusCode : Z) (statusDescription : string) (body : string) : error :=
  match json_Unmarshal decode_errorResponse body ResponseStatus_zero with
  | (_, Some _) =>
      WebServiceExceptionErr
        (mkWebServiceException statusCode statusDescription
           (mkResponseStatus "" body "" [] None))
  | (errorResponse, None) =>
      WebServiceExceptionErr (mkWebServiceException statusCode statusDescription errorResponse)
  end.

(** [Send] up to the headers: the request that is handed to the
    transport, or the error returned before any exchange. *)
Definition Send_build (order : MapRange) (method : string) (request : Request) (c : t)
    : Result http_Request :=
  let requestPath := getRequestPath c request in
  let requestURL := BaseURL c ++ requestPath in
  try target :=
      (if String.eqb method "GET" || String.eqb method "DELETE" then
         try params := toQueryString order request or (fun err => Err err) in
         Ok (if negb (String.eqb params "") then requestURL ++ "?" ++ params else requestURL,
             None)
       else
         try jsonData := json_Marshal request
           or (fun err => Err (fmt_Errorf_w "failed to marshal request: %w" [] err)) in
         Ok (requestURL, Some jsonData))
    or (fun err => Err err) in
  try req := http_NewRequest method target.1 target.2
    or (fun err => Err (fmt_Errorf_w "failed to create request: %w" [] err)) in
  let req := req_Header_Set "Content-Type" "application/json" req in
  let req := req_Header_Set "Accept" "application/json" req in
  Ok (apply_headers order (Headers c) req).

(** [Send] from the response on.  [responseType] is the value the
    pointer in the interface refers to, [None] for nil. *)
Definition Send_finish {A : Type} (dec : Decoder A) (c : t) (resp : http_Response)
    (responseType : option A) : option A * option error :=
  try respBody := resp_Body resp
    or (fun err => (None, Some (fmt_Errorf_w "failed to read response: %w" [] err))) in
  if resp_StatusCode resp >=? 400 then
    (None, Some (parseError c (resp_StatusCode resp) (resp_Status resp) respBody))
  else
    match responseType with
    | Some v =>
        match json_Unmarshal dec respBody v with
        | (_, Some err) => (None, Some (fmt_Errorf_w "failed to unmarshal response: %w" [] err))
        | (v', None) => (Some v', None)
        end
    | None => (None, None)
    end.

(** [func (c *JsonServiceClient) Send(method, request, responseType)
    (interface{}, error)]: the two results and the client after the call. *)
Definition Send {A : Type} (dec : Decoder A) (order : MapRange) (do : Transport)
    (method : string) (request : Request) (responseType : option A) (c : t)
    : (option A * option error) * t :=
  match Send_build order method request c with
  | Err err => ((None, Some err), c)
  | Ok req =>
      match do (httpClient c) req with
      | Err err => ((None, Some (fmt_Errorf_w "failed to send request: %w" [] err)), c)
      | Ok resp => (Send_finish dec c resp responseType, c)
      end
  end.

(** [IReturn]: a request that knows its response.  [ResponseType] is the
    fresh instance the method returns a pointer to, [None] for nil, and
    [ResponseDecoder] how that type decodes. *)
Record IReturn (A : Type) : Type := mkIReturn {
  request_of : Request;
  ResponseType : option A;
  ResponseDecoder : Decoder A
}.
Arguments request_of {A} _.
Arguments ResponseType {A} _.
Arguments ResponseDecoder {A} _.

Definition Get {A : Type} order do (request : IReturn A) (c : t) :=
  Send (ResponseDecoder request) order do "GET" (request_of request) (ResponseType request) c.

Definition Post {A : Type} order do (request : IReturn A) (c : t) :=
  Send (ResponseDecoder request) order do "POST" (request_of request) (ResponseType request) c.

Definition Put {A : Type} order do (request : IReturn A) (c : t) :=
  Send (ResponseDecoder request) order do "PUT" (request_of request) (ResponseType request) c.

Definition Delete {A : Type} order do (request : IReturn A) (c : t) :=
  Send (ResponseDecoder request) order do "DELETE" (request_of request) (ResponseType request) c.

Definition Patch {A : Type} order do (request : IReturn A) (c : t) :=
  Send (ResponseDecoder request) order do "PATCH" (request_of request) (ResponseType request) c.

End JsonServiceClient.
End JsonServiceClient.

(** A Go identifier: a letter or an underscore, then letters, digits and
    underscores; a byte above 0x7F belongs to a letter outside ASCII. *)
Definition is_letter (c : ascii) : bool :=
  is_lower c || is_upper c || Ascii.eqb c "_" || (128 <=? N_of_ascii c)%N.

Definition is_identifier (s : string) : bool :=
  match s with
  | EmptyString => false
  | String c s' => is_letter c && forall_bytes (fun d => is_letter d || is_digit d) s'
  end.

(** A type name that is unqualified and no pointer: no dot in it and no
    [*] in front. *)
Definition is_bare_name (s : string) : bool :=
  negb (mem_byte "." s)
  && match strings_TrimPrefix_go s "*" with
     | Some _ => false
     | None => true
     end.

(* ===================================================================== *)
(** * The values of the test suite *)
(* ===================================================================== *)

(** A runtime for closed examples: a number is kept as its literal, the
    context is trivial, every URL parses and a path is joined by
    concatenation. *)
Definition test_runtime : GoRuntime := {|
  float64 := string;
  strconv_ParseFloat := Some;
  fmt_float64 := fun f => f;
  strconv_Quote := fun s => String dquote (s ++ String dquote "");
  Context := unit;
  context_Background := tt;
  url_JoinPath := fun base elem => Ok (base ++ elem);
  url_Parse_error := fun _ => None;
  json_SyntaxError_text := fun _ => "invalid JSON";
  json_UnmarshalTypeError_text := fun _ => "json: cannot unmarshal"
|}.

(** Two orders of iteration: the one of [map_to_list], and its reverse. *)
Program Definition range_forward : MapRange :=
  {| range_of := fun A m => map_to_list m |}.
Next Obligation. reflexivity. Qed.

Program Definition range_backward : MapRange :=
  {| range_of := fun A m => reverse (map_to_list m) |}.
Next Obligation. intros A m. apply reverse_Permutation. Qed.

(** [type HelloResponse struct { Result string }], tag [result] *)
Record HelloResponse : Type := mkHelloResponse {
  hr_Result : string
}.

Definition decode_HelloResponse : Decoder HelloResponse :=
  decode_struct ["result"]
    (fun _ j (r : HelloResponse) =>
       let '(x, ok) := decode_string j (hr_Result r) in (mkHelloResponse x, ok)).

(** [&HelloRequest{Name: "World"}] *)
Definition HelloRequest_World : Request :=
  mkRequest (TPtr (TNamed "servicestack" "HelloRequest")) (Ok (js "{'name':'World'}")) "&{World}".

(** The calls that set the [Authorization] header. *)
Inductive AuthCall : Type :=
| CallSetBearerToken (token : string)
| CallSetCredentials (username password : string).

Definition run_AuthCall (call : AuthCall) (c : JsonServiceClient.t) : JsonServiceClient.t :=
  match call with
  | CallSetBearerToken token => JsonServiceClient.SetBearerToken token c
  | CallSetCredentials username password => JsonServiceClient.SetCredentials username password c
  end.

Definition AuthCall_header (call : AuthCall) : string :=
  match call with
  | CallSetBearerToken token => "Bearer " ++ token
  | CallSetCredentials username password =>
      "Basic " ++ base64_StdEncoding_EncodeToString (username ++ ":" ++ password)
  end.

(** The values a header map holds under one key. *)
Definition values_under (key : string) (headers : gmap string string) : list string :=
  (filter (fun kv => kv.1 = key) (map_to_list headers)).*2.

(** What [toQueryString] collects from a decoded map: under each key
    that does not hold nil, the one rendering of its value. *)
Definition query_values `{GoRuntime} (data : gmap string Value) : url_Values :=
  omap (fun value : Value =>
          match value with
          | VNil => None
          | _ => Some [Value_print value]
          end) data.

(** A header map configures a header when one of its keys is a spelling
    of that header's canonical name. *)
Definition configured (name : string) (headers : gmap string string) : Prop :=
  exists key value, headers !! key = Some value /\ CanonicalMIMEHeaderKey key = name.

(* ===================================================================== *)
(** * What the servers of the test suite do with a request *)
(* ===================================================================== *)

(** [errors.Unwrap(err)] *)
Definition errors_Unwrap (err : error) : option error :=
  match err with
  | wrapError _ inner => Some inner
  | _ => None
  end.

(** [url.QueryUnescape]: [+] is a space and [%XX] the byte of the two hex
    digits; a [%] without two hex digits after it is an error. *)
Fixpoint url_QueryUnescape (s : string) : option string :=
  match s with
  | EmptyString => Some EmptyString
  | String c s' =>
      if Ascii.eqb c "%" then
        match s' with
        | String h (String l rest) =>
            match hex_digit h, hex_digit l with
            | Some x, Some y =>
                match url_QueryUnescape rest with
                | Some r => Some (String (ascii_of_N (x * 16 + y)) r)
                | None => None
                end
            | _, _ => None
            end
        | _ => None
        end
      else
        match url_QueryUnescape s' with
        | Some r => Some (String (if Ascii.eqb c "+" then " "%char else c) r)
        | None => None
        end
  end.

(** [strings.Cut(s, sep)] for a one-byte separator: what is before and
    after its first occurrence, all of [s] and nothing when there is none. *)
Fixpoint strings_Cut (s : string) (sep : ascii) : string * string :=
  match s with
  | EmptyString => (EmptyString, EmptyString)
  | String c s' =>
      if Ascii.eqb c sep then (EmptyString, s')
      else let '(before, after) := strings_Cut s' sep in (String c before, after)
  end.

(** One turn of the loop of [url.ParseQuery]: a segment between two [&].
    The flag is false once an error was met; the loop goes on. *)
Definition parseQuery_segment (st : url_Values * bool) (segment : string) : url_Values * bool :=
  if mem_byte ";" segment then (st.1, false)
  else if String.eqb segment "" then st
  else
    let '(key, value) := strings_Cut segment "=" in
    match url_QueryUnescape key with
    | None => (st.1, false)
    | Some key =>
        match url_QueryUnescape value with
        | None => (st.1, false)
        | Some value => (Values_Add key value st.1, st.2)
        end
    end.

(** [url.ParseQuery(query)], which [r.URL.Query()] calls: the values and
    whether no error was met. *)
Definition url_ParseQuery (query : string) : url_Values * bool :=
  foldl parseQuery_segment (∅, true)
    (if String.eqb query "" then [] else strings_Split query "&").

(** [func (v Values) Get(key string) string]: the first value under
    [key], the empty string when there is none. *)
Definition Values_Get (key : string) (v : url_Values) : string :=
  match v !! key with
  | Some (x :: _) => x
  | _ => ""
  end.

(** A byte that separates nothing in a query string. *)
Definition query_plain (c : ascii) : bool := negb (mem_byte c "&;=").

(** The place of a digit in a table, the length of the table when it is
    not in it. *)
Fixpoint index_byte (c : ascii) (tbl : string) : N :=
  match tbl with
  | EmptyString => 0%N
  | String d tbl' => if Ascii.eqb c d then 0%N else N.succ (index_byte c tbl')
  end.

(** The bytes that the digits of [basicAuth] stand for, as a server
    reads them back: four digits give three bytes, a group padded with
    [=] gives one or two and ends the text. *)
Fixpoint base64_digits_bytes (s : string) : string :=
  match s with
  | String c1 (String c2 (String c3 (String c4 rest))) =>
      let n1 := index_byte c1 encodeStd in
      let n2 := index_byte c2 encodeStd in
      let n3 := index_byte c3 encodeStd in
      let n4 := index_byte c4 encodeStd in
      let b1 := ascii_of_N (n1 * 4 + n2 / 16)%N in
      let b2 := ascii_of_N ((n2 mod 16) * 16 + n3 / 4)%N in
      let b3 := ascii_of_N ((n3 mod 4) * 64 + n4)%N in
      if Ascii.eqb c3 "=" then String b1 EmptyString
      else if Ascii.eqb c4 "=" then String b1 (String b2 EmptyString)
      else String b1 (String b2 (String b3 (base64_digits_bytes rest)))
  | _ => EmptyString
  end.

(** Two transports agree on the requests that satisfy [P]. *)
Definition agree_on `{GoRuntime} (P : http_Request -> Prop) (do do' : Transport) : Prop :=
  forall cl req, P req -> do cl req = do' cl req.

(** The body [doRequest] sends for a request value: its JSON, none for nil. *)
Definition body_of (request : option Request) : option string :=
  match request with
  | Some r =>
      match json_Marshal r with
      | Ok jsonData => Some jsonData
      | Err _ => None
      end
  | None => None
  end.

(** The type assertion of an error to a pointer to [WebServiceException],
    as the tests and the examples make it: the exception when the error
    is one itself, with no look through wrapped errors. *)
Definition as_WebServiceException (err : error) : option WebServiceException :=
  match err with
  | WebServiceExceptionErr e => Some e
  | _ => None
  end.

(* ===================================================================== *)
(** * Properties *)
(* ===================================================================== *)

#[local] Arguments String.append !_ _ / : simpl nomatch.

Lemma append_assoc (a b c : string) : (a ++ b) ++ c = a ++ (b ++ c).
Proof. induction a as [|x a IH]; simpl; [reflexivity | by rewrite IH]. Qed.

Lemma append_nil_r (a : string) : a ++ "" = a.
Proof. induction a as [|x a IH]; simpl; [reflexivity | by rewrite IH]. Qed.

(** C7: the text of a [WebServiceException] is the status code in
    decimal, a space and the status description, followed by a colon, a
    space and the message exactly when the message is not empty. *)
Theorem WebServiceException_Error_rendering (e : WebServiceException) :
  WebServiceException_Error e =
    strconv_Itoa (StatusCode e) ++ " " ++ StatusDescription e ++
      (if decide (Message (wsResponseStatus e) = "") then ""
       else ": " ++ Message (wsResponseStatus e)).
Proof.
  unfold WebServiceException_Error.
  destruct (String.eqb_spec (Message (wsResponseStatus e)) "") as [Hm | Hm].
  - rewrite decide_True by done. cbn -[strconv_Itoa]. reflexivity.
  - rewrite decide_False by done. cbn -[strconv_Itoa].
    by rewrite append_nil_r.
Qed.

(** ** Header maps *)

Lemma filter_none {A : Type} (P : A -> Prop) `{!forall x, Decision (P x)} (l : list A) :
  Forall (fun x => ~ P x) l -> filter P l = [].
Proof.
  induction 1 as [|x l Hx _ IH]; [done|].
  by rewrite filter_cons_False.
Qed.

Lemma values_under_lookup (headers : gmap string string) (key value : string) :
  headers !! key = Some value -> values_under key headers = [value].
Proof.
  intros Hl. unfold values_under.
  assert (Hp : map_to_list headers ≡ₚ (key, value) :: map_to_list (delete key headers)).
  { rewrite <- map_to_list_insert by apply lookup_delete_eq.
    by rewrite insert_delete_id. }
  assert (Hf : filter (fun kv : string * string => kv.1 = key) (map_to_list headers)
               ≡ₚ [(key, value)]).
  { rewrite Hp. rewrite filter_cons_True by done.
    apply Permutation_skip.
    rewrite filter_none; [done|].
    apply Forall_forall. intros [k v] Hin Hk. simpl in Hk. subst k.
    apply elem_of_map_to_list in Hin. by rewrite lookup_delete_eq in Hin. }
  apply Permutation_singleton_r in Hf. by rewrite Hf.
Qed.

Lemma run_AuthCall_Headers (call : AuthCall) (c : JsonServiceClient.t) :
  JsonServiceClient.Headers (run_AuthCall call c) =
    <["Authorization" := AuthCall_header call]> (JsonServiceClient.Headers c).
Proof. by destruct call. Qed.

Lemma run_AuthCall_frame (calls : list AuthCall) (c : JsonServiceClient.t) :
  let c' := foldl (fun c call => run_AuthCall call c) c calls in
  delete "Authorization" (JsonServiceClient.Headers c') =
    delete "Authorization" (JsonServiceClient.Headers c)
  /\ JsonServiceClient.BaseURL c' = JsonServiceClient.BaseURL c
  /\ JsonServiceClient.httpClient c' = JsonServiceClient.httpClient c.
Proof.
  revert c. induction calls as [|call calls IH]; intros c; simpl; [done|].
  destruct (IH (run_AuthCall call c)) as (Hd & Hb & Hh). simpl in *.
  rewrite Hd, Hb, Hh, run_AuthCall_Headers, delete_insert_eq.
  by destruct call.
Qed.

(** C8: [SetBearerToken("abc")] stores [Bearer abc] under [Authorization]
    and [SetCredentials("user", "pass")] stores [Basic dXNlcjpwYXNz], the
    padded standard base64 of [user:pass]; in general the stored value is
    [Bearer] and the token, or [Basic] and the base64 of
    [username:password].  After any sequence of these calls the map
    holds exactly one value under [Authorization], the one of the last
    call, and nothing else of the client has changed. *)
Theorem Authorization_overwritten :
  (forall c, JsonServiceClient.Headers (JsonServiceClient.SetBearerToken "abc" c)
               !! "Authorization" = Some "Bearer abc")
  /\ (forall c, JsonServiceClient.Headers (JsonServiceClient.SetCredentials "user" "pass" c)
                  !! "Authorization" = Some "Basic dXNlcjpwYXNz")
  /\ (forall token c, JsonServiceClient.Headers (JsonServiceClient.SetBearerToken token c)
                        !! "Authorization" = Some ("Bearer " ++ token))
  /\ (forall username password c,
        JsonServiceClient.Headers (JsonServiceClient.SetCredentials username password c)
          !! "Authorization"
        = Some ("Basic " ++ base64_StdEncoding_EncodeToString (username ++ ":" ++ password)))
  /\ (forall calls call c,
        let c' := foldl (fun c call => run_AuthCall call c) c (calls ++ [call]) in
        values_under "Authorization" (JsonServiceClient.Headers c') = [AuthCall_header call]
        /\ delete "Authorization" (JsonServiceClient.Headers c')
           = delete "Authorization" (JsonServiceClient.Headers c)
        /\ JsonServiceClient.BaseURL c' = JsonServiceClient.BaseURL c
        /\ JsonServiceClient.httpClient c' = JsonServiceClient.httpClient c).
Proof.
  repeat split.
  - intros c. apply lookup_insert_eq.
  - intros c. cbn. apply lookup_insert_eq.
  - intros token c. apply lookup_insert_eq.
  - intros username password c. apply lookup_insert_eq.
  - apply values_under_lookup. rewrite foldl_app. cbn [foldl].
    rewrite run_AuthCall_Headers. apply lookup_insert_eq.
  - apply (run_AuthCall_frame (calls ++ [call]) c).
  - apply (run_AuthCall_frame (calls ++ [call]) c).
  - apply (run_AuthCall_frame (calls ++ [call]) c).
Qed.

(** ** Type names and paths *)

Lemma forall_bytes_not_mem (p : ascii -> bool) (sep : ascii) (s : string) :
  forall_bytes p s = true -> p sep = false -> mem_byte sep s = false.
Proof.
  intros Hall Hsep. induction s as [|c s IH]; [done|].
  simpl in *. apply andb_true_iff in Hall as [Hc Hs].
  destruct (Ascii.eqb_spec sep c) as [-> | _]; [congruence | by apply IH].
Qed.



(** A Go identifier is a bare name. *)
Lemma identifier_is_bare_name (s : string) : is_identifier s = true -> is_bare_name s = true.
Proof.
  destruct s as [|c s]; [done|]. cbn [is_identifier]. intros Hid.
  apply andb_true_iff in Hid as [Hc Hs].
  unfold is_bare_name. cbn [mem_byte strings_TrimPrefix_go].
  destruct (Ascii.eqb_spec "."%char c) as [<- | _]; [done|].
  destruct (Ascii.eqb_spec "*"%char c) as [<- | _]; [done|].
  cbn [orb]. by rewrite (forall_bytes_not_mem _ _ _ Hs).
Qed.

Lemma rev_append_bytes_app (cur : list ascii) (s : string) :
  rev_append_bytes cur s = rev_append_bytes cur "" ++ s.
Proof.
  revert s. induction cur as [|c cur IH]; intros s; [done|].
  simpl. rewrite (IH (String c s)), (IH (String c "")).
  by rewrite append_assoc.
Qed.

(** A string without the separator is one piece. *)
Lemma strings_Split_go_none (sep : ascii) (cur : list ascii) (s : string) :
  mem_byte sep s = false -> strings_Split_go sep cur s = [rev_append_bytes cur s].
Proof.
  revert cur. induction s as [|c s IH]; intros cur Hs; [done|].
  simpl in *. rewrite Ascii.eqb_sym in Hs.
  destruct (Ascii.eqb c sep); [done|]. by rewrite IH.
Qed.

(** The last piece is what follows the last separator. *)
Lemma strings_Split_go_last (sep : ascii) (cur : list ascii) (pre name : string) :
  mem_byte sep name = false ->
  exists front, front <> [] /\
    strings_Split_go sep cur (pre ++ String sep name) = (front ++ [name])%list.
Proof.
  intros Hname. revert cur. induction pre as [|c pre IH]; intros cur; simpl.
  - rewrite Ascii.eqb_refl, strings_Split_go_none by done.
    by exists [rev_append_bytes cur ""].
  - destruct (Ascii.eqb c sep).
    + destruct (IH []) as (front & _ & ->).
      by exists (rev_append_bytes cur "" :: front).
    + apply IH.
Qed.



(** ** The query string *)

Section QueryString.
Context `{GoRuntime}.

Lemma Sprintf_v (value : Value) : fmt_Sprintf "%v" [ArgValue value] = Value_print value.
Proof. cbn -[Value_print]. apply append_nil_r. Qed.

Lemma add_param_other (params : url_Values) (kv : string * Value) (key : string) :
  kv.1 <> key -> JsonServiceClient.add_param params kv !! key = params !! key.
Proof.
  intros Hne. unfold JsonServiceClient.add_param, Values_Add.
  destruct kv.2; by rewrite ?lookup_insert_ne.
Qed.

Lemma add_param_fresh (params : url_Values) (key : string) (value : Value) :
  params !! key = None ->
  JsonServiceClient.add_param params (key, value) !! key = query_values {[key := value]} !! key.
Proof.
  intros Hnone. unfold JsonServiceClient.add_param, Values_Add, query_values.
  rewrite lookup_omap, lookup_singleton_eq. cbn [fst snd option_bind mbind].
  destruct value; rewrite ?lookup_insert_eq, ?Hnone, ?Sprintf_v; done.
Qed.

(** A key the loop does not visit keeps what it had. *)
Lemma foldl_add_param_other (entries : list (string * Value)) (params : url_Values) (key : string) :
  key ∉ entries.*1 -> foldl JsonServiceClient.add_param params entries !! key = params !! key.
Proof.
  revert params. induction entries as [|kv entries IH]; intros params Hnot; [done|].
  cbn [foldl]. rewrite fmap_cons, not_elem_of_cons in Hnot. destruct Hnot as [Hne Hnot].
  rewrite IH by done. apply add_param_other. congruence.
Qed.

(** A key the loop visits once, and that had nothing, gets the rendering
    of its value. *)
Lemma foldl_add_param_visited (entries : list (string * Value)) (params : url_Values)
    (key : string) (value : Value) :
  NoDup entries.*1 -> (key, value) ∈ entries -> params !! key = None ->
  foldl JsonServiceClient.add_param params entries !! key = query_values {[key := value]} !! key.
Proof.
  revert params. induction entries as [|kv entries IH]; intros params Hnd Hin Hnone.
  { by apply elem_of_nil in Hin. }
  rewrite fmap_cons in Hnd. apply NoDup_cons in Hnd as [Hfresh Hnd].
  cbn [foldl]. apply elem_of_cons in Hin as [<- | Hin].
  - rewrite foldl_add_param_other by done. by apply add_param_fresh.
  - apply IH; [done | done |].
    rewrite add_param_other; [done|].
    intros Heq. apply Hfresh. rewrite Heq.
    apply list_elem_of_fmap. by exists (key, value).
Qed.

(** Whatever the order of the loop, it collects [query_values]. *)
Lemma foldl_add_param_range (order : MapRange) (data : gmap string Value) :
  foldl JsonServiceClient.add_param ∅ (range_of order data) = query_values data.
Proof.
  pose proof (range_of_perm order _ data) as Hperm.
  apply map_eq. intros key.
  destruct (data !! key) as [value|] eqn:Hkey.
  - rewrite (foldl_add_param_visited _ _ key value).
    + unfold query_values. by rewrite !lookup_omap, lookup_singleton_eq, Hkey.
    + rewrite Hperm. apply NoDup_fst_map_to_list.
    + rewrite Hperm. by apply elem_of_map_to_list.
    + apply lookup_empty.
  - rewrite foldl_add_param_other.
    + unfold query_values. by rewrite lookup_empty, lookup_omap, Hkey.
    + rewrite Hperm. intros Hin. apply list_elem_of_fmap in Hin as ([k v] & -> & Hin).
      apply elem_of_map_to_list in Hin. simpl in *. congruence.
Qed.

(** [toQueryString] without its loop. *)
Lemma toQueryString_unfold (order : MapRange) (v : Request) :
  JsonServiceClient.toQueryString order v =
    match json_Marshal v with
    | Err err => Err err
    | Ok jsonData =>
        match json_Unmarshal decode_map_interface jsonData None with
        | (_, Some err) => Err err
        | (data, None) =>
            Ok (strings_Join (encode_pair <$> Values_pairs (query_values (default ∅ data))) "&")
        end
    end.
Proof.
  unfold JsonServiceClient.toQueryString.
  destruct (json_Marshal v) as [jsonData | err]; [|done].
  destruct (json_Unmarshal decode_map_interface jsonData None) as [data [err|]]; [done|].
  by rewrite foldl_add_param_range.
Qed.

End QueryString.

(** ** Sorted keys *)

(** [String.le] compares byte by byte, as Go compares strings. *)
Lemma String_le_bytewise (a b : ascii) (s t : string) :
  String.le (String a s) (String b t) <->
  (N_of_ascii a < N_of_ascii b)%N \/ (a = b /\ String.le s t).
Proof.
  unfold String.le, String.leb. cbn [String.compare]. unfold Ascii.compare.
  destruct (N.compare_spec (N_of_ascii a) (N_of_ascii b)) as [Heq | Hlt | Hgt].
  - assert (a = b) as -> by (by rewrite <- (ascii_N_embedding a), Heq, ascii_N_embedding).
    split; [by right | intros [? | [_ ?]]; [lia | done]].
  - split; [by left | done].
  - split; [done|]. intros [? | [-> _]]; lia.
Qed.

Lemma String_le_nil (s : string) : String.le "" s.
Proof. by destruct s. Qed.

Lemma sorted_keys_Permutation {A : Type} (m : gmap string A) :
  sorted_keys m ≡ₚ (map_to_list m).*1.
Proof. apply merge_sort_Permutation. Qed.

Lemma sorted_keys_sorted {A : Type} (m : gmap string A) :
  StronglySorted String.le (sorted_keys m).
Proof. apply StronglySorted_merge_sort; apply _. Qed.

Lemma sorted_keys_NoDup {A : Type} (m : gmap string A) : NoDup (sorted_keys m).
Proof. rewrite sorted_keys_Permutation. apply NoDup_fst_map_to_list. Qed.

Lemma sorted_keys_elem {A : Type} (m : gmap string A) (key : string) :
  key ∈ sorted_keys m <-> is_Some (m !! key).
Proof.
  rewrite sorted_keys_Permutation, list_elem_of_fmap. split.
  - intros ([k v] & -> & Hin). apply elem_of_map_to_list in Hin. by exists v.
  - intros [v Hv]. exists (key, v). split; [done|]. by apply elem_of_map_to_list.
Qed.

Lemma Values_pairs_elem (v : url_Values) (key value : string) :
  (key, value) ∈ Values_pairs v <-> exists vs, v !! key = Some vs /\ value ∈ vs.
Proof.
  unfold Values_pairs. rewrite list_elem_of_bind. split.
  - intros (k & Hin & Hk). apply list_elem_of_fmap in Hin as (x & [= -> ->] & Hx).
    apply sorted_keys_elem in Hk as [vs Hvs]. rewrite Hvs in Hx. by exists vs.
  - intros (vs & Hvs & Hin). exists key. split.
    + rewrite Hvs. apply list_elem_of_fmap. by exists value.
    + apply sorted_keys_elem. by exists vs.
Qed.

(** The pairs come out in the order of their keys. *)
Lemma pairs_of_sorted_keys (values : string -> list string) (keys : list string) :
  StronglySorted String.le keys ->
  StronglySorted String.le (k ← keys; (fun x => (k, x)) <$> values k).*1.
Proof.
  induction 1 as [|key keys Hsorted IH Hle]; [constructor|].
  cbn [mbind list_bind]. rewrite fmap_app. apply StronglySorted_app.
  split_and!.
  - intros x y Hx Hy.
    apply list_elem_of_fmap in Hx as ([k1 v1] & -> & Hx).
    apply list_elem_of_fmap in Hx as (? & [= -> ->] & _).
    apply list_elem_of_fmap in Hy as ([k2 v2] & -> & Hy).
    apply list_elem_of_bind in Hy as (k & Hy & Hk).
    apply list_elem_of_fmap in Hy as (? & [= -> ->] & _).
    simpl. rewrite Forall_forall in Hle. by apply Hle.
  - rewrite <- list_fmap_compose.
    induction (values key) as [|x xs IHxs]; cbn; constructor; [done|].
    apply Forall_forall. intros y Hy.
    apply list_elem_of_fmap in Hy as (? & -> & _). done.
  - exact IH.
Qed.

Lemma Values_pairs_sorted (v : url_Values) : StronglySorted String.le (Values_pairs v).*1.
Proof. apply pairs_of_sorted_keys, sorted_keys_sorted. Qed.

Section QueryPairs.
Context `{GoRuntime}.

Lemma query_values_lookup (data : gmap string Value) (key : string) (vs : list string) :
  query_values data !! key = Some vs <->
  exists value, data !! key = Some value /\ value <> VNil /\ vs = [Value_print value].
Proof.
  unfold query_values. rewrite lookup_omap. split.
  - destruct (data !! key) as [value|]; [|done]. cbn.
    intros Hvs. exists value. by destruct value; simplify_eq.
  - intros (value & -> & Hval & ->). cbn. by destruct value.
Qed.

(** Each key of [query_values] gives exactly one pair. *)
Lemma query_pairs_keys (data : gmap string Value) :
  (Values_pairs (query_values data)).*1 = sorted_keys (query_values data).
Proof.
  unfold Values_pairs.
  assert (Hall : Forall (fun k => exists s, query_values data !! k = Some [s])
                   (sorted_keys (query_values data))).
  { apply Forall_forall. intros k Hk. apply sorted_keys_elem in Hk as [vs Hvs].
    pose proof Hvs as Hq. apply query_values_lookup in Hq as (value & _ & _ & ->).
    by exists (Value_print value). }
  induction Hall as [|k ks [s Hs] _ IH]; [done|].
  cbn [mbind list_bind]. rewrite fmap_app, IH, Hs. done.
Qed.

Lemma query_pairs_elem (data : gmap string Value) (key s : string) :
  (key, s) ∈ Values_pairs (query_values data) <->
  exists value, data !! key = Some value /\ value <> VNil /\ s = Value_print value.
Proof.
  rewrite Values_pairs_elem. split.
  - intros (vs & Hvs & Hin). apply query_values_lookup in Hvs as (value & Hd & Hn & ->).
    apply list_elem_of_singleton in Hin. by exists value.
  - intros (value & Hd & Hn & ->). exists [Value_print value]. split.
    + apply query_values_lookup. by exists value.
    + by apply list_elem_of_singleton.
Qed.

End QueryPairs.

(** ** Outgoing requests *)

Section Requests.
Context `{GoRuntime}.

Lemma http_NewRequestWithContext_Ok (ctx : option Context) (method url : string)
    (body : option string) (req : http_Request) :
  http_NewRequestWithContext ctx method url body = Ok req ->
  URL req = url /\ Body req = body /\ Header req = ∅.
Proof.
  unfold http_NewRequestWithContext.
  destruct (negb _); [done|]. destruct ctx; [|done].
  destruct (url_Parse_error url); [done|]. by intros [= <-].
Qed.

(** A request is made whenever the method is a token and the URL parses. *)
Lemma http_NewRequest_valid (method url : string) (body : option string) :
  method <> "" -> forall_bytes validHeaderFieldByte method = true ->
  url_Parse_error url = None ->
  http_NewRequest method url body = Ok (mk_http_Request method url body ∅ context_Background).
Proof.
  intros Hne Htok Hurl. unfold http_NewRequest, http_NewRequestWithContext.
  destruct (String.eqb_spec method ""); [done|]. by rewrite Htok, Hurl.
Qed.

Lemma req_Header_Set_fields (key value : string) (req : http_Request) :
  URL (req_Header_Set key value req) = URL req
  /\ Body (req_Header_Set key value req) = Body req
  /\ Method (req_Header_Set key value req) = Method req.
Proof. done. Qed.

Lemma apply_headers_fields (order : MapRange) (headers : gmap string string) (req : http_Request) :
  URL (apply_headers order headers req) = URL req
  /\ Body (apply_headers order headers req) = Body req
  /\ Method (apply_headers order headers req) = Method req.
Proof.
  unfold apply_headers. generalize (range_of order headers) as entries.
  intros entries. revert req. induction entries as [|kv entries IH]; intros req; [done|].
  cbn [foldl]. destruct (IH (req_Header_Set kv.1 kv.2 req)) as (-> & -> & ->). done.
Qed.

(** A header no configured key names keeps the value it had before the
    configured headers were applied. *)
Lemma apply_headers_untouched (order : MapRange) (headers : gmap string string)
    (req : http_Request) (name : string) :
  (forall key value, headers !! key = Some value -> CanonicalMIMEHeaderKey key <> name) ->
  Header (apply_headers order headers req) !! name = Header req !! name.
Proof.
  intros Hnone. unfold apply_headers.
  assert (Hall : Forall (fun kv => CanonicalMIMEHeaderKey kv.1 <> name) (range_of order headers)).
  { apply Forall_forall. intros [k v] Hin. rewrite range_of_perm in Hin.
    apply elem_of_map_to_list in Hin. by apply (Hnone k v). }
  revert req. induction Hall as [|kv entries Hkv _ IH]; intros req; [done|].
  cbn [foldl]. rewrite IH. unfold req_Header_Set, Header_Set. cbn.
  by rewrite lookup_insert_ne.
Qed.

(** In general a header holds one value after the configured headers
    were applied: the one it had, or a configured one of that name. *)
Lemma apply_headers_lookup (order : MapRange) (headers : gmap string string)
    (req : http_Request) (name : string) :
  Header (apply_headers order headers req) !! name = Header req !! name
  \/ exists key value, headers !! key = Some value /\ CanonicalMIMEHeaderKey key = name
       /\ Header (apply_headers order headers req) !! name = Some [value].
Proof.
  unfold apply_headers.
  assert (Hall : Forall (fun kv => headers !! kv.1 = Some kv.2) (range_of order headers)).
  { apply Forall_forall. intros [k v] Hin. rewrite range_of_perm in Hin.
    by apply elem_of_map_to_list in Hin. }
  revert req. induction Hall as [|kv entries Hkv _ IH]; intros req; [by left|].
  cbn [foldl]. destruct (IH (req_Header_Set kv.1 kv.2 req)) as [-> | Hset]; [|by right].
  unfold req_Header_Set, Header_Set. cbn.
  destruct (decide (CanonicalMIMEHeaderKey kv.1 = name)) as [Heq | Hne].
  - right. exists kv.1, kv.2. by rewrite Heq, lookup_insert_eq.
  - left. by rewrite lookup_insert_ne.
Qed.

End Requests.

Section SendBuild.
Context `{GoRuntime}.

(** The default headers of [Send], then the configured ones. *)
Lemma Send_build_query (order : MapRange) (method : string) (request : Request)
    (c : JsonServiceClient.t) :
  method = "GET" \/ method = "DELETE" ->
  JsonServiceClient.Send_build order method request c =
    match JsonServiceClient.toQueryString order request with
    | Err err => Err err
    | Ok params =>
        match http_NewRequest method
                ((JsonServiceClient.BaseURL c ++ JsonServiceClient.getRequestPath c request)
                   ++ (if decide (params = "") then "" else "?" ++ params)) None with
        | Err err => Err (fmt_Errorf_w "failed to create request: %w" [] err)
        | Ok req =>
            Ok (apply_headers order (JsonServiceClient.Headers c)
                  (req_Header_Set "Accept" "application/json"
                     (req_Header_Set "Content-Type" "application/json" req)))
        end
    end.
Proof.
  intros Hm. unfold JsonServiceClient.Send_build.
  replace (String.eqb method "GET" || String.eqb method "DELETE") with true
    by (by destruct Hm as [-> | ->]).
  destruct (JsonServiceClient.toQueryString order request) as [params | err]; [|done].
  cbn [fst snd]. destruct (String.eqb_spec params "") as [-> | Hne].
  - rewrite decide_True by done. cbn [negb]. by rewrite append_nil_r.
  - rewrite decide_False by done. by cbn [negb].
Qed.

Lemma Send_build_body (order : MapRange) (method : string) (request : Request)
    (c : JsonServiceClient.t) :
  method <> "GET" -> method <> "DELETE" ->
  JsonServiceClient.Send_build order method request c =
    match json_Marshal request with
    | Err err => Err (fmt_Errorf_w "failed to marshal request: %w" [] err)
    | Ok jsonData =>
        match http_NewRequest method
                (JsonServiceClient.BaseURL c ++ JsonServiceClient.getRequestPath c request)
                (Some jsonData) with
        | Err err => Err (fmt_Errorf_w "failed to create request: %w" [] err)
        | Ok req =>
            Ok (apply_headers order (JsonServiceClient.Headers c)
                  (req_Header_Set "Accept" "application/json"
                     (req_Header_Set "Content-Type" "application/json" req)))
        end
    end.
Proof.
  intros Hg Hd. unfold JsonServiceClient.Send_build.
  destruct (String.eqb_spec method "GET"); [done|].
  destruct (String.eqb_spec method "DELETE"); [done|].
  cbn [orb]. by destruct (json_Marshal request).
Qed.

(** What [Send_build] hands over keeps the URL and the body it was
    created with. *)
Lemma Send_build_shape (order : MapRange) (method : string) (request : Request)
    (c : JsonServiceClient.t) (req : http_Request) :
  JsonServiceClient.Send_build order method request c = Ok req ->
  exists req0,
    http_NewRequest method (URL req) (Body req) = Ok req0
    /\ req = apply_headers order (JsonServiceClient.Headers c)
               (req_Header_Set "Accept" "application/json"
                  (req_Header_Set "Content-Type" "application/json" req0)).
Proof.
  unfold JsonServiceClient.Send_build.
  destruct (if String.eqb method "GET" || String.eqb method "DELETE" then _ else _)
    as [[url body] | err]; [|done].
  cbn [fst snd].
  destruct (http_NewRequest method url body) as [req0 | err] eqn:Hnew; [|done].
  intros [= <-]. exists req0. split; [|done].
  destruct (apply_headers_fields order (JsonServiceClient.Headers c)
              (req_Header_Set "Accept" "application/json"
                 (req_Header_Set "Content-Type" "application/json" req0))) as (-> & -> & _).
  cbn. apply http_NewRequestWithContext_Ok in Hnew as Hf.
  destruct Hf as (-> & -> & _). done.
Qed.

End SendBuild.



(** C10: [toQueryString] gives the same result whatever the order in
    which the runtime iterates over the decoded map; when the request
    serializes and decodes, the result is the [key=value] pairs of the
    entries that do not hold nil, each key once, in ascending order of
    the keys, keys and values query-escaped, joined by [&]; the order
    on the keys compares them byte by byte. *)
Theorem toQueryString_deterministic `{GoRuntime} (v : Request) :
  (forall order1 order2,
     JsonServiceClient.toQueryString order1 v = JsonServiceClient.toQueryString order2 v)
  /\ (forall order,
        JsonServiceClient.toQueryString order v =
          match json_Marshal v with
          | Err err => Err err
          | Ok jsonData =>
              match json_Unmarshal decode_map_interface jsonData None with
              | (_, Some err) => Err err
              | (data, None) =>
                  Ok (strings_Join
                        (encode_pair <$> Values_pairs (query_values (default ∅ data))) "&")
              end
          end)
  /\ (forall (a b : ascii) (s t : string),
        String.le (String a s) (String b t) <->
        (N_of_ascii a < N_of_ascii b)%N \/ (a = b /\ String.le s t))
  /\ (forall data : gmap string Value,
        StronglySorted String.le (Values_pairs (query_values data)).*1
        /\ NoDup (Values_pairs (query_values data)).*1
        /\ forall key s,
             (key, s) ∈ Values_pairs (query_values data) <->
             exists value, data !! key = Some value /\ value <> VNil /\ s = Value_print value).
Proof.
  split_and!.
  - intros order1 order2. by rewrite !toQueryString_unfold.
  - intros order. apply toQueryString_unfold.
  - apply String_le_bytewise.
  - intros data. split_and!.
    + apply Values_pairs_sorted.
    + rewrite query_pairs_keys. apply sorted_keys_NoDup.
    + apply query_pairs_elem.
Qed.

(** C3: for [GET] and [DELETE] the request that [Send] builds has no
    body, and its URL is the base URL and the path, followed by [?] and
    the query string of [toQueryString] when that is not empty; for
    [POST], [PUT] and [PATCH] its body is the JSON of the whole request
    and its URL is the base URL and the path alone.  In both cases the
    request is built as soon as the encoding succeeds and the URL
    parses.  The query string holds one pair for each member of the
    request's JSON object whose value is not null, so the request with
    the one field [name] set to [World] gives [name=World]. *)
Theorem Send_encoding_by_method `{GoRuntime} (order : MapRange) (method : string)
    (request : Request) (c : JsonServiceClient.t) :
  let target := JsonServiceClient.BaseURL c ++ JsonServiceClient.getRequestPath c request in
  let with_query params := target ++ (if decide (params = "") then "" else "?" ++ params) in
  (method = "GET" \/ method = "DELETE" ->
     (forall req, JsonServiceClient.Send_build order method request c = Ok req ->
        Body req = None
        /\ exists params, JsonServiceClient.toQueryString order request = Ok params
             /\ URL req = with_query params)
     /\ (forall params, JsonServiceClient.toQueryString order request = Ok params ->
           url_Parse_error (with_query params) = None ->
           exists req, JsonServiceClient.Send_build order method request c = Ok req))
  /\ (method = "POST" \/ method = "PUT" \/ method = "PATCH" ->
        (forall req, JsonServiceClient.Send_build order method request c = Ok req ->
           URL req = target
           /\ exists jsonData, json_Marshal request = Ok jsonData /\ Body req = Some jsonData)
        /\ (forall jsonData, json_Marshal request = Ok jsonData ->
              url_Parse_error target = None ->
              exists req, JsonServiceClient.Send_build order method request c = Ok req))
  /\ (forall jsonData data,
        json_Marshal request = Ok jsonData ->
        json_Unmarshal decode_map_interface jsonData None = (data, None) ->
        JsonServiceClient.toQueryString order request =
          Ok (strings_Join (encode_pair <$> Values_pairs (query_values (default ∅ data))) "&")
        /\ forall key s,
             (key, s) ∈ Values_pairs (query_values (default ∅ data)) <->
             exists value, default ∅ data !! key = Some value /\ value <> VNil
                           /\ s = Value_print value)
  /\ JsonServiceClient.toQueryString order HelloRequest_World = Ok "name=World".
Proof.
  intros target with_query. split_and!.
  - intros Hm. rewrite (Send_build_query _ _ _ _ Hm). fold target. split.
    + intros req Hbuild.
      destruct (JsonServiceClient.toQueryString order request) as [params|]; [|done].
      destruct (http_NewRequest _ _ _) as [req0|] eqn:Hnew; [|done].
      injection Hbuild as <-.
      destruct (apply_headers_fields order (JsonServiceClient.Headers c)
                  (req_Header_Set "Accept" "application/json"
                     (req_Header_Set "Content-Type" "application/json" req0)))
        as (-> & -> & _).
      apply http_NewRequestWithContext_Ok in Hnew as (Hurl & Hbody & _). cbn.
      split; [done|]. exists params. split; [done | exact Hurl].
    + intros params -> Hurl. fold (with_query params).
      rewrite http_NewRequest_valid; [by eexists | | | done];
        by destruct Hm as [-> | ->].
  - intros Hm.
    rewrite Send_build_body by (by destruct Hm as [-> | [-> | ->]]). fold target. split.
    + intros req Hbuild.
      destruct (json_Marshal request) as [jsonData|]; [|done].
      destruct (http_NewRequest _ _ _) as [req0|] eqn:Hnew; [|done].
      injection Hbuild as <-.
      destruct (apply_headers_fields order (JsonServiceClient.Headers c)
                  (req_Header_Set "Accept" "application/json"
                     (req_Header_Set "Content-Type" "application/json" req0)))
        as (-> & -> & _).
      apply http_NewRequestWithContext_Ok in Hnew as (Hurl & Hbody & _). cbn.
      split; [exact Hurl|]. by exists jsonData.
    + intros jsonData -> Hurl.
      rewrite http_NewRequest_valid; [by eexists | | | done];
        by destruct Hm as [-> | [-> | ->]].
  - intros jsonData data Hjson Hdata. split.
    + by rewrite toQueryString_unfold, Hjson, Hdata.
    + apply query_pairs_elem.
  - rewrite toQueryString_unfold. vm_compute. reflexivity.
Qed.

Lemma Send_encoding_by_method_witness :
  exists req,
    @JsonServiceClient.Send_build test_runtime range_forward "GET" HelloRequest_World
      (JsonServiceClient.NewJsonServiceClient "https://test.servicestack.net") = Ok req
    /\ Body req = None
    /\ URL req = "https://test.servicestack.net/json/reply/HelloRequest?name=World".
Proof.
  destruct (@Send_encoding_by_method test_runtime range_forward "GET" HelloRequest_World
              (JsonServiceClient.NewJsonServiceClient "https://test.servicestack.net"))
    as (Hget & _ & _ & Hquery).
  destruct (Hget (or_introl eq_refl)) as [Hshape Hbuilt].
  destruct (Hbuilt "name=World" Hquery eq_refl) as [req Hreq].
  exists req. split; [exact Hreq|].
  destruct (Hshape req Hreq) as (Hbody & params & Hparams & Hurl).
  split; [exact Hbody|].
  rewrite Hquery in Hparams. injection Hparams as <-. exact Hurl.
Defined.

Lemma toQueryString_deterministic_witness :
  @JsonServiceClient.toQueryString test_runtime range_forward HelloRequest_World
  = @JsonServiceClient.toQueryString test_runtime range_backward HelloRequest_World.
Proof.
  exact (proj1 (@toQueryString_deterministic test_runtime HelloRequest_World)
           range_forward range_backward).
Defined.

(** ** The configuration is only read *)


(** ** Status codes and bodies *)

Section Exchange.
Context `{GoRuntime}.

Lemma doRequest_exchange {A : Type} (dec : Decoder A) order (do : Transport) ctx method path
    request (response : option A) c req resp :
  Client.doRequest_build order ctx method path request c = Ok req ->
  do (Client.HTTPClient c) req = Ok resp ->
  Client.doRequest dec order do ctx method path request response c
  = (Client.doRequest_finish dec resp response, c).
Proof. intros Hb Hd. unfold Client.doRequest. by rewrite Hb, Hd. Qed.

Lemma Send_exchange {A : Type} (dec : Decoder A) order (do : Transport) method request
    (responseType : option A) c req resp :
  JsonServiceClient.Send_build order method request c = Ok req ->
  do (JsonServiceClient.httpClient c) req = Ok resp ->
  JsonServiceClient.Send dec order do method request responseType c
  = (JsonServiceClient.Send_finish dec c resp responseType, c).
Proof. intros Hb Hd. unfold JsonServiceClient.Send. by rewrite Hb, Hd. Qed.

(** [doRequest] returns nil only after an exchange with a status from
    200 to 299. *)
Lemma doRequest_nil_inv {A : Type} (dec : Decoder A) order (do : Transport) ctx method path
    request (response response' : option A) c c' :
  Client.doRequest dec order do ctx method path request response c = ((None, response'), c') ->
  exists req resp,
    Client.doRequest_build order ctx method path request c = Ok req
    /\ do (Client.HTTPClient c) req = Ok resp
    /\ 200 <= resp_StatusCode resp < 300.
Proof.
  unfold Client.doRequest.
  destruct (Client.doRequest_build _ _ _ _ _ _) as [req|]; [|done].
  destruct (do _ _) as [resp|] eqn:Hdo; [|done].
  unfold Client.doRequest_finish. destruct (resp_Body resp); [|done].
  destruct ((resp_StatusCode resp <? 200) || (resp_StatusCode resp >=? 300)) eqn:Hrange;
    [done|]. intros _.
  apply orb_false_iff in Hrange.
  exists req, resp. split_and!; [done | done | lia | lia].
Qed.

(** [Send] returns a response value only after an exchange with a status
    below 400, and then without an error. *)
Lemma Send_value_inv {A : Type} (dec : Decoder A) order (do : Transport) method request
    (responseType : option A) c (v : A) (e : option error) c' :
  JsonServiceClient.Send dec order do method request responseType c = ((Some v, e), c') ->
  e = None
  /\ exists req resp,
       JsonServiceClient.Send_build order method request c = Ok req
       /\ do (JsonServiceClient.httpClient c) req = Ok resp
       /\ resp_StatusCode resp < 400.
Proof.
  unfold JsonServiceClient.Send.
  destruct (JsonServiceClient.Send_build _ _ _ _) as [req|]; [|done].
  destruct (do _ _) as [resp|] eqn:Hdo; [|done].
  unfold JsonServiceClient.Send_finish. destruct (resp_Body resp) as [body|]; [|done].
  destruct (resp_StatusCode resp >=? 400) eqn:Hrange; [done|].
  destruct responseType as [v0|]; [|done].
  destruct (json_Unmarshal dec body v0) as [v' [err|]]; [done|].
  intros [= <- <- <-]. split; [done|]. exists req, resp. split_and!; [done | done | lia].
Qed.

End Exchange.

(** C6: after a status from 200 to 299 and an empty body, [doRequest]
    returns nil and the caller's value is as it was; [Send], given a
    response type that is not nil and an empty body, returns no value and
    an error, after a status below 400 the error of decoding the empty
    input. *)
Theorem empty_body_only_valid_on_generic_client `{GoRuntime} :
  (forall (A : Type) (dec : Decoder A) order (do : Transport) ctx method path request
          (response : option A) c req resp,
     Client.doRequest_build order ctx method path request c = Ok req ->
     do (Client.HTTPClient c) req = Ok resp ->
     200 <= resp_StatusCode resp < 300 ->
     resp_Body resp = Ok "" ->
     Client.doRequest dec order do ctx method path request response c = ((None, response), c))
  /\ (forall (A : Type) (dec : Decoder A) order (do : Transport) method request (v : A) c req resp,
        JsonServiceClient.Send_build order method request c = Ok req ->
        do (JsonServiceClient.httpClient c) req = Ok resp ->
        resp_Body resp = Ok "" ->
        exists err,
          JsonServiceClient.Send dec order do method request (Some v) c = ((None, Some err), c)
          /\ (resp_StatusCode resp < 400 ->
              err = fmt_Errorf_w "failed to unmarshal response: %w" [] (jsonSyntaxError ""))).
Proof.
  split.
  - intros A dec order do ctx method path request response c req resp Hb Hd Hs Hbody.
    rewrite (doRequest_exchange _ _ _ _ _ _ _ _ _ _ _ Hb Hd).
    unfold Client.doRequest_finish. rewrite Hbody.
    replace ((resp_StatusCode resp <? 200) || (resp_StatusCode resp >=? 300)) with false
      by (symmetry; apply orb_false_iff; lia).
    by destruct response.
  - intros A dec order do method request v c req resp Hb Hd Hbody.
    rewrite (Send_exchange _ _ _ _ _ _ _ _ _ Hb Hd).
    unfold JsonServiceClient.Send_finish. rewrite Hbody.
    destruct (resp_StatusCode resp >=? 400) eqn:Hrange.
    + eexists. split; [reflexivity|]. lia.
    + eexists. split; [reflexivity|]. done.
Qed.

Lemma empty_body_only_valid_on_generic_client_witness :
  (let do : @Transport test_runtime :=
     fun _ _ => Ok (mk_http_Response 204 "204 No Content" (Ok "")) in
   @Client.doRequest test_runtime _ decode_HelloResponse range_forward do (Some tt)
     "GET" "/test" None (Some (mkHelloResponse "before")) (Client.NewClient "https://api.example.com")
   = ((None, Some (mkHelloResponse "before")), Client.NewClient "https://api.example.com"))
  /\ (let do : @Transport test_runtime :=
        fun _ _ => Ok (mk_http_Response 200 "200 OK" (Ok "")) in
      exists err,
        @JsonServiceClient.Send test_runtime _ decode_HelloResponse range_forward do
          "POST" HelloRequest_World (Some (mkHelloResponse ""))
          (JsonServiceClient.NewJsonServiceClient "https://test.servicestack.net")
        = ((None, Some err), JsonServiceClient.NewJsonServiceClient "https://test.servicestack.net")).
Proof.
  split.
  - eapply (proj1 (@empty_body_only_valid_on_generic_client test_runtime)).
    + vm_compute. reflexivity.
    + reflexivity.
    + cbn. lia.
    + reflexivity.
  - cbv zeta.
    edestruct (proj2 (@empty_body_only_valid_on_generic_client test_runtime)
                 HelloResponse decode_HelloResponse range_forward
                 (fun _ _ => Ok (mk_http_Response 200 "200 OK" (Ok "")))
                 "POST" HelloRequest_World (mkHelloResponse "")
                 (JsonServiceClient.NewJsonServiceClient "https://test.servicestack.net"))
      as (err & Herr & _).
    + vm_compute. reflexivity.
    + reflexivity.
    + reflexivity.
    + exists err. exact Herr.
Defined.

(** C1, as the code has it: on the generic client every status outside
    200 to 299 makes [doRequest] return an error, the plain one with the
    status and the body when the body could be read and the wrapped
    error of the read when it could not, and leave the caller's value
    as it was, and nil is returned only after a status from 200 to 299;
    on the convention-based client every status of 400 or more makes
    [Send] return no value and an error, the [WebServiceException] of
    [parseError] when the body could be read, and a value is returned
    only after a status below 400.  [Send] reads the body before it
    looks at the status: a body that cannot be read gives no value and
    the wrapped error of the read, which is no [WebServiceException],
    whatever the status; and after a body that could be read and any
    status below 400, also one outside 200 to 299, the body is decoded
    into the response type, which gives the decoded value and nil, or
    no value and the wrapped error of the decoder, or nil and nil when
    the response type is nil. *)
Theorem status_decides_the_outcome `{GoRuntime} :
  (forall (A : Type) (dec : Decoder A) order (do : Transport) ctx method path request
          (response : option A) c req resp,
     Client.doRequest_build order ctx method path request c = Ok req ->
     do (Client.HTTPClient c) req = Ok resp ->
     ~ (200 <= resp_StatusCode resp < 300) ->
     exists err,
       Client.doRequest dec order do ctx method path request response c
       = ((Some err, response), c)
       /\ forall body, resp_Body resp = Ok body ->
            err = errorString ("request failed with status "
                               ++ strconv_Itoa (resp_StatusCode resp) ++ ": " ++ body))
  /\ (forall (A : Type) (dec : Decoder A) order (do : Transport) ctx method path request
             (response response' : option A) c c',
        Client.doRequest dec order do ctx method path request response c
        = ((None, response'), c') ->
        exists req resp,
          Client.doRequest_build order ctx method path request c = Ok req
          /\ do (Client.HTTPClient c) req = Ok resp
          /\ 200 <= resp_StatusCode resp < 300)
  /\ (forall (A : Type) (dec : Decoder A) order (do : Transport) method request
             (responseType : option A) c req resp,
        JsonServiceClient.Send_build order method request c = Ok req ->
        do (JsonServiceClient.httpClient c) req = Ok resp ->
        400 <= resp_StatusCode resp ->
        exists err,
          JsonServiceClient.Send dec order do method request responseType c
          = ((None, Some err), c)
          /\ forall body, resp_Body resp = Ok body ->
               exists envelope,
                 err = WebServiceExceptionErr
                         (mkWebServiceException (resp_StatusCode resp) (resp_Status resp)
                            envelope))
  /\ (forall (A : Type) (dec : Decoder A) order (do : Transport) method request
             (responseType : option A) c (v : A) e c',
        JsonServiceClient.Send dec order do method request responseType c = ((Some v, e), c') ->
        e = None
        /\ exists req resp,
             JsonServiceClient.Send_build order method request c = Ok req
             /\ do (JsonServiceClient.httpClient c) req = Ok resp
             /\ resp_StatusCode resp < 400)
  /\ (forall (A : Type) (dec : Decoder A) order (do : Transport) ctx method path request
             (response : option A) c req resp cause,
        Client.doRequest_build order ctx method path request c = Ok req ->
        do (Client.HTTPClient c) req = Ok resp ->
        resp_Body resp = Err cause ->
        Client.doRequest dec order do ctx method path request response c
        = ((Some (fmt_Errorf_w "failed to read response body: %w" [] cause), response), c))
  /\ (forall (A : Type) (dec : Decoder A) order (do : Transport) method request
             (responseType : option A) c req resp cause,
        JsonServiceClient.Send_build order method request c = Ok req ->
        do (JsonServiceClient.httpClient c) req = Ok resp ->
        resp_Body resp = Err cause ->
        JsonServiceClient.Send dec order do method request responseType c
        = ((None, Some (fmt_Errorf_w "failed to read response: %w" [] cause)), c)
        /\ as_WebServiceException (fmt_Errorf_w "failed to read response: %w" [] cause) = None)
  /\ (forall (A : Type) (dec : Decoder A) order (do : Transport) method request
             (responseType : option A) c req resp body,
        JsonServiceClient.Send_build order method request c = Ok req ->
        do (JsonServiceClient.httpClient c) req = Ok resp ->
        resp_Body resp = Ok body ->
        resp_StatusCode resp < 400 ->
        JsonServiceClient.Send dec order do method request responseType c
        = (match responseType with
           | Some v =>
               match json_Unmarshal dec body v with
               | (_, Some err) =>
                   (None, Some (fmt_Errorf_w "failed to unmarshal response: %w" [] err))
               | (v', None) => (Some v', None)
               end
           | None => (None, None)
           end, c)).
Proof.
  split_and!.
  - intros A dec order do ctx method path request response c req resp Hb Hd Hs.
    rewrite (doRequest_exchange _ _ _ _ _ _ _ _ _ _ _ Hb Hd).
    unfold Client.doRequest_finish. destruct (resp_Body resp) as [body | err].
    + replace ((resp_StatusCode resp <? 200) || (resp_StatusCode resp >=? 300)) with true
        by (symmetry; apply orb_true_iff; lia).
      eexists. split; [reflexivity|]. intros ? [= <-].
      unfold fmt_Errorf. cbn -[strconv_Itoa]. by rewrite append_nil_r.
    + eexists. split; [reflexivity | done].
  - intros. by eapply doRequest_nil_inv.
  - intros A dec order do method request responseType c req resp Hb Hd Hs.
    rewrite (Send_exchange _ _ _ _ _ _ _ _ _ Hb Hd).
    unfold JsonServiceClient.Send_finish. destruct (resp_Body resp) as [body | err].
    + replace (resp_StatusCode resp >=? 400) with true by (symmetry; lia).
      eexists. split; [reflexivity|]. intros ? [= <-].
      unfold JsonServiceClient.parseError.
      destruct (json_Unmarshal decode_errorResponse body ResponseStatus_zero) as [? [?|]];
        by eexists.
    + eexists. split; [reflexivity | done].
  - intros. by eapply Send_value_inv.
  - intros A dec order do ctx method path request response c req resp cause Hb Hd Hbody.
    rewrite (doRequest_exchange _ _ _ _ _ _ _ _ _ _ _ Hb Hd).
    unfold Client.doRequest_finish. by rewrite Hbody.
  - intros A dec order do method request responseType c req resp cause Hb Hd Hbody.
    rewrite (Send_exchange _ _ _ _ _ _ _ _ _ Hb Hd).
    unfold JsonServiceClient.Send_finish. by rewrite Hbody.
  - intros A dec order do method request responseType c req resp body Hb Hd Hbody Hs.
    rewrite (Send_exchange _ _ _ _ _ _ _ _ _ Hb Hd).
    unfold JsonServiceClient.Send_finish. rewrite Hbody.
    by replace (resp_StatusCode resp >=? 400) with false by (symmetry; lia).
Qed.

Lemma status_decides_the_outcome_witness :
  let do : @Transport test_runtime :=
    fun _ _ => Ok (mk_http_Response 400 "400 Bad Request" (Ok "Bad Request")) in
  exists err,
    @Client.doRequest test_runtime _ decode_HelloResponse range_forward do (Some tt)
      "GET" "/test" None (Some (mkHelloResponse "")) (Client.NewClient "https://api.example.com")
    = ((Some err, Some (mkHelloResponse "")), Client.NewClient "https://api.example.com")
    /\ err = errorString "request failed with status 400: Bad Request".
Proof.
  cbv zeta.
  edestruct (proj1 (@status_decides_the_outcome test_runtime)
               HelloResponse decode_HelloResponse range_forward
               (fun _ _ => Ok (mk_http_Response 400 "400 Bad Request" (Ok "Bad Request")))
               (Some tt) "GET" "/test" None (Some (mkHelloResponse ""))
               (Client.NewClient "https://api.example.com"))
    as (err & Herr & Htext).
  - vm_compute. reflexivity.
  - reflexivity.
  - cbn. lia.
  - exists err. split; [exact Herr|]. exact (Htext "Bad Request" eq_refl).
Defined.

(** C1 as stated fails on the convention-based client: after the status
    300, which is outside 200 to 299, [Send] returns the decoded
    response and no error. *)
Lemma Send_status_300_returns_a_response :
  let do : @Transport test_runtime :=
    fun _ _ => Ok (mk_http_Response 300 "300 Multiple Choices"
                     (Ok (js "{'result':'Hello, World!'}"))) in
  ~ (200 <= 300 < 300)
  /\ @JsonServiceClient.Send test_runtime _ decode_HelloResponse range_forward do
       "POST" HelloRequest_World (Some (mkHelloResponse ""))
       (JsonServiceClient.NewJsonServiceClient "https://test.servicestack.net")
     = ((Some (mkHelloResponse "Hello, World!"), None),
        JsonServiceClient.NewJsonServiceClient "https://test.servicestack.net").
Proof. split; [lia | vm_compute; reflexivity]. Qed.

(** The body is read before the status is looked at: after the status
    500 and a body that cannot be read, [Send] returns the wrapped error
    of the read, and the type assertion fails on it. *)
Example Send_unreadable_body_is_no_exception :
  let do : @Transport test_runtime :=
    fun _ _ => Ok (mk_http_Response 500 "500 Internal Server Error"
                     (Err (errorString "unexpected EOF"))) in
  let err := wrapError "failed to read response: unexpected EOF"
               (errorString "unexpected EOF") in
  @JsonServiceClient.Send test_runtime _ decode_HelloResponse range_forward do
    "POST" HelloRequest_World (Some (mkHelloResponse ""))
    (JsonServiceClient.NewJsonServiceClient "https://test.servicestack.net")
  = ((None, Some err), JsonServiceClient.NewJsonServiceClient "https://test.servicestack.net")
  /\ as_WebServiceException err = None.
Proof. split; [vm_compute; reflexivity | reflexivity]. Qed.

(** ** The error envelope *)

Lemma decode_members_no_field {A : Type} (fields : list string) (set : nat -> Decoder A)
    (members : list (string * JSON)) (old : A) :
  Forall (fun m => find_field fields m.1 = None) members ->
  decode_members fields set members old = (old, true).
Proof.
  intros Hall. unfold decode_members. generalize (old, true).
  induction Hall as [|m members Hm _ IH]; intros acc; [done|].
  cbn [foldl]. by rewrite Hm.
Qed.

(** C4, as the code has it: [parseError] always gives a
    [WebServiceException] with the status code and the status text it
    was given.  When [json.Unmarshal] reports an error, which it does
    when the body is not JSON or when a part of it does not fit the type
    it is decoded into, the envelope has the raw body as its message and
    nothing else; otherwise the envelope is what was decoded, and for an
    object without a [responseStatus] member, or for [null], that is the
    zero envelope with an empty message.  After a status of 400 or more
    and a body that could be read, [Send] returns no value and the
    error of [parseError], so never the error of the decoder.  When the
    body could not be read, [parseError] is not called: [Send] returns
    no value and the wrapped error of the read, which is no
    [WebServiceException], whatever the status. *)
Theorem parseError_envelope `{GoRuntime} :
  (forall c statusCode statusDescription body,
     JsonServiceClient.parseError c statusCode statusDescription body =
       WebServiceExceptionErr
         (mkWebServiceException statusCode statusDescription
            match json_Unmarshal decode_errorResponse body ResponseStatus_zero with
            | (_, Some _) => mkResponseStatus "" body "" [] None
            | (decoded, None) => decoded
            end))
  /\ (forall body,
        (json_Unmarshal decode_errorResponse body ResponseStatus_zero).2 <> None <->
        json_parse body = None
        \/ exists j, json_parse body = Some j
                     /\ (decode_errorResponse j ResponseStatus_zero).2 = false)
  /\ (forall body members,
        json_parse body = Some (JObject members) ->
        Forall (fun m => find_field ["responseStatus"] m.1 = None) members ->
        json_Unmarshal decode_errorResponse body ResponseStatus_zero
        = (ResponseStatus_zero, None))
  /\ json_Unmarshal decode_errorResponse "null" ResponseStatus_zero = (ResponseStatus_zero, None)
  /\ (forall (A : Type) (dec : Decoder A) order (do : Transport) method request
             (responseType : option A) c req resp body,
        JsonServiceClient.Send_build order method request c = Ok req ->
        do (JsonServiceClient.httpClient c) req = Ok resp ->
        400 <= resp_StatusCode resp ->
        resp_Body resp = Ok body ->
        JsonServiceClient.Send dec order do method request responseType c
        = ((None, Some (JsonServiceClient.parseError c (resp_StatusCode resp)
                          (resp_Status resp) body)), c))
  /\ (forall (A : Type) (dec : Decoder A) order (do : Transport) method request
             (responseType : option A) c req resp cause,
        JsonServiceClient.Send_build order method request c = Ok req ->
        do (JsonServiceClient.httpClient c) req = Ok resp ->
        resp_Body resp = Err cause ->
        JsonServiceClient.Send dec order do method request responseType c
        = ((None, Some (fmt_Errorf_w "failed to read response: %w" [] cause)), c)
        /\ as_WebServiceException (fmt_Errorf_w "failed to read response: %w" [] cause) = None
        /\ errors_Unwrap (fmt_Errorf_w "failed to read response: %w" [] cause) = Some cause).
Proof.
  split_and!.
  - intros c statusCode statusDescription body. unfold JsonServiceClient.parseError.
    by destruct (json_Unmarshal decode_errorResponse body ResponseStatus_zero) as [? [?|]].
  - intros body. unfold json_Unmarshal.
    destruct (json_parse body) as [j|]; cbn.
    + destruct (decode_errorResponse j ResponseStatus_zero) as [decoded [|]] eqn:Hdec; cbn.
      * split; [done|]. intros [? | (j' & [= <-] & Hfalse)]; [done|].
        by rewrite Hdec in Hfalse.
      * split; [|done]. intros _. right. exists j. by rewrite Hdec.
    + split; [by left | done].
  - intros body members Hparse Hnone. unfold json_Unmarshal. rewrite Hparse.
    unfold decode_errorResponse, decode_struct.
    by rewrite decode_members_no_field.
  - reflexivity.
  - intros A dec order do method request responseType c req resp body Hb Hd Hs Hbody.
    rewrite (Send_exchange _ _ _ _ _ _ _ _ _ Hb Hd).
    unfold JsonServiceClient.Send_finish. rewrite Hbody.
    by replace (resp_StatusCode resp >=? 400) with true by (symmetry; lia).
  - intros A dec order do method request responseType c req resp cause Hb Hd Hbody.
    rewrite (Send_exchange _ _ _ _ _ _ _ _ _ Hb Hd).
    unfold JsonServiceClient.Send_finish. by rewrite Hbody.
Qed.

Lemma parseError_envelope_witness :
  let do : @Transport test_runtime :=
    fun _ _ => Ok (mk_http_Response 500 "500 Internal Server Error" (Ok "Server error")) in
  @JsonServiceClient.Send test_runtime _ decode_HelloResponse range_forward do
    "POST" HelloRequest_World (Some (mkHelloResponse ""))
    (JsonServiceClient.NewJsonServiceClient "https://test.servicestack.net")
  = ((None,
      Some (WebServiceExceptionErr
              (mkWebServiceException 500 "500 Internal Server Error"
                 (mkResponseStatus "" "Server error" "" [] None)))),
     JsonServiceClient.NewJsonServiceClient "https://test.servicestack.net").
Proof.
  cbv zeta. eapply eq_trans.
  - eapply (proj1 (proj2 (proj2 (proj2 (proj2 (@parseError_envelope test_runtime)))))).
    + vm_compute. reflexivity.
    + reflexivity.
    + cbn. lia.
    + reflexivity.
  - vm_compute. reflexivity.
Defined.

(** C4 as stated fails on a body that is JSON but is not the envelope:
    decoding reports no error, and the message of the envelope is empty,
    not the raw body. *)
Lemma parseError_JSON_without_envelope :
  let body := js "{'error':'oops'}" in
  let c := JsonServiceClient.NewJsonServiceClient "https://test.servicestack.net" in
  json_parse body = Some (JObject [("error", JString "oops")])
  /\ JsonServiceClient.parseError c 400 "400 Bad Request" body
     = WebServiceExceptionErr (mkWebServiceException 400 "400 Bad Request" ResponseStatus_zero)
  /\ Message ResponseStatus_zero <> body.
Proof. split_and!; [vm_compute; reflexivity | vm_compute; reflexivity | done]. Qed.

(** ** Default headers *)

Section DefaultHeaders.
Context `{GoRuntime}.

Lemma doRequest_build_shape (order : MapRange) (ctx : option Context) (method path : string)
    (request : option Request) (c : Client.t) (req : http_Request) :
  Client.doRequest_build order ctx method path request c = Ok req ->
  exists req0,
    Header req0 = ∅
    /\ (Body req0 = None <-> request = None)
    /\ req = apply_headers order (Client.Headers c)
               (req_Header_Set "Accept" "application/json"
                  match request with
                  | Some _ => req_Header_Set "Content-Type" "application/json" req0
                  | None => req0
                  end).
Proof.
  unfold Client.doRequest_build.
  destruct (url_JoinPath (Client.BaseURL c) path) as [fullURL|]; [|done].
  destruct request as [r|].
  - destruct (json_Marshal r) as [jsonData|]; [|done].
    destruct (http_NewRequestWithContext ctx method fullURL (Some jsonData))
      as [req0|] eqn:Hnew; [|done].
    apply http_NewRequestWithContext_Ok in Hnew as (_ & Hbody & Hheader).
    intros [= <-]. exists req0. rewrite Hbody. by split_and!.
  - destruct (http_NewRequestWithContext ctx method fullURL None) as [req0|] eqn:Hnew; [|done].
    apply http_NewRequestWithContext_Ok in Hnew as (_ & Hbody & Hheader).
    intros [= <-]. exists req0. by split_and!.
Qed.

Lemma Header_Set_lookup_ne (key value name : string) (h : http_Header) :
  CanonicalMIMEHeaderKey key <> name -> Header_Set key value h !! name = h !! name.
Proof. intros Hne. unfold Header_Set. by rewrite lookup_insert_ne. Qed.

Lemma not_configured (name : string) (headers : gmap string string) :
  ~ configured name headers ->
  forall key value, headers !! key = Some value -> CanonicalMIMEHeaderKey key <> name.
Proof. intros Hnot key value Hkey Hname. apply Hnot. by exists key, value. Qed.

(** A header that some configured key spells holds, after the
    configured headers were applied, the value of such a key, whatever
    it held before. *)
Lemma apply_headers_configured (order : MapRange) (headers : gmap string string)
    (req : http_Request) (name : string) :
  configured name headers ->
  exists key value,
    headers !! key = Some value /\ CanonicalMIMEHeaderKey key = name
    /\ Header (apply_headers order headers req) !! name = Some [value].
Proof.
  intros (key0 & value0 & Hkey0 & Hname0). unfold apply_headers.
  assert (Hin : (key0, value0) ∈ range_of order headers)
    by (rewrite range_of_perm; by apply elem_of_map_to_list).
  assert (Hall : Forall (fun kv => headers !! kv.1 = Some kv.2) (range_of order headers)).
  { apply Forall_forall. intros [k v] Hkv. rewrite range_of_perm in Hkv.
    by apply elem_of_map_to_list in Hkv. }
  revert Hin Hall. generalize (range_of order headers) as entries.
  induction entries as [|kv entries IH] using rev_ind; intros Hin Hall.
  - by apply elem_of_nil in Hin.
  - apply Forall_app in Hall as [Hall Hkv]. apply Forall_inv in Hkv.
    rewrite foldl_app. cbn [foldl]. unfold req_Header_Set at 1. cbn [Header with_Header].
    unfold Header_Set.
    destruct (decide (CanonicalMIMEHeaderKey kv.1 = name)) as [Heq | Hne].
    + exists kv.1, kv.2. split; [exact Hkv|]. split; [exact Heq|].
      by rewrite Heq, lookup_insert_eq.
    + apply elem_of_app in Hin as [Hin | Hin].
      * destruct (IH Hin Hall) as (key & value & Hkey & Hname & Hsent).
        exists key, value. split_and!; [done | done |]. by rewrite lookup_insert_ne.
      * apply list_elem_of_singleton in Hin. subst kv. by destruct Hne.
Qed.

(** When one key alone spells the header, it is the value of that key. *)
Lemma apply_headers_configured_once (order : MapRange) (headers : gmap string string)
    (req : http_Request) (name key value : string) :
  headers !! key = Some value -> CanonicalMIMEHeaderKey key = name ->
  (forall key' value', headers !! key' = Some value' ->
     CanonicalMIMEHeaderKey key' = name -> key' = key) ->
  Header (apply_headers order headers req) !! name = Some [value].
Proof.
  intros Hkey Hname Honce.
  destruct (apply_headers_configured order headers req name) as (key' & value' & Hkey' & Hname' & ->).
  - by exists key, value.
  - pose proof (Honce key' value' Hkey' Hname') as ->. congruence.
Qed.

End DefaultHeaders.

(** C5, as the code has it: in a request of either client the header
    [Accept] holds [application/json], or the value the client's own
    headers configure for it, which are applied last.  On the generic
    client the request has a body exactly when a request value is given,
    and [Content-Type] holds [application/json] exactly then, unless the
    client's headers configure it.  On the convention-based client
    [Content-Type] holds [application/json] in every request, with or
    without a body, unless the client's headers configure it.  A header
    that the client's headers configure, [Accept] and [Content-Type]
    among them, is sent with a configured value and not with the
    default: the value of a key that spells it, and the value of the
    key when only one does. *)
Theorem default_headers `{GoRuntime} :
  (forall order ctx method path request c req,
     Client.doRequest_build order ctx method path request c = Ok req ->
     (Body req = None <-> request = None)
     /\ (~ configured "Accept" (Client.Headers c) ->
         Header req !! "Accept" = Some ["application/json"])
     /\ (~ configured "Content-Type" (Client.Headers c) ->
         Header req !! "Content-Type"
         = match request with
           | Some _ => Some ["application/json"]
           | None => None
           end)
     /\ (Header req !! "Accept" = Some ["application/json"]
         \/ exists key value,
              Client.Headers c !! key = Some value
              /\ CanonicalMIMEHeaderKey key = "Accept"
              /\ Header req !! "Accept" = Some [value])
     /\ (forall name, configured name (Client.Headers c) ->
           exists key value,
             Client.Headers c !! key = Some value
             /\ CanonicalMIMEHeaderKey key = name
             /\ Header req !! name = Some [value])
     /\ (forall name key value,
           Client.Headers c !! key = Some value ->
           CanonicalMIMEHeaderKey key = name ->
           (forall key' value', Client.Headers c !! key' = Some value' ->
              CanonicalMIMEHeaderKey key' = name -> key' = key) ->
           Header req !! name = Some [value]))
  /\ (forall order method request c req,
        JsonServiceClient.Send_build order method request c = Ok req ->
        (~ configured "Accept" (JsonServiceClient.Headers c) ->
         Header req !! "Accept" = Some ["application/json"])
        /\ (~ configured "Content-Type" (JsonServiceClient.Headers c) ->
            Header req !! "Content-Type" = Some ["application/json"])
        /\ (Header req !! "Accept" = Some ["application/json"]
            \/ exists key value,
                 JsonServiceClient.Headers c !! key = Some value
                 /\ CanonicalMIMEHeaderKey key = "Accept"
                 /\ Header req !! "Accept" = Some [value])
        /\ (forall name, configured name (JsonServiceClient.Headers c) ->
              exists key value,
                JsonServiceClient.Headers c !! key = Some value
                /\ CanonicalMIMEHeaderKey key = name
                /\ Header req !! name = Some [value])
        /\ (forall name key value,
              JsonServiceClient.Headers c !! key = Some value ->
              CanonicalMIMEHeaderKey key = name ->
              (forall key' value', JsonServiceClient.Headers c !! key' = Some value' ->
                 CanonicalMIMEHeaderKey key' = name -> key' = key) ->
              Header req !! name = Some [value])).
Proof.
  split.
  - intros order ctx method path request c req Hbuild.
    apply doRequest_build_shape in Hbuild as (req0 & Hempty & Hbody & ->).
    split_and!.
    + destruct (apply_headers_fields order (Client.Headers c)
                  (req_Header_Set "Accept" "application/json"
                     match request with
                     | Some _ => req_Header_Set "Content-Type" "application/json" req0
                     | None => req0
                     end)) as (_ & -> & _).
      by destruct request.
    + intros Hnot. rewrite apply_headers_untouched by (by apply not_configured).
      apply lookup_insert_eq.
    + intros Hnot. rewrite apply_headers_untouched by (by apply not_configured).
      destruct request; cbn; rewrite Header_Set_lookup_ne by (vm_compute; done).
      * apply lookup_insert_eq.
      * by rewrite Hempty.
    + destruct (apply_headers_lookup order (Client.Headers c)
                  (req_Header_Set "Accept" "application/json"
                     match request with
                     | Some _ => req_Header_Set "Content-Type" "application/json" req0
                     | None => req0
                     end) "Accept") as [-> | Hset]; [left | by right].
      apply lookup_insert_eq.
    + intros name Hname. by apply apply_headers_configured.
    + intros name key value Hkey Hname Honce. by eapply apply_headers_configured_once.
  - intros order method request c req Hbuild.
    apply Send_build_shape in Hbuild as (req0 & Hnew & ->).
    apply http_NewRequestWithContext_Ok in Hnew as (_ & _ & Hempty).
    split_and!.
    + intros Hnot. rewrite apply_headers_untouched by (by apply not_configured).
      apply lookup_insert_eq.
    + intros Hnot. rewrite apply_headers_untouched by (by apply not_configured).
      cbn. rewrite Header_Set_lookup_ne by (vm_compute; done). apply lookup_insert_eq.
    + destruct (apply_headers_lookup order (JsonServiceClient.Headers c)
                  (req_Header_Set "Accept" "application/json"
                     (req_Header_Set "Content-Type" "application/json" req0)) "Accept")
        as [-> | Hset]; [left | by right].
      apply lookup_insert_eq.
    + intros name Hname. by apply apply_headers_configured.
    + intros name key value Hkey Hname Honce. by eapply apply_headers_configured_once.
Qed.

Lemma default_headers_witness :
  exists req,
    @Client.doRequest_build test_runtime range_forward (Some tt) "GET" "/test" None
      (Client.NewClient "https://api.example.com") = Ok req
    /\ Body req = None
    /\ Header req !! "Accept" = Some ["application/json"]
    /\ Header req !! "Content-Type" = None.
Proof.
  eexists. split; [vm_compute; reflexivity|].
  edestruct (proj1 (@default_headers test_runtime) range_forward (Some tt) "GET" "/test" None
               (Client.NewClient "https://api.example.com")) as (Hbody & Haccept & Htype & _).
  { vm_compute. reflexivity. }
  assert (Hnone : forall name, ~ configured name (Client.Headers (Client.NewClient "https://api.example.com"))).
  { intros name (key & value & Hkey & _). cbn in Hkey. by rewrite lookup_empty in Hkey. }
  split_and!.
  - by apply Hbody.
  - apply Haccept, Hnone.
  - apply Htype, Hnone.
Defined.

(** C5 as stated fails in two ways: a [GET] of the convention-based
    client has no body and carries [Content-Type: application/json]; and
    a client configured with its own [Accept] header sends that one. *)
Lemma Content_Type_without_body_and_Accept_replaced :
  (exists req,
     @JsonServiceClient.Send_build test_runtime range_forward "GET" HelloRequest_World
       (JsonServiceClient.NewJsonServiceClient "https://test.servicestack.net") = Ok req
     /\ Body req = None
     /\ Header_Get "Content-Type" (Header req) = "application/json")
  /\ (exists req,
        @Client.doRequest_build test_runtime range_forward (Some tt) "GET" "/test" None
          (Client.SetHeader "Accept" "text/xml" (Client.NewClient "https://api.example.com"))
        = Ok req
        /\ Header_Get "Accept" (Header req) = "text/xml"
        /\ Header_Get "Accept" (Header req) <> "application/json").
Proof.
  split.
  - eexists. split; [vm_compute; reflexivity|]. split; vm_compute; reflexivity.
  - eexists. split; [vm_compute; reflexivity|]. split; [vm_compute; reflexivity|].
    vm_compute. discriminate.
Qed.

(** A configured [Content-Type] replaces the default of [Send] as well. *)
Example Send_configured_Content_Type :
  exists req,
    @JsonServiceClient.Send_build test_runtime range_forward "POST" HelloRequest_World
      (JsonServiceClient.mk "https://test.servicestack.net"
         (mk_http_Client (30 * time_Second)) {["content-type" := "text/xml"]}) = Ok req
    /\ Header req !! "Content-Type" = Some ["text/xml"]
    /\ Header req !! "Accept" = Some ["application/json"].
Proof. eexists. split; [vm_compute; reflexivity|]. split; vm_compute; reflexivity. Qed.

(* ===================================================================== *)
(** * The test suite, evaluated *)
(* ===================================================================== *)

(** [TestBasicAuth] *)
Example TestBasicAuth : JsonServiceClient.basicAuth "user" "pass" = "dXNlcjpwYXNz".
Proof. reflexivity. Qed.

(** [TestSetBearerToken] *)
Example TestSetBearerToken :
  JsonServiceClient.Headers
    (JsonServiceClient.SetBearerToken "test-token"
       (JsonServiceClient.NewJsonServiceClient "https://test.servicestack.net"))
    !! "Authorization" = Some "Bearer test-token".
Proof. apply lookup_insert_eq. Qed.

(** [TestSetTimeout] *)
Example TestSetTimeout :
  Timeout (JsonServiceClient.httpClient
             (JsonServiceClient.SetTimeout (10 * time_Second)
                (JsonServiceClient.NewJsonServiceClient "https://test.servicestack.net")))
  = 10 * time_Second.
Proof. reflexivity. Qed.

(** [TestGetRequestPath] *)
Example TestGetRequestPath :
  JsonServiceClient.getRequestPath
    (JsonServiceClient.NewJsonServiceClient "https://test.servicestack.net") HelloRequest_World
  = "/json/reply/HelloRequest".
Proof. reflexivity. Qed.

(** [TestToQueryString], in both orders of iteration *)
Example TestToQueryString :
  @JsonServiceClient.toQueryString test_runtime range_forward HelloRequest_World = Ok "name=World"
  /\ @JsonServiceClient.toQueryString test_runtime range_backward HelloRequest_World
     = Ok "name=World".
Proof. split; vm_compute; reflexivity. Qed.

(** Several fields: sorted by key, null left out, values escaped. *)
Example toQueryString_sorted_and_escaped :
  let request :=
    mkRequest (TPtr (TNamed "servicestack" "AuthenticateRequest"))
      (Ok (js "{'provider':'credentials','userName':'test user','password':'p&ss','meta':null}"))
      "&{credentials test user p&ss}" in
  @JsonServiceClient.toQueryString test_runtime range_forward request
  = Ok "password=p%26ss&provider=credentials&userName=test+user"
  /\ @JsonServiceClient.toQueryString test_runtime range_backward request
     = Ok "password=p%26ss&provider=credentials&userName=test+user".
Proof. split; vm_compute; reflexivity. Qed.

(** [TestWebServiceExceptionError] and
    [TestWebServiceExceptionErrorWithoutMessage] *)
Example TestWebServiceExceptionError :
  WebServiceException_Error
    (mkWebServiceException 400 "Bad Request"
       (mkResponseStatus "ValidationError" "Validation failed" "" [] None))
  = "400 Bad Request: Validation failed"
  /\ WebServiceException_Error
       (mkWebServiceException 500 "Internal Server Error" ResponseStatus_zero)
     = "500 Internal Server Error".
Proof. split; reflexivity. Qed.

(** [TestPost] of the convention-based client *)
Example TestPost :
  let do : @Transport test_runtime :=
    fun _ req =>
      if String.eqb (Method req) "POST"
         && String.eqb (Header_Get "Content-Type" (Header req)) "application/json"
         && bool_decide (Body req = Some (js "{'name':'World'}"))
      then Ok (mk_http_Response 200 "200 OK" (Ok (js "{'result':'Hello, World!'}")))
      else Ok (mk_http_Response 500 "500 Internal Server Error" (Ok "")) in
  (@JsonServiceClient.Post test_runtime _ range_forward do
     (JsonServiceClient.mkIReturn _ HelloRequest_World (Some (mkHelloResponse ""))
        decode_HelloResponse)
     (JsonServiceClient.NewJsonServiceClient "https://test.servicestack.net")).1
  = (Some (mkHelloResponse "Hello, World!"), None).
Proof. vm_compute. reflexivity. Qed.

(** [TestGet] of the convention-based client: the name travels in the
    query string. *)
Example TestGet :
  let do : @Transport test_runtime :=
    fun _ req =>
      if String.eqb (Method req) "GET"
         && String.eqb (URL req) "https://test.servicestack.net/json/reply/HelloRequest?name=World"
         && bool_decide (Body req = None)
      then Ok (mk_http_Response 200 "200 OK" (Ok (js "{'result':'Hello, World!'}")))
      else Ok (mk_http_Response 500 "500 Internal Server Error" (Ok "")) in
  (@JsonServiceClient.Get test_runtime _ range_forward do
     (JsonServiceClient.mkIReturn _ HelloRequest_World (Some (mkHelloResponse ""))
        decode_HelloResponse)
     (JsonServiceClient.NewJsonServiceClient "https://test.servicestack.net")).1
  = (Some (mkHelloResponse "Hello, World!"), None).
Proof. vm_compute. reflexivity. Qed.

(** [TestErrorHandling]: the envelope of a 400 response *)
Example TestErrorHandling :
  JsonServiceClient.parseError
    (JsonServiceClient.NewJsonServiceClient "https://test.servicestack.net")
    400 "400 Bad Request"
    (js ("{'responseStatus':{'errorCode':'ValidationError','message':'Name is required',"
         ++ "'errors':[{'errorCode':'NotEmpty','fieldName':'Name',"
         ++ "'message':'Name cannot be empty'}]}}"))
  = WebServiceExceptionErr
      (mkWebServiceException 400 "400 Bad Request"
         (mkResponseStatus "ValidationError" "Name is required" ""
            [mkResponseError "NotEmpty" "Name" "Name cannot be empty" None] None)).
Proof. vm_compute. reflexivity. Qed.

(** [TestNonServiceStackError]: a body that is not JSON *)
Example TestNonServiceStackError :
  JsonServiceClient.parseError
    (JsonServiceClient.NewJsonServiceClient "https://test.servicestack.net")
    500 "500 Internal Server Error" "Server error"
  = WebServiceExceptionErr
      (mkWebServiceException 500 "500 Internal Server Error"
         (mkResponseStatus "" "Server error" "" [] None)).
Proof. vm_compute. reflexivity. Qed.

(** A body that is JSON of another type makes the decoder report an
    error, and the raw body becomes the message. *)
Example parseError_type_mismatch :
  JsonServiceClient.parseError
    (JsonServiceClient.NewJsonServiceClient "https://test.servicestack.net")
    502 "502 Bad Gateway" (js "{'responseStatus':'down'}")
  = WebServiceExceptionErr
      (mkWebServiceException 502 "502 Bad Gateway"
         (mkResponseStatus "" (js "{'responseStatus':'down'}") "" [] None))
  /\ JsonServiceClient.parseError
       (JsonServiceClient.NewJsonServiceClient "https://test.servicestack.net")
       502 "502 Bad Gateway" "[1, 2]"
     = WebServiceExceptionErr
         (mkWebServiceException 502 "502 Bad Gateway"
            (mkResponseStatus "" "[1, 2]" "" [] None)).
Proof. split; vm_compute; reflexivity. Qed.

(** [TestCustomHeaders] of the generic client *)
Example TestCustomHeaders :
  exists req,
    @Client.doRequest_build test_runtime range_forward (Some tt) "GET" "/test" None
      (Client.SetHeader "X-Custom-Header" "custom-value" (Client.NewClient "https://api.example.com"))
    = Ok req
    /\ Header_Get "X-Custom-Header" (Header req) = "custom-value".
Proof. eexists. split; vm_compute; reflexivity. Qed.

(** The type name is what follows the last dot of what [%T] prints: for
    an instance of a generic type that is the tail of the type argument. *)
Example getRequestPath_generic_instance :
  JsonServiceClient.getRequestPath
    (JsonServiceClient.NewJsonServiceClient "https://test.servicestack.net")
    (mkRequest (TPtr (TNamed "main" "Page[main.Item]")) (Ok "{}") "&{}")
  = "/json/reply/Item]".
Proof. reflexivity. Qed.

(* ===================================================================== *)
(** * More of the two clients *)
(* ===================================================================== *)

(** ** What the transport is asked *)

Section Asked.
Context `{GoRuntime}.

Lemma http_NewRequestWithContext_Method (ctx : option Context) (method url : string)
    (body : option string) (req : http_Request) :
  http_NewRequestWithContext ctx method url body = Ok req ->
  Method req = if String.eqb method "" then "GET" else method.
Proof.
  unfold http_NewRequestWithContext.
  destruct (negb _); [done|]. destruct ctx; [|done].
  destruct (url_Parse_error url); [done|]. by intros [= <-].
Qed.

(** The request of [doRequest]: the method it was given, the joined URL
    and the JSON of the request value. *)
Lemma doRequest_build_request (order : MapRange) (ctx : option Context) (method path : string)
    (request : option Request) (c : Client.t) (req : http_Request) :
  method <> "" ->
  Client.doRequest_build order ctx method path request c = Ok req ->
  Method req = method
  /\ Body req = body_of request
  /\ url_JoinPath (Client.BaseURL c) path = Ok (URL req).
Proof.
  intros Hm. unfold Client.doRequest_build, body_of.
  destruct (url_JoinPath (Client.BaseURL c) path) as [fullURL|]; [|done].
  assert (Hshape : forall body req0,
            http_NewRequestWithContext ctx method fullURL body = Ok req0 ->
            Method req0 = method /\ Body req0 = body /\ Ok fullURL = Ok (URL req0)).
  { intros body req0 Hnew.
    pose proof (http_NewRequestWithContext_Method _ _ _ _ _ Hnew) as Hmeth.
    apply http_NewRequestWithContext_Ok in Hnew as (-> & -> & _).
    destruct (String.eqb_spec method ""); done. }
  destruct request as [r|].
  - destruct (json_Marshal r) as [jsonData|]; [|done].
    destruct (http_NewRequestWithContext ctx method fullURL (Some jsonData))
      as [req0|] eqn:Hnew; [|done].
    intros [= <-].
    destruct (apply_headers_fields order (Client.Headers c)
                (req_Header_Set "Accept" "application/json"
                   (req_Header_Set "Content-Type" "application/json" req0)))
      as (-> & -> & ->).
    cbn. by apply Hshape.
  - destruct (http_NewRequestWithContext ctx method fullURL None) as [req0|] eqn:Hnew; [|done].
    intros [= <-].
    destruct (apply_headers_fields order (Client.Headers c)
                (req_Header_Set "Accept" "application/json" req0)) as (-> & -> & ->).
    cbn. by apply Hshape.
Qed.

(** [doRequest] asks the transport about the request it built and about
    nothing else. *)
Lemma doRequest_asks {A : Type} (dec : Decoder A) order (do do' : Transport) ctx method path
    request (response : option A) c :
  (forall req, Client.doRequest_build order ctx method path request c = Ok req ->
               do (Client.HTTPClient c) req = do' (Client.HTTPClient c) req) ->
  Client.doRequest dec order do ctx method path request response c
  = Client.doRequest dec order do' ctx method path request response c.
Proof.
  intros Hagree. unfold Client.doRequest.
  destruct (Client.doRequest_build order ctx method path request c) as [req|]; [|done].
  by rewrite Hagree.
Qed.



End Asked.

(** X1: each of [Get], [Post], [Put], [Delete] and [Patch] of the generic
    client asks the transport about one request only: one with the
    verb of its name, the URL that [url.JoinPath] made of the base URL
    and the path, and as its body the JSON of the request value, none
    for [Get] and [Delete].  Two transports that answer such requests
    alike give the same outcome. *)
Theorem generic_wrappers_ask_with_their_verb `{GoRuntime} {A : Type} (dec : Decoder A)
    (order : MapRange) (do do' : Transport) (ctx : option Context) (path : string)
    (request : option Request) (response : option A) (c : Client.t) :
  let asked verb body (req : http_Request) :=
    Method req = verb /\ Body req = body
    /\ url_JoinPath (Client.BaseURL c) path = Ok (URL req) in
  (agree_on (asked "GET" None) do do' ->
   Client.Get dec order do ctx path response c = Client.Get dec order do' ctx path response c)
  /\ (agree_on (asked "DELETE" None) do do' ->
      Client.Delete dec order do ctx path response c
      = Client.Delete dec order do' ctx path response c)
  /\ (agree_on (asked "POST" (body_of request)) do do' ->
      Client.Post dec order do ctx path request response c
      = Client.Post dec order do' ctx path request response c)
  /\ (agree_on (asked "PUT" (body_of request)) do do' ->
      Client.Put dec order do ctx path request response c
      = Client.Put dec order do' ctx path request response c)
  /\ (agree_on (asked "PATCH" (body_of request)) do do' ->
      Client.Patch dec order do ctx path request response c
      = Client.Patch dec order do' ctx path request response c).
Proof.
  intros asked.
  assert (Hall : forall verb request,
            verb <> "" -> agree_on (asked verb (body_of request)) do do' ->
            Client.doRequest dec order do ctx verb path request response c
            = Client.doRequest dec order do' ctx verb path request response c).
  { intros verb request0 Hverb Hagree. apply doRequest_asks. intros req Hbuild.
    apply Hagree. by apply (doRequest_build_request order ctx verb path request0 c). }
  split_and!; intros Hagree.
  - by apply (Hall "GET" None).
  - by apply (Hall "DELETE" None).
  - by apply (Hall "POST" request).
  - by apply (Hall "PUT" request).
  - by apply (Hall "PATCH" request).
Qed.

Lemma generic_wrappers_ask_with_their_verb_witness :
  let answer := mk_http_Response 204 "204 No Content" (Ok "") in
  let do : @Transport test_runtime := fun _ _ => Ok answer in
  let do' : @Transport test_runtime :=
    fun _ req => if String.eqb (Method req) "GET" then Ok answer
                 else Err (errorString "connection refused") in
  @Client.Get test_runtime _ decode_HelloResponse range_forward do (Some tt) "/test"
    (Some (mkHelloResponse "")) (Client.NewClient "https://api.example.com")
  = @Client.Get test_runtime _ decode_HelloResponse range_forward do' (Some tt) "/test"
      (Some (mkHelloResponse "")) (Client.NewClient "https://api.example.com").
Proof.
  cbv zeta.
  apply (proj1 (@generic_wrappers_ask_with_their_verb test_runtime _ decode_HelloResponse
                  range_forward _ _ (Some tt) "/test" None (Some (mkHelloResponse ""))
                  (Client.NewClient "https://api.example.com"))).
  intros cl req (Hverb & _). cbn. by rewrite Hverb.
Defined.



(** ** Failures before and after the exchange *)

Section Failures.
Context `{GoRuntime}.

Lemma Errorf_w_text (prefix : string) (err : error) :
  forall_bytes (fun c => negb (Ascii.eqb c "%")) prefix = true ->
  fmt_Errorf_w (prefix ++ "%w") [] err = wrapError (prefix ++ error_Error err) err.
Proof.
  intros Hplain. unfold fmt_Errorf_w. f_equal. cbn [app].
  induction prefix as [|c prefix IH]; cbn.
  - by rewrite append_nil_r.
  - cbn in Hplain. apply andb_true_iff in Hplain as [Hc Hrest].
    apply negb_true_iff in Hc. rewrite Hc. by rewrite IH.
Qed.

(** What makes [toQueryString] fail: [json.Marshal], or a JSON text that
    is no object and not [null], or a part of the object that does not
    decode. *)
Lemma toQueryString_Err (order : MapRange) (v : Request) (err : error) :
  JsonServiceClient.toQueryString order v = Err err ->
  json_Marshal v = Err err
  \/ exists jsonData, json_Marshal v = Ok jsonData
       /\ (err = jsonSyntaxError jsonData \/ err = jsonUnmarshalTypeError jsonData).
Proof.
  unfold JsonServiceClient.toQueryString.
  destruct (json_Marshal v) as [jsonData | err0]; [|intros [= <-]; by left].
  unfold json_Unmarshal. destruct (json_parse jsonData) as [j|].
  - destruct (decode_map_interface j None) as [data [|]]; [done|].
    intros [= <-]. right. exists jsonData. by split; [|right].
  - intros [= <-]. right. exists jsonData. by split; [|left].
Qed.

End Failures.

(** X3: a request value that cannot be encoded makes the call fail
    before any exchange, with the same outcome whatever the transport.
    The generic client and [Send] with a verb other than [GET] and
    [DELETE] wrap the error of [json.Marshal] under the text
    [failed to marshal request]; [Send] with [GET] or [DELETE] returns
    the error of [toQueryString] as it is, which also refuses a value
    whose JSON is neither an object nor [null]. *)
Theorem encoding_failure_precedes_the_exchange `{GoRuntime} :
  (forall (A : Type) (dec : Decoder A) order (do : Transport) ctx method path r
          (response : option A) c fullURL err,
     url_JoinPath (Client.BaseURL c) path = Ok fullURL ->
     json_Marshal r = Err err ->
     Client.doRequest dec order do ctx method path (Some r) response c
     = ((Some (wrapError ("failed to marshal request: " ++ error_Error err) err), response), c))
  /\ (forall (A : Type) (dec : Decoder A) order (do : Transport) method request
             (responseType : option A) c err,
        method <> "GET" -> method <> "DELETE" ->
        json_Marshal request = Err err ->
        JsonServiceClient.Send dec order do method request responseType c
        = ((None, Some (wrapError ("failed to marshal request: " ++ error_Error err) err)), c))
  /\ (forall (A : Type) (dec : Decoder A) order (do : Transport) method request
             (responseType : option A) c err,
        method = "GET" \/ method = "DELETE" ->
        JsonServiceClient.toQueryString order request = Err err ->
        JsonServiceClient.Send dec order do method request responseType c
        = ((None, Some err), c))
  /\ (forall order request jsonData j,
        json_Marshal request = Ok jsonData ->
        json_parse jsonData = Some j ->
        (forall members, j <> JObject members) -> j <> JNull ->
        JsonServiceClient.toQueryString order request
        = Err (jsonUnmarshalTypeError jsonData)).
Proof.
  split_and!.
  - intros A dec order do ctx method path r response c fullURL err Hurl Hjson.
    unfold Client.doRequest, Client.doRequest_build. rewrite Hurl, Hjson.
    by rewrite (Errorf_w_text "failed to marshal request: ").
  - intros A dec order do method request responseType c err Hg Hd Hjson.
    unfold JsonServiceClient.Send. rewrite Send_build_body, Hjson by done.
    by rewrite (Errorf_w_text "failed to marshal request: ").
  - intros A dec order do method request responseType c err Hm Hquery.
    unfold JsonServiceClient.Send. by rewrite Send_build_query, Hquery.
  - intros order request jsonData j Hjson Hparse Hobj Hnull.
    unfold JsonServiceClient.toQueryString, json_Unmarshal. rewrite Hjson, Hparse.
    destruct j; try done. by destruct (Hobj members).
Qed.

Lemma encoding_failure_precedes_the_exchange_witness :
  let request := mkRequest (TOther "[]string") (Ok (js "['a','b']")) "[a b]" in
  let do : @Transport test_runtime :=
    fun _ _ => Ok (mk_http_Response 200 "200 OK" (Ok (js "{'result':'Hello'}"))) in
  @JsonServiceClient.Send test_runtime _ decode_HelloResponse range_forward do "GET" request
    (Some (mkHelloResponse ""))
    (JsonServiceClient.NewJsonServiceClient "https://test.servicestack.net")
  = ((None, Some (jsonUnmarshalTypeError (js "['a','b']"))),
     JsonServiceClient.NewJsonServiceClient "https://test.servicestack.net").
Proof.
  cbv zeta.
  destruct (@encoding_failure_precedes_the_exchange test_runtime) as (_ & _ & Hsend & Hquery).
  apply Hsend; [by left|].
  eapply Hquery; [reflexivity | vm_compute; reflexivity | done | done].
Defined.

(** X4: where an error of the generic client comes from.  An error of
    [doRequest] is never a [WebServiceException]; it is the plain error
    with the status and the body, returned exactly after an exchange
    whose status is outside 200 to 299 and whose body could be read, or
    it wraps one cause, which [errors.Unwrap] gives back, under the text
    of the step that failed followed by the text of the cause. *)
Theorem doRequest_error_origin `{GoRuntime} {A : Type} (dec : Decoder A) (order : MapRange)
    (do : Transport) ctx method path request (response response' : option A) c c' err :
  Client.doRequest dec order do ctx method path request response c
  = ((Some err, response'), c') ->
  as_WebServiceException err = None
  /\ ((exists stage cause,
         In stage ["failed to build URL: "; "failed to marshal request: ";
                   "failed to create request: "; "failed to execute request: ";
                   "failed to read response body: "; "failed to unmarshal response: "]
         /\ err = wrapError (stage ++ error_Error cause) cause
         /\ errors_Unwrap err = Some cause)
      \/ (exists req resp body,
            Client.doRequest_build order ctx method path request c = Ok req
            /\ do (Client.HTTPClient c) req = Ok resp
            /\ resp_Body resp = Ok body
            /\ ~ (200 <= resp_StatusCode resp < 300)
            /\ response' = response
            /\ err = errorString ("request failed with status "
                                  ++ strconv_Itoa (resp_StatusCode resp) ++ ": " ++ body))).
Proof.
  assert (Hwrap : forall stage cause,
    In stage ["failed to build URL: "; "failed to marshal request: ";
              "failed to create request: "; "failed to execute request: ";
              "failed to read response body: "; "failed to unmarshal response: "] ->
    forall_bytes (fun c => negb (Ascii.eqb c "%")) stage = true ->
    as_WebServiceException (fmt_Errorf_w (stage ++ "%w") [] cause) = None
    /\ ((exists stage' cause',
          In stage' ["failed to build URL: "; "failed to marshal request: ";
                     "failed to create request: "; "failed to execute request: ";
                     "failed to read response body: "; "failed to unmarshal response: "]
          /\ fmt_Errorf_w (stage ++ "%w") [] cause
             = wrapError (stage' ++ error_Error cause') cause'
          /\ errors_Unwrap (fmt_Errorf_w (stage ++ "%w") [] cause) = Some cause')
        \/ (exists req resp body,
              Client.doRequest_build order ctx method path request c = Ok req
              /\ do (Client.HTTPClient c) req = Ok resp
              /\ resp_Body resp = Ok body
              /\ ~ (200 <= resp_StatusCode resp < 300)
              /\ response' = response
              /\ fmt_Errorf_w (stage ++ "%w") [] cause
                 = errorString ("request failed with status "
                                ++ strconv_Itoa (resp_StatusCode resp) ++ ": " ++ body)))).
  { intros stage cause Hin Hplain. rewrite (Errorf_w_text stage cause Hplain).
    split; [done|]. left. by exists stage, cause. }
  unfold Client.doRequest.
  destruct (Client.doRequest_build order ctx method path request c) as [req | e] eqn:Hb.
  - destruct (do (Client.HTTPClient c) req) as [resp | e] eqn:Hd.
    + unfold Client.doRequest_finish.
      destruct (resp_Body resp) as [body | e] eqn:Hbody.
      * destruct ((resp_StatusCode resp <? 200) || (resp_StatusCode resp >=? 300)) eqn:Hs.
        -- intros [= <- <- <-]. split; [done|]. right. exists req, resp, body.
           split_and!; try done.
           ++ apply orb_true_iff in Hs. lia.
           ++ unfold fmt_Errorf. cbn -[strconv_Itoa]. by rewrite append_nil_r.
        -- destruct response as [v|]; [|done].
           destruct (0 <? String.length body)%nat; [|done].
           destruct (json_Unmarshal dec body v) as [v' [e|]]; [|done].
           intros [= <- <- <-].
           apply (Hwrap "failed to unmarshal response: " e); [cbn; tauto | done].
      * intros [= <- <- <-].
        apply (Hwrap "failed to read response body: " e); [cbn; tauto | done].
    + intros [= <- <- <-].
      apply (Hwrap "failed to execute request: " e); [cbn; tauto | done].
  - intros [= <- <- <-]. revert Hb. unfold Client.doRequest_build.
    destruct (url_JoinPath (Client.BaseURL c) path) as [fullURL | e0].
    + destruct request as [r|].
      * destruct (json_Marshal r) as [jsonData | e0].
        -- destruct (http_NewRequestWithContext ctx method fullURL (Some jsonData))
             as [req0 | e0]; [done|].
           intros [= <-].
           apply (Hwrap "failed to create request: " e0); [cbn; tauto | done].
        -- intros [= <-].
           apply (Hwrap "failed to marshal request: " e0); [cbn; tauto | done].
      * destruct (http_NewRequestWithContext ctx method fullURL None) as [req0 | e0]; [done|].
        intros [= <-].
        apply (Hwrap "failed to create request: " e0); [cbn; tauto | done].
    + intros [= <-].
      apply (Hwrap "failed to build URL: " e0); [cbn; tauto | done].
Qed.

Lemma doRequest_error_origin_witness :
  let do : @Transport test_runtime := fun _ _ => Err (errorString "context canceled") in
  let err := wrapError "failed to execute request: context canceled"
               (errorString "context canceled") in
  @Client.doRequest test_runtime _ decode_HelloResponse range_forward do (Some tt)
    "GET" "/test" None (Some (mkHelloResponse "")) (Client.NewClient "https://api.example.com")
  = ((Some err, Some (mkHelloResponse "")), Client.NewClient "https://api.example.com")
  /\ as_WebServiceException err = None.
Proof.
  cbv zeta. split; [vm_compute; reflexivity|].
  apply (proj1 (@doRequest_error_origin test_runtime _ decode_HelloResponse range_forward
                  (fun _ _ => Err (errorString "context canceled")) (Some tt)
                  "GET" "/test" None (Some (mkHelloResponse "")) (Some (mkHelloResponse ""))
                  (Client.NewClient "https://api.example.com")
                  (Client.NewClient "https://api.example.com") _ eq_refl)).
Defined.

Lemma parseError_shape `{GoRuntime} (c : JsonServiceClient.t) (statusCode : Z)
    (statusDescription body : string) :
  exists envelope,
    JsonServiceClient.parseError c statusCode statusDescription body
    = WebServiceExceptionErr (mkWebServiceException statusCode statusDescription envelope)
    /\ (envelope = mkResponseStatus "" body "" [] None
        \/ json_Unmarshal decode_errorResponse body ResponseStatus_zero = (envelope, None)).
Proof.
  unfold JsonServiceClient.parseError.
  destruct (json_Unmarshal decode_errorResponse body ResponseStatus_zero) as [decoded [e|]].
  - eexists. split; [reflexivity | by left].
  - eexists. split; [reflexivity | by right].
Qed.

(** X5: where an error of the convention-based client comes from.
    With an error [Send] returns no value.  The error is the
    [WebServiceException] of [parseError], exactly after an exchange
    whose status is 400 or more and whose body could be read; or, for
    [GET] and [DELETE], the unwrapped error of [toQueryString]; or it
    wraps one cause under the text of the step that failed.  So when
    the encoder of the request raises no [WebServiceException] of its
    own, an error that passes the type assertion carries the status
    code, 400 or more, and the status text of a response the transport
    gave. *)
Theorem Send_error_origin `{GoRuntime} {A : Type} (dec : Decoder A) (order : MapRange)
    (do : Transport) method request (responseType v : option A) c c' err :
  JsonServiceClient.Send dec order do method request responseType c = ((v, Some err), c') ->
  v = None
  /\ ((exists stage cause,
         In stage ["failed to marshal request: "; "failed to create request: ";
                   "failed to send request: "; "failed to read response: ";
                   "failed to unmarshal response: "]
         /\ err = wrapError (stage ++ error_Error cause) cause
         /\ errors_Unwrap err = Some cause)
      \/ ((method = "GET" \/ method = "DELETE")
          /\ JsonServiceClient.toQueryString order request = Err err)
      \/ (exists req resp body,
            JsonServiceClient.Send_build order method request c = Ok req
            /\ do (JsonServiceClient.httpClient c) req = Ok resp
            /\ resp_Body resp = Ok body
            /\ 400 <= resp_StatusCode resp
            /\ err = JsonServiceClient.parseError c (resp_StatusCode resp) (resp_Status resp)
                       body))
  /\ (forall e,
        as_WebServiceException err = Some e ->
        (forall e', json_Marshal request <> Err (WebServiceExceptionErr e')) ->
        400 <= StatusCode e
        /\ exists req resp,
             JsonServiceClient.Send_build order method request c = Ok req
             /\ do (JsonServiceClient.httpClient c) req = Ok resp
             /\ StatusCode e = resp_StatusCode resp
             /\ StatusDescription e = resp_Status resp).
Proof.
  intros HSend.
  assert (Horigin : v = None
    /\ ((exists stage cause,
         In stage ["failed to marshal request: "; "failed to create request: ";
                   "failed to send request: "; "failed to read response: ";
                   "failed to unmarshal response: "]
         /\ err = wrapError (stage ++ error_Error cause) cause
         /\ errors_Unwrap err = Some cause)
      \/ ((method = "GET" \/ method = "DELETE")
          /\ JsonServiceClient.toQueryString order request = Err err)
      \/ (exists req resp body,
            JsonServiceClient.Send_build order method request c = Ok req
            /\ do (JsonServiceClient.httpClient c) req = Ok resp
            /\ resp_Body resp = Ok body
            /\ 400 <= resp_StatusCode resp
            /\ err = JsonServiceClient.parseError c (resp_StatusCode resp) (resp_Status resp)
                       body))).
  { assert (Hwrap : forall stage cause,
      In stage ["failed to marshal request: "; "failed to create request: ";
                "failed to send request: "; "failed to read response: ";
                "failed to unmarshal response: "] ->
      forall_bytes (fun c => negb (Ascii.eqb c "%")) stage = true ->
      exists stage' cause',
        In stage' ["failed to marshal request: "; "failed to create request: ";
                   "failed to send request: "; "failed to read response: ";
                   "failed to unmarshal response: "]
        /\ fmt_Errorf_w (stage ++ "%w") [] cause = wrapError (stage' ++ error_Error cause') cause'
        /\ errors_Unwrap (fmt_Errorf_w (stage ++ "%w") [] cause) = Some cause').
    { intros stage cause Hin Hplain. rewrite (Errorf_w_text stage cause Hplain).
      by exists stage, cause. }
    revert HSend. unfold JsonServiceClient.Send.
    destruct (JsonServiceClient.Send_build order method request c) as [req | e] eqn:Hb.
    - destruct (do (JsonServiceClient.httpClient c) req) as [resp | e] eqn:Hd.
      + unfold JsonServiceClient.Send_finish.
        destruct (resp_Body resp) as [body | e] eqn:Hbody.
        * destruct (resp_StatusCode resp >=? 400) eqn:Hs.
          -- intros [= <- <- <-]. split; [done|]. right. right. exists req, resp, body.
             split_and!; try done. lia.
          -- destruct responseType as [v0|]; [|done].
             destruct (json_Unmarshal dec body v0) as [v' [e|]]; [|done].
             intros [= <- <- <-]. split; [done|]. left.
             apply (Hwrap "failed to unmarshal response: " e); [cbn; tauto | done].
        * intros [= <- <- <-]. split; [done|]. left.
          apply (Hwrap "failed to read response: " e); [cbn; tauto | done].
      + intros [= <- <- <-]. split; [done|]. left.
        apply (Hwrap "failed to send request: " e); [cbn; tauto | done].
    - intros [= <- <- <-]. split; [done|]. revert Hb. unfold JsonServiceClient.Send_build.
      destruct (String.eqb method "GET" || String.eqb method "DELETE") eqn:Hm.
      + destruct (JsonServiceClient.toQueryString order request) as [params | e0] eqn:Hq.
        * cbn [fst snd].
          destruct (http_NewRequest method _ None) as [req0 | e0]; [done|].
          intros [= <-]. left.
          apply (Hwrap "failed to create request: " e0); [cbn; tauto | done].
        * intros [= <-]. right. left. split; [|done].
          apply orb_true_iff in Hm as [Hm | Hm]; apply String.eqb_eq in Hm; tauto.
      + destruct (json_Marshal request) as [jsonData | e0].
        * cbn [fst snd].
          destruct (http_NewRequest method _ (Some jsonData)) as [req0 | e0]; [done|].
          intros [= <-]. left.
          apply (Hwrap "failed to create request: " e0); [cbn; tauto | done].
        * intros [= <-]. left.
          apply (Hwrap "failed to marshal request: " e0); [cbn; tauto | done]. }
  destruct Horigin as [Hv Horigin]. split_and!; [done | done |].
  intros e Has Hmarshal.
  destruct Horigin as [(stage & cause & _ & -> & _) | [[_ Hq] | (req & resp & body & Hb & Hd & Hbody & Hs & ->)]].
  - done.
  - apply toQueryString_Err in Hq as [Hq | (jsonData & _ & [-> | ->])]; [|done..].
    destruct err; try done. by destruct (Hmarshal e0).
  - destruct (parseError_shape c (resp_StatusCode resp) (resp_Status resp) body)
      as (envelope & Hshape & _).
    rewrite Hshape in Has. injection Has as <-. cbn.
    split; [done|]. by exists req, resp.
Qed.

Lemma Send_error_origin_witness :
  let do : @Transport test_runtime :=
    fun _ _ => Ok (mk_http_Response 500 "500 Internal Server Error"
                     (Ok "Internal Server Error")) in
  let e := mkWebServiceException 500 "500 Internal Server Error"
             (mkResponseStatus "" "Internal Server Error" "" [] None) in
  @JsonServiceClient.Send test_runtime _ decode_HelloResponse range_forward do
    "POST" HelloRequest_World (Some (mkHelloResponse ""))
    (JsonServiceClient.NewJsonServiceClient "https://test.servicestack.net")
  = ((None, Some (WebServiceExceptionErr e)),
     JsonServiceClient.NewJsonServiceClient "https://test.servicestack.net")
  /\ 400 <= StatusCode e.
Proof.
  cbv zeta. split; [vm_compute; reflexivity|].
  refine (proj1 (proj2 (proj2 (@Send_error_origin test_runtime _ decode_HelloResponse
            range_forward
            (fun _ _ => Ok (mk_http_Response 500 "500 Internal Server Error"
                              (Ok "Internal Server Error")))
            "POST" HelloRequest_World (Some (mkHelloResponse "")) None
            (JsonServiceClient.NewJsonServiceClient "https://test.servicestack.net")
            (JsonServiceClient.NewJsonServiceClient "https://test.servicestack.net")
            (WebServiceExceptionErr
               (mkWebServiceException 500 "500 Internal Server Error"
                  (mkResponseStatus "" "Internal Server Error" "" [] None)))
            _)) _ eq_refl _)).
  - vm_compute. reflexivity.
  - intros e'. vm_compute. discriminate.
Defined.

(** ** The query string, read back *)

Section QueryRoundTrip.

Lemma url_QueryEscape_cons (c : ascii) (s : string) :
  url_QueryEscape (String c s) = url_QueryEscape (String c "") ++ url_QueryEscape s.
Proof.
  cbn [url_QueryEscape]. destruct (shouldEscape c); [|done].
  by destruct (Ascii.eqb c " ").
Qed.

Lemma url_QueryUnescape_byte (c : ascii) (rest : string) :
  url_QueryUnescape (url_QueryEscape (String c "") ++ rest) =
    match url_QueryUnescape rest with
    | Some r => Some (String c r)
    | None => None
    end.
Proof. destruct c as [[] [] [] [] [] [] [] []]; reflexivity. Qed.

Lemma url_QueryEscape_byte_plain (c : ascii) :
  forall_bytes query_plain (url_QueryEscape (String c "")) = true.
Proof. destruct c as [[] [] [] [] [] [] [] []]; reflexivity. Qed.

Lemma forall_bytes_app (p : ascii -> bool) (a b : string) :
  forall_bytes p (a ++ b) = forall_bytes p a && forall_bytes p b.
Proof. induction a as [|c a IH]; simpl; [done|]. by rewrite IH, andb_assoc. Qed.

(** Escaping is undone by unescaping. *)
Lemma url_QueryUnescape_Escape (s : string) :
  url_QueryUnescape (url_QueryEscape s) = Some s.
Proof.
  induction s as [|c s IH]; [done|].
  by rewrite url_QueryEscape_cons, url_QueryUnescape_byte, IH.
Qed.

(** An escaped string has no byte that separates. *)
Lemma url_QueryEscape_plain (s : string) :
  forall_bytes query_plain (url_QueryEscape s) = true.
Proof.
  induction s as [|c s IH]; [done|].
  by rewrite url_QueryEscape_cons, forall_bytes_app, url_QueryEscape_byte_plain, IH.
Qed.

Lemma strings_Cut_at (a b : string) (sep : ascii) :
  mem_byte sep a = false -> strings_Cut (a ++ String sep b) sep = (a, b).
Proof.
  induction a as [|c a IH]; intros Ha; simpl.
  - by rewrite Ascii.eqb_refl.
  - simpl in Ha. rewrite Ascii.eqb_sym in Ha.
    destruct (Ascii.eqb c sep); [done|]. by rewrite IH.
Qed.

Lemma mem_byte_app (c : ascii) (a b : string) :
  mem_byte c (a ++ b) = mem_byte c a || mem_byte c b.
Proof. induction a as [|d a IH]; simpl; [done|]. by rewrite IH, orb_assoc. Qed.

Lemma encode_pair_eq (kv : string * string) :
  encode_pair kv = url_QueryEscape kv.1 ++ String "=" (url_QueryEscape kv.2).
Proof. done. Qed.

Lemma encode_pair_no (sep : ascii) (kv : string * string) :
  query_plain sep = false -> Ascii.eqb sep "=" = false ->
  mem_byte sep (encode_pair kv) = false.
Proof.
  intros Hsep Heq. rewrite encode_pair_eq, mem_byte_app. cbn [mem_byte]. rewrite Heq.
  by rewrite !(forall_bytes_not_mem query_plain sep _ (url_QueryEscape_plain _) Hsep).
Qed.

(** One pair, as [url.ParseQuery] reads it. *)
Lemma parseQuery_segment_pair (st : url_Values * bool) (kv : string * string) :
  parseQuery_segment st (encode_pair kv) = (Values_Add kv.1 kv.2 st.1, st.2).
Proof.
  unfold parseQuery_segment.
  rewrite (encode_pair_no ";" kv) by done.
  replace (String.eqb (encode_pair kv) "") with false.
  - rewrite encode_pair_eq, strings_Cut_at.
    + by rewrite !url_QueryUnescape_Escape.
    + by apply (forall_bytes_not_mem query_plain "=" _ (url_QueryEscape_plain _)).
  - symmetry. apply String.eqb_neq. rewrite encode_pair_eq.
    by destruct (url_QueryEscape kv.1).
Qed.

Lemma foldl_parseQuery_pairs (pairs : list (string * string)) (m : url_Values) (ok : bool) :
  foldl parseQuery_segment (m, ok) (encode_pair <$> pairs)
  = (foldl (fun m kv => Values_Add kv.1 kv.2 m) m pairs, ok).
Proof.
  revert m. induction pairs as [|kv pairs IH]; intros m; [done|].
  cbn [fmap list_fmap foldl]. by rewrite parseQuery_segment_pair, IH.
Qed.

Lemma strings_Split_go_app (sep : ascii) (cur : list ascii) (s rest : string) :
  mem_byte sep s = false ->
  strings_Split_go sep cur (s ++ String sep rest)
  = rev_append_bytes cur s :: strings_Split_go sep [] rest.
Proof.
  revert cur. induction s as [|c s IH]; intros cur Hs; simpl.
  - by rewrite Ascii.eqb_refl.
  - simpl in Hs. rewrite Ascii.eqb_sym in Hs.
    destruct (Ascii.eqb c sep); [done|]. by rewrite IH.
Qed.

(** Splitting what was joined gives the pieces back. *)
Lemma strings_Split_Join (sep : ascii) (elems : list string) :
  elems <> [] ->
  Forall (fun s => mem_byte sep s = false) elems ->
  strings_Split (strings_Join elems (String sep "")) sep = elems.
Proof.
  intros Hne Hall. unfold strings_Split.
  induction Hall as [|x elems Hx Hall IH]; [done|].
  destruct elems as [|y elems].
  - cbn [strings_Join]. by rewrite strings_Split_go_none.
  - change (strings_Join (x :: y :: elems) (String sep ""))
      with (x ++ String sep (strings_Join (y :: elems) (String sep ""))).
    rewrite strings_Split_go_app by done. cbn [rev_append_bytes]. by rewrite IH.
Qed.

Lemma foldl_Values_Add_key (key : string) (vs : list string) (m : url_Values) (k : string) :
  foldl (fun m kv => Values_Add kv.1 kv.2 m) m ((fun x => (key, x)) <$> vs) !! k
  = if decide (k = key /\ vs <> []) then Some (default [] (m !! k) ++ vs)%list else m !! k.
Proof.
  revert m. induction vs as [|x vs IH]; intros m; cbn [fmap list_fmap foldl].
  - by rewrite decide_False by (by intros [_ ?]).
  - rewrite IH. cbn [fst snd]. unfold Values_Add.
    destruct (decide (k = key)) as [-> | Hk].
    + rewrite lookup_insert_eq. cbn [default].
      rewrite (decide_True (P := key = key /\ x :: vs <> [])) by done.
      destruct vs as [|y vs].
      * rewrite decide_False by (by intros [_ ?]). done.
      * rewrite decide_True by done. unfold id. by rewrite <- app_assoc.
    + rewrite !decide_False by (by intros [? _]). by rewrite lookup_insert_ne.
Qed.

Lemma foldl_Values_Add_keys (values : string -> list string) (keys : list string)
    (m : url_Values) (k : string) :
  NoDup keys ->
  foldl (fun m kv => Values_Add kv.1 kv.2 m) m (key ← keys; (fun x => (key, x)) <$> values key)
    !! k
  = if decide (k ∈ keys /\ values k <> []) then Some (default [] (m !! k) ++ values k)%list
    else m !! k.
Proof.
  intros Hnodup. revert m. induction Hnodup as [|key keys Hnotin _ IH]; intros m.
  - cbn. rewrite decide_False; [done|]. intros [Hin _]. by apply elem_of_nil in Hin.
  - cbn [mbind list_bind]. rewrite foldl_app, IH, foldl_Values_Add_key.
    destruct (decide (k = key)) as [-> | Hk].
    + rewrite (decide_False (P := key ∈ keys /\ _)) by (by intros [? _]).
      destruct (decide (values key = [])) as [Hnil | Hvs].
      * rewrite !decide_False; [done | |]; by intros [_ ?].
      * rewrite !decide_True; [done | |]; split; try done. apply list_elem_of_here.
    + rewrite (decide_False (P := k = key /\ _)) by (by intros [? _]).
      destruct (decide (k ∈ keys /\ values k <> [])) as [[Hin Hvs] | Hno].
      * rewrite decide_True; [done|]. split; [|done]. by apply list_elem_of_further.
      * rewrite decide_False; [done|]. intros [Hin Hvs]. apply Hno. split; [|done].
        apply elem_of_cons in Hin as [? | ?]; done.
Qed.

(** Adding the pairs of a map of values one after the other gives the map. *)
Lemma foldl_Values_Add_pairs (v : url_Values) :
  (forall key, v !! key <> Some []) ->
  foldl (fun m kv => Values_Add kv.1 kv.2 m) ∅ (Values_pairs v) = v.
Proof.
  intros Hnonempty. apply map_eq. intros k. unfold Values_pairs.
  rewrite foldl_Values_Add_keys by apply sorted_keys_NoDup.
  rewrite lookup_empty. cbn [default app].
  destruct (v !! k) as [vs|] eqn:Hk.
  - rewrite decide_True; [done|]. split.
    + apply sorted_keys_elem. by eexists.
    + cbn. intros ->. by apply (Hnonempty k).
  - rewrite decide_False; [done|]. intros [Hin _].
    apply sorted_keys_elem in Hin as [vs Hvs]. congruence.
Qed.

(** What [Encode] wrote, [url.ParseQuery] reads. *)
Lemma url_ParseQuery_Encode (v : url_Values) :
  (forall key, v !! key <> Some []) ->
  url_ParseQuery (Values_Encode v) = (v, true).
Proof.
  intros Hnonempty. unfold url_ParseQuery, Values_Encode.
  destruct (Values_pairs v) as [|kv pairs] eqn:Hpairs.
  - cbn. f_equal. rewrite <- (foldl_Values_Add_pairs v Hnonempty). by rewrite Hpairs.
  - replace (String.eqb (strings_Join (encode_pair <$> kv :: pairs) "&") "") with false.
    + rewrite strings_Split_Join.
      * rewrite foldl_parseQuery_pairs, <- Hpairs. by rewrite foldl_Values_Add_pairs.
      * done.
      * apply Forall_forall. intros s Hs. apply list_elem_of_fmap in Hs as (p & -> & _).
        by apply encode_pair_no.
    + symmetry. apply String.eqb_neq. cbn [fmap list_fmap]. rewrite encode_pair_eq.
      destruct pairs; cbn [fmap list_fmap strings_Join];
        by destruct (url_QueryEscape kv.1).
Qed.

End QueryRoundTrip.

(** X6: the query string of [toQueryString] read back.  What
    [url.ParseQuery] makes of the text, as [r.URL.Query()] does on the
    server, holds without an error exactly the members of the request's
    JSON object that are not null, each under its own key with the one
    rendering [%v] gives its value, whatever bytes the keys and the
    values hold; so [Get] on it returns that rendering for a member that
    is not null, a key that is absent or null is absent, and the text is
    empty exactly when no member is not null. *)
Theorem query_string_read_back `{GoRuntime} (order : MapRange) (v : Request) (params : string) :
  JsonServiceClient.toQueryString order v = Ok params ->
  exists jsonData data,
    json_Marshal v = Ok jsonData
    /\ json_Unmarshal decode_map_interface jsonData None = (data, None)
    /\ url_ParseQuery params = (query_values (default ∅ data), true)
    /\ (forall key value,
          default ∅ data !! key = Some value -> value <> VNil ->
          Values_Get key (url_ParseQuery params).1 = Value_print value)
    /\ (forall key,
          default ∅ data !! key = None \/ default ∅ data !! key = Some VNil ->
          (url_ParseQuery params).1 !! key = None)
    /\ (params = "" <->
        forall key value, default ∅ data !! key = Some value -> value = VNil).
Proof.
  rewrite toQueryString_unfold.
  destruct (json_Marshal v) as [jsonData|]; [|done].
  destruct (json_Unmarshal decode_map_interface jsonData None) as [data [e|]] eqn:Hdata; [done|].
  intros [= <-]. exists jsonData, data.
  assert (Hparse : url_ParseQuery (Values_Encode (query_values (default ∅ data)))
                   = (query_values (default ∅ data), true)).
  { apply url_ParseQuery_Encode. intros key Hkey.
    by apply query_values_lookup in Hkey as (value & _ & _ & ?). }
  change (strings_Join (encode_pair <$> Values_pairs (query_values (default ∅ data))) "&")
    with (Values_Encode (query_values (default ∅ data))).
  rewrite Hparse. cbn [fst]. split_and!; try done.
  - intros key value Hkey Hvalue. unfold Values_Get.
    by rewrite (proj2 (query_values_lookup (default ∅ data) key [Value_print value]))
      by (by exists value).
  - intros key Hkey. destruct (query_values (default ∅ data) !! key) as [vs|] eqn:Hq; [|done].
    apply query_values_lookup in Hq as (value & Hd & Hn & _).
    destruct Hkey as [Hkey | Hkey]; congruence.
  - split.
    + intros Hempty key value Hkey.
      assert (Hvalue : value = VNil \/ value <> VNil) by (destruct value; auto).
      destruct Hvalue as [|Hvalue]; [done|].
      rewrite Hempty in Hparse. injection Hparse as Hparse.
      assert (Hq : query_values (default ∅ data) !! key = Some [Value_print value])
        by (apply query_values_lookup; by exists value).
      by rewrite <- Hparse in Hq.
    + intros Hnil.
      replace (query_values (default ∅ data)) with (∅ : url_Values); [done|].
      symmetry. apply map_eq. intros key. rewrite lookup_empty.
      destruct (query_values (default ∅ data) !! key) as [vs|] eqn:Hq; [|done].
      apply query_values_lookup in Hq as (value & Hd & Hn & _).
      by destruct (Hn (Hnil key value Hd)).
Qed.

Lemma query_string_read_back_witness :
  Values_Get "name"
    (url_ParseQuery "name=World").1 = "World"
  /\ exists jsonData data,
       json_Marshal HelloRequest_World = Ok jsonData
       /\ json_Unmarshal (@decode_map_interface test_runtime) jsonData None = (data, None)
       /\ url_ParseQuery "name=World" = (@query_values test_runtime (default ∅ data), true).
Proof.
  split; [vm_compute; reflexivity|].
  destruct (@query_string_read_back test_runtime range_forward HelloRequest_World "name=World")
    as (jsonData & data & Hjson & Hdata & Hparse & _).
  - vm_compute. reflexivity.
  - by exists jsonData, data.
Defined.

Section PathShape.
Context `{GoRuntime}.

Lemma mem_byte_last (sep : ascii) (s : string) :
  mem_byte sep s = true ->
  exists pre tail, s = pre ++ String sep tail /\ mem_byte sep tail = false.
Proof.
  induction s as [|c s IH]; [done|]. simpl.
  destruct (mem_byte sep s) eqn:Hs.
  - intros _. destruct (IH eq_refl) as (pre & tail & -> & Htail).
    by exists (String c pre), tail.
  - rewrite orb_false_r. intros Hc. apply Ascii.eqb_eq in Hc as <-.
    by exists "", s.
Qed.

Lemma strings_TrimPrefix_star (s : string) :
  (s = "*" ++ strings_TrimPrefix s "*")
  \/ (strings_TrimPrefix s "*" = s /\ forall rest, s <> "*" ++ rest).
Proof.
  destruct s as [|c s]; [by right|].
  unfold strings_TrimPrefix. cbn [strings_TrimPrefix_go].
  destruct (Ascii.eqb_spec "*" c) as [<- | Hc].
  - left. by destruct s.
  - right. split; [done|]. intros rest [= ? _]. done.
Qed.

Lemma mem_byte_TrimPrefix (sep : ascii) (s p : string) :
  mem_byte sep s = false -> mem_byte sep (strings_TrimPrefix s p) = false.
Proof.
  unfold strings_TrimPrefix. revert s.
  induction p as [|a p IH]; intros s Hs; [by destruct s|].
  destruct s as [|b s]; [done|]. cbn [strings_TrimPrefix_go].
  simpl in Hs. apply orb_false_iff in Hs as [Hb Hs].
  destruct (Ascii.eqb a b).
  - specialize (IH s Hs). destruct (strings_TrimPrefix_go s p); [done|].
    simpl. by rewrite Hb, Hs.
  - simpl. by rewrite Hb, Hs.
Qed.

Lemma getRequestPath_tail (c : JsonServiceClient.t) (request : Request) :
  let printed := GoType_String (req_type request) in
  exists tail,
    JsonServiceClient.getRequestPath c request
    = "/json/reply/" ++ strings_TrimPrefix tail "*"
    /\ mem_byte "." tail = false
    /\ (printed = tail \/ exists pre, printed = pre ++ "." ++ tail).
Proof.
  intros printed. unfold JsonServiceClient.getRequestPath.
  replace (fmt_Sprintf "%T" [ArgRequest request]) with printed
    by (cbn; by rewrite append_nil_r).
  destruct (mem_byte "." printed) eqn:Hdot.
  - destruct (mem_byte_last _ _ Hdot) as (pre & tail & Hprinted & Htail).
    exists tail. rewrite Hprinted. unfold strings_Split.
    destruct (strings_Split_go_last "." [] pre tail Htail) as (front & Hfront & ->).
    rewrite last_snoc, length_app. simpl.
    destruct front as [|x front]; [done|]. simpl.
    replace (1 <? S (length front + 1))%nat with true
      by (symmetry; apply Nat.ltb_lt; lia).
    split_and!; [done | done |]. right. by exists pre.
  - exists printed. unfold strings_Split. rewrite strings_Split_go_none by done.
    cbn. split_and!; [done | done | by left].
Qed.

End PathShape.

(** X7: the path of any request, whatever its type.  The path is
    [/json/reply/] and a name without a dot: what follows the last dot
    of the type as [%T] prints it, or all of it when it has no dot,
    less one leading [*] and no more.  It depends on the printed type
    alone, so not on the client nor on the value. *)
Theorem getRequestPath_shape `{GoRuntime} (c : JsonServiceClient.t) (request : Request) :
  let printed := GoType_String (req_type request) in
  (exists tail name,
     JsonServiceClient.getRequestPath c request = "/json/reply/" ++ name
     /\ mem_byte "." name = false
     /\ (printed = tail \/ exists pre, printed = pre ++ "." ++ tail)
     /\ mem_byte "." tail = false
     /\ (tail = "*" ++ name \/ (tail = name /\ forall rest, tail <> "*" ++ rest)))
  /\ (forall c' request',
        GoType_String (req_type request') = printed ->
        JsonServiceClient.getRequestPath c' request'
        = JsonServiceClient.getRequestPath c request).
Proof.
  intros printed. split.
  - destruct (getRequestPath_tail c request) as (tail & Hpath & Htail & Hprinted).
    exists tail, (strings_TrimPrefix tail "*"). split_and!; try done.
    + by apply mem_byte_TrimPrefix.
    + destruct (strings_TrimPrefix_star tail) as [Hstar | [Hsame Hno]]; [by left|].
      right. by rewrite Hsame.
  - intros c' request' Hsame. unfold JsonServiceClient.getRequestPath.
    replace (fmt_Sprintf "%T" [ArgRequest request'])
      with (fmt_Sprintf "%T" [ArgRequest request]); [done|].
    cbn. by rewrite Hsame.
Qed.

(** ** Requests that cannot be created *)

(** X8: the edges of creating the request.  On the generic client a
    nil context makes every call fail before any exchange, with
    [net/http: nil Context] wrapped under [failed to create request];
    [Send] always passes the background context.  A method with a byte
    that is no token byte is refused by both clients before any
    exchange.  The empty method is compared with [GET] as it is, so
    [Send] encodes the request as a JSON body with no query string, and
    the request is then created with the method [GET]. *)
Theorem request_creation_edges `{GoRuntime} :
  (forall (A : Type) (dec : Decoder A) order (do : Transport) method path request
          (response : option A) c fullURL,
     url_JoinPath (Client.BaseURL c) path = Ok fullURL ->
     (forall r, request = Some r -> exists jsonData, json_Marshal r = Ok jsonData) ->
     forall_bytes validHeaderFieldByte method = true ->
     Client.doRequest dec order do None method path request response c
     = ((Some (wrapError "failed to create request: net/http: nil Context"
                 (errorString "net/http: nil Context")), response), c))
  /\ (forall (A : Type) (dec : Decoder A) order (do : Transport) ctx method path
             (response : option A) c fullURL,
        url_JoinPath (Client.BaseURL c) path = Ok fullURL ->
        forall_bytes validHeaderFieldByte method = false ->
        let cause := errorString ("net/http: invalid method " ++ strconv_Quote method) in
        Client.doRequest dec order do ctx method path None response c
        = ((Some (wrapError ("failed to create request: " ++ error_Error cause) cause),
            response), c))
  /\ (forall (A : Type) (dec : Decoder A) order (do : Transport) method request
             (responseType : option A) c jsonData,
        json_Marshal request = Ok jsonData ->
        forall_bytes validHeaderFieldByte method = false ->
        let cause := errorString ("net/http: invalid method " ++ strconv_Quote method) in
        JsonServiceClient.Send dec order do method request responseType c
        = ((None, Some (wrapError ("failed to create request: " ++ error_Error cause) cause)),
           c))
  /\ (forall order request c jsonData,
        json_Marshal request = Ok jsonData ->
        url_Parse_error (JsonServiceClient.BaseURL c
                         ++ JsonServiceClient.getRequestPath c request) = None ->
        exists req,
          JsonServiceClient.Send_build order "" request c = Ok req
          /\ Method req = "GET"
          /\ Body req = Some jsonData
          /\ URL req = JsonServiceClient.BaseURL c
                       ++ JsonServiceClient.getRequestPath c request).
Proof.
  split_and!.
  - intros A dec order do method path request response c fullURL Hurl Hjson Hmethod.
    unfold Client.doRequest, Client.doRequest_build. rewrite Hurl.
    assert (Hnew : forall body,
              http_NewRequestWithContext None method fullURL body
              = Err (errorString "net/http: nil Context")).
    { intros body. unfold http_NewRequestWithContext.
      destruct (String.eqb method ""); [done|]. by rewrite Hmethod. }
    destruct request as [r|].
    + destruct (Hjson r eq_refl) as [jsonData ->]. by rewrite Hnew.
    + by rewrite Hnew.
  - intros A dec order do ctx method path response c fullURL Hurl Hmethod cause.
    unfold Client.doRequest, Client.doRequest_build. rewrite Hurl.
    unfold http_NewRequestWithContext.
    destruct (String.eqb_spec method "") as [-> | _]; [done|]. rewrite Hmethod. cbn [negb].
    by rewrite (Errorf_w_text "failed to create request: ").
  - intros A dec order do method request responseType c jsonData Hjson Hmethod cause.
    unfold JsonServiceClient.Send.
    rewrite Send_build_body, Hjson by (by intros ->).
    unfold http_NewRequest, http_NewRequestWithContext.
    destruct (String.eqb_spec method "") as [-> | _]; [done|]. rewrite Hmethod. cbn [negb].
    by rewrite (Errorf_w_text "failed to create request: ").
  - intros order request c jsonData Hjson Hurl.
    rewrite Send_build_body, Hjson by done.
    unfold http_NewRequest, http_NewRequestWithContext. cbn [String.eqb negb].
    replace (forall_bytes validHeaderFieldByte "GET") with true by done. cbn [negb].
    rewrite Hurl. eexists. split; [reflexivity|].
    destruct (apply_headers_fields order (JsonServiceClient.Headers c)
                (req_Header_Set "Accept" "application/json"
                   (req_Header_Set "Content-Type" "application/json"
                      (mk_http_Request "GET"
                         (JsonServiceClient.BaseURL c
                          ++ JsonServiceClient.getRequestPath c request)
                         (Some jsonData) ∅ context_Background))))
      as (-> & -> & ->).
    done.
Qed.

Lemma request_creation_edges_witness :
  let do : @Transport test_runtime :=
    fun _ _ => Ok (mk_http_Response 200 "200 OK" (Ok (js "{'result':'Hello'}"))) in
  @Client.doRequest test_runtime _ decode_HelloResponse range_forward do None
    "GET" "/hello" None (Some (mkHelloResponse "")) (Client.NewClient "https://api.example.com")
  = ((Some (wrapError "failed to create request: net/http: nil Context"
              (errorString "net/http: nil Context")), Some (mkHelloResponse "")),
     Client.NewClient "https://api.example.com").
Proof.
  cbv zeta.
  eapply (proj1 (@request_creation_edges test_runtime)).
  - vm_compute. reflexivity.
  - intros r. discriminate.
  - reflexivity.
Defined.

(** ** The configured headers *)

Section ConfiguredHeaders.
Context `{GoRuntime}.

(** Of the entries that spell a header's canonical name, the one visited
    last gives the value that is sent. *)
Lemma foldl_Header_Set_last (name : string) (entries : list (string * string))
    (req : http_Request) :
  Header (foldl (fun r kv => req_Header_Set kv.1 kv.2 r) req entries) !! name
  = match last (filter (fun kv => CanonicalMIMEHeaderKey kv.1 = name) entries) with
    | Some kv => Some [kv.2]
    | None => Header req !! name
    end.
Proof.
  induction entries as [|kv entries IH] using rev_ind; [done|].
  rewrite foldl_app, filter_app. cbn [foldl]. unfold req_Header_Set at 1. cbn [Header with_Header].
  unfold Header_Set.
  destruct (decide (CanonicalMIMEHeaderKey kv.1 = name)) as [Heq | Hne].
  - rewrite filter_cons_True, filter_nil by done.
    by rewrite last_snoc, Heq, lookup_insert_eq.
  - rewrite filter_cons_False, filter_nil, app_nil_r by done.
    by rewrite lookup_insert_ne.
Qed.

Lemma last_constant {A : Type} (l : list A) (x : A) :
  x ∈ l -> (forall y, y ∈ l -> y = x) -> last l = Some x.
Proof.
  intros Hin Hall. destruct (last l) as [y|] eqn:Hlast.
  - f_equal. apply Hall. apply last_Some in Hlast as [l' ->].
    apply elem_of_app. right. apply list_elem_of_here.
  - apply last_None in Hlast. subst l. by apply elem_of_nil in Hin.
Qed.

(** A key that alone spells its canonical name is sent with its value. *)
Lemma apply_headers_alone (order : MapRange) (headers : gmap string string)
    (req : http_Request) (key value : string) :
  headers !! key = Some value ->
  (forall key' value', headers !! key' = Some value' ->
     CanonicalMIMEHeaderKey key' = CanonicalMIMEHeaderKey key -> key' = key) ->
  Header (apply_headers order headers req) !! CanonicalMIMEHeaderKey key = Some [value].
Proof.
  intros Hkey Halone. unfold apply_headers. rewrite foldl_Header_Set_last.
  rewrite (last_constant _ (key, value)); [done | |].
  - apply list_elem_of_filter. split; [done|].
    rewrite range_of_perm. by apply elem_of_map_to_list.
  - intros [k v] Hin. apply list_elem_of_filter in Hin as [Hname Hin].
    rewrite range_of_perm in Hin. apply elem_of_map_to_list in Hin.
    cbn in Hname. pose proof (Halone k v Hin Hname) as ->. congruence.
Qed.

Lemma Header_Get_lookup (key value : string) (h : http_Header) :
  h !! CanonicalMIMEHeaderKey key = Some [value] -> Header_Get key h = value.
Proof. intros Hh. unfold Header_Get. by rewrite Hh. Qed.

(** Two keys that spell the same canonical name: the order of the visit
    decides. *)
Lemma apply_headers_collision (headers : gmap string string)
    (key1 key2 value1 value2 name : string) :
  headers !! key1 = Some value1 -> headers !! key2 = Some value2 ->
  key1 <> key2 ->
  CanonicalMIMEHeaderKey key1 = name -> CanonicalMIMEHeaderKey key2 = name ->
  (forall key value, headers !! key = Some value -> CanonicalMIMEHeaderKey key = name ->
     key = key1 \/ key = key2) ->
  (forall req,
     Header (apply_headers range_forward headers req) !! name = Some [value1]
     /\ Header (apply_headers range_backward headers req) !! name = Some [value2])
  \/ (forall req,
        Header (apply_headers range_forward headers req) !! name = Some [value2]
        /\ Header (apply_headers range_backward headers req) !! name = Some [value1]).
Proof.
  intros Hk1 Hk2 Hne Hn1 Hn2 Honly. unfold apply_headers.
  cbn [range_of range_forward range_backward].
  set (colliding := filter (fun kv : string * string => CanonicalMIMEHeaderKey kv.1 = name)
                      (map_to_list headers)).
  assert (Hperm : colliding ≡ₚ [(key1, value1); (key2, value2)]).
  { apply NoDup_Permutation.
    - apply NoDup_filter, NoDup_map_to_list.
    - apply NoDup_cons. split; [|apply NoDup_singleton].
      intros Hin. apply list_elem_of_singleton in Hin. congruence.
    - intros [k v]. unfold colliding. rewrite list_elem_of_filter, elem_of_map_to_list.
      cbn [fst]. rewrite !elem_of_cons, elem_of_nil. split.
      + intros [Hname Hkv]. destruct (Honly k v Hkv Hname) as [-> | ->].
        * left. congruence.
        * right. left. congruence.
      + intros [[= -> ->] | [[= -> ->] | []]]; by split. }
  symmetry in Hperm.
  apply Permutation_length_2_inv in Hperm as [Hcolliding | Hcolliding]; [right | left];
    intros req; rewrite !foldl_Header_Set_last, filter_reverse, last_reverse;
    fold colliding; by rewrite Hcolliding.
Qed.

Lemma Send_build_Header (order : MapRange) (method : string) (request : Request)
    (c : JsonServiceClient.t) (req : http_Request) :
  JsonServiceClient.Send_build order method request c = Ok req ->
  exists req0,
    Header req0 = ∅
    /\ req = apply_headers order (JsonServiceClient.Headers c)
               (req_Header_Set "Accept" "application/json"
                  (req_Header_Set "Content-Type" "application/json" req0)).
Proof.
  intros Hbuild. apply Send_build_shape in Hbuild as (req0 & Hnew & ->).
  exists req0. split; [|done].
  by apply http_NewRequestWithContext_Ok in Hnew as (_ & _ & ?).
Qed.

End ConfiguredHeaders.

(** X9: a configured header reaches every request.  On either client,
    when a key of [Headers] is the only one of them that spells its
    canonical name, every request that is built carries its value under
    that name, also when the name is [Accept] or [Content-Type], and
    [Header.Get] with the key as it was given reads it; so it is with
    the key that [SetHeader] has just stored.  A name that is neither
    [Accept] nor [Content-Type] and that no key spells is not in the
    request. *)
Theorem configured_header_is_sent `{GoRuntime} :
  (forall order ctx method path request c req key value,
     Client.doRequest_build order ctx method path request c = Ok req ->
     Client.Headers c !! key = Some value ->
     (forall key' value', Client.Headers c !! key' = Some value' ->
        CanonicalMIMEHeaderKey key' = CanonicalMIMEHeaderKey key -> key' = key) ->
     Header req !! CanonicalMIMEHeaderKey key = Some [value]
     /\ Header_Get key (Header req) = value)
  /\ (forall order method request c req key value,
        JsonServiceClient.Send_build order method request c = Ok req ->
        JsonServiceClient.Headers c !! key = Some value ->
        (forall key' value', JsonServiceClient.Headers c !! key' = Some value' ->
           CanonicalMIMEHeaderKey key' = CanonicalMIMEHeaderKey key -> key' = key) ->
        Header req !! CanonicalMIMEHeaderKey key = Some [value]
        /\ Header_Get key (Header req) = value)
  /\ (forall order ctx method path request c req key value,
        Client.doRequest_build order ctx method path request (Client.SetHeader key value c)
        = Ok req ->
        (forall key' value', Client.Headers c !! key' = Some value' ->
           CanonicalMIMEHeaderKey key' = CanonicalMIMEHeaderKey key -> key' = key) ->
        Header_Get key (Header req) = value)
  /\ (forall order ctx method path request c req name,
        Client.doRequest_build order ctx method path request c = Ok req ->
        name <> "Accept" -> name <> "Content-Type" ->
        ~ configured name (Client.Headers c) ->
        Header req !! name = None)
  /\ (forall order method request c req name,
        JsonServiceClient.Send_build order method request c = Ok req ->
        name <> "Accept" -> name <> "Content-Type" ->
        ~ configured name (JsonServiceClient.Headers c) ->
        Header req !! name = None).
Proof.
  split_and!.
  - intros order ctx method path request c req key value Hbuild Hkey Halone.
    apply doRequest_build_shape in Hbuild as (req0 & _ & _ & ->).
    pose proof (apply_headers_alone order _
                  (req_Header_Set "Accept" "application/json"
                     match request with
                     | Some _ => req_Header_Set "Content-Type" "application/json" req0
                     | None => req0
                     end) key value Hkey Halone) as Hsent.
    split; [done | by apply Header_Get_lookup].
  - intros order method request c req key value Hbuild Hkey Halone.
    apply Send_build_Header in Hbuild as (req0 & _ & ->).
    pose proof (apply_headers_alone order _
                  (req_Header_Set "Accept" "application/json"
                     (req_Header_Set "Content-Type" "application/json" req0))
                  key value Hkey Halone) as Hsent.
    split; [done | by apply Header_Get_lookup].
  - intros order ctx method path request c req key value Hbuild Halone.
    apply doRequest_build_shape in Hbuild as (req0 & _ & _ & ->).
    apply Header_Get_lookup, apply_headers_alone.
    + apply lookup_insert_eq.
    + intros key' value' Hkey' Hname. cbn in Hkey'.
      destruct (decide (key' = key)) as [|Hne]; [done|].
      rewrite lookup_insert_ne in Hkey' by done. by eapply Halone.
  - intros order ctx method path request c req name Hbuild Haccept Hcontent Hnot.
    apply doRequest_build_shape in Hbuild as (req0 & Hempty & _ & ->).
    rewrite apply_headers_untouched by (by apply not_configured).
    cbn. rewrite Header_Set_lookup_ne by (by vm_compute).
    destruct request; cbn.
    + rewrite Header_Set_lookup_ne by (by vm_compute). by rewrite Hempty.
    + by rewrite Hempty.
  - intros order method request c req name Hbuild Haccept Hcontent Hnot.
    apply Send_build_Header in Hbuild as (req0 & Hempty & ->).
    rewrite apply_headers_untouched by (by apply not_configured).
    cbn. rewrite !Header_Set_lookup_ne by (by vm_compute). by rewrite Hempty.
Qed.

Lemma configured_header_is_sent_witness :
  let c := JsonServiceClient.mk "https://test.servicestack.net"
             (mk_http_Client (30 * time_Second)) {["X-Custom-Header" := "custom-value"]} in
  exists req,
    @JsonServiceClient.Send_build test_runtime range_forward "POST" HelloRequest_World c = Ok req
    /\ Header_Get "X-Custom-Header" (Header req) = "custom-value".
Proof.
  cbv zeta.
  destruct (@JsonServiceClient.Send_build test_runtime range_forward "POST" HelloRequest_World
              (JsonServiceClient.mk "https://test.servicestack.net"
                 (mk_http_Client (30 * time_Second))
                 {["X-Custom-Header" := "custom-value"]})) as [req | err] eqn:Hbuild.
  - exists req. split; [done|].
    eapply (proj1 (proj2 (@configured_header_is_sent test_runtime))).
    + exact Hbuild.
    + apply lookup_singleton_eq.
    + intros key' value' Hkey' _. cbn in Hkey'.
      by apply lookup_singleton_Some in Hkey' as [<- _].
  - vm_compute in Hbuild. discriminate.
Defined.

(** X10: two keys of [Headers] that spell the same canonical name with
    different values race: [Header.Set] replaces, so the value that is
    sent is the one of the key the [range] loop visits last, and the
    two orders of iteration give requests that differ in that header.
    This holds on both clients. *)
Theorem colliding_headers_depend_on_the_order `{GoRuntime}
    (headers : gmap string string) (key1 key2 value1 value2 name : string) :
  headers !! key1 = Some value1 -> headers !! key2 = Some value2 ->
  key1 <> key2 -> value1 <> value2 ->
  CanonicalMIMEHeaderKey key1 = name -> CanonicalMIMEHeaderKey key2 = name ->
  (forall key value, headers !! key = Some value -> CanonicalMIMEHeaderKey key = name ->
     key = key1 \/ key = key2) ->
  (forall ctx method path request c req1 req2,
     Client.Headers c = headers ->
     Client.doRequest_build range_forward ctx method path request c = Ok req1 ->
     Client.doRequest_build range_backward ctx method path request c = Ok req2 ->
     Header req1 !! name <> Header req2 !! name
     /\ (Header req1 !! name = Some [value1] \/ Header req1 !! name = Some [value2]))
  /\ (forall method request c req1 req2,
        JsonServiceClient.Headers c = headers ->
        JsonServiceClient.Send_build range_forward method request c = Ok req1 ->
        JsonServiceClient.Send_build range_backward method request c = Ok req2 ->
        Header req1 !! name <> Header req2 !! name
        /\ (Header req1 !! name = Some [value1] \/ Header req1 !! name = Some [value2])).
Proof.
  intros Hk1 Hk2 Hne Hvalues Hn1 Hn2 Honly.
  assert (Hrace : forall req req',
            Header (apply_headers range_forward headers req) !! name
            <> Header (apply_headers range_backward headers req') !! name
            /\ (Header (apply_headers range_forward headers req) !! name = Some [value1]
                \/ Header (apply_headers range_forward headers req) !! name = Some [value2])).
  { intros req req'.
    destruct (apply_headers_collision headers key1 key2 value1 value2 name
                Hk1 Hk2 Hne Hn1 Hn2 Honly) as [Hcase | Hcase];
      destruct (Hcase req) as [-> _]; destruct (Hcase req') as [_ ->].
    - split; [congruence | by left].
    - split; [congruence | by right]. }
  split.
  - intros ctx method path request c req1 req2 Hheaders Hb1 Hb2.
    apply doRequest_build_shape in Hb1 as (req0 & _ & _ & ->).
    apply doRequest_build_shape in Hb2 as (req0' & _ & _ & ->).
    rewrite Hheaders. apply Hrace.
  - intros method request c req1 req2 Hheaders Hb1 Hb2.
    apply Send_build_Header in Hb1 as (req0 & _ & ->).
    apply Send_build_Header in Hb2 as (req0' & _ & ->).
    rewrite Hheaders. apply Hrace.
Qed.

Lemma colliding_headers_depend_on_the_order_witness :
  let c := JsonServiceClient.SetBearerToken "abc"
             (JsonServiceClient.mk "https://test.servicestack.net"
                (mk_http_Client (30 * time_Second)) {["authorization" := "Basic old"]}) in
  exists req1 req2,
    @JsonServiceClient.Send_build test_runtime range_forward "POST" HelloRequest_World c = Ok req1
    /\ @JsonServiceClient.Send_build test_runtime range_backward "POST" HelloRequest_World c
       = Ok req2
    /\ Header req1 !! "Authorization" <> Header req2 !! "Authorization".
Proof.
  cbv zeta.
  set (c := JsonServiceClient.SetBearerToken "abc"
              (JsonServiceClient.mk "https://test.servicestack.net"
                 (mk_http_Client (30 * time_Second)) {["authorization" := "Basic old"]})).
  destruct (@JsonServiceClient.Send_build test_runtime range_forward "POST" HelloRequest_World c)
    as [req1 | err] eqn:Hb1; [|vm_compute in Hb1; discriminate].
  destruct (@JsonServiceClient.Send_build test_runtime range_backward "POST" HelloRequest_World c)
    as [req2 | err] eqn:Hb2; [|vm_compute in Hb2; discriminate].
  exists req1, req2. split_and!; [done | done |].
  refine (proj1 (proj2 (@colliding_headers_depend_on_the_order test_runtime
                          (JsonServiceClient.Headers c)
                          "Authorization" "authorization" "Bearer abc" "Basic old"
                          "Authorization" _ _ _ _ _ _ _)
                   "POST" HelloRequest_World c req1 req2 eq_refl Hb1 Hb2)).
  - apply lookup_insert_eq.
  - cbn. rewrite lookup_insert_ne by done. apply lookup_singleton_eq.
  - done.
  - done.
  - reflexivity.
  - reflexivity.
  - intros key value Hkey _. cbn in Hkey.
    apply lookup_insert_Some in Hkey as [[<- _] | [_ Hkey]]; [by left|].
    apply lookup_singleton_Some in Hkey as [<- _]. by right.
Defined.

(** ** Fresh clients, the timeout and the credentials *)

Section Fresh.
Context `{GoRuntime}.

Lemma apply_headers_empty (order : MapRange) (req : http_Request) :
  apply_headers order ∅ req = req.
Proof.
  unfold apply_headers.
  pose proof (range_of_perm order _ (∅ : gmap string string)) as Hperm.
  rewrite map_to_list_empty in Hperm. apply Permutation_nil_r in Hperm. by rewrite Hperm.
Qed.

Lemma Send_build_SetTimeout (order : MapRange) (method : string) (request : Request)
    (timeout : Z) (c : JsonServiceClient.t) :
  JsonServiceClient.Send_build order method request (JsonServiceClient.SetTimeout timeout c)
  = JsonServiceClient.Send_build order method request c.
Proof. done. Qed.

End Fresh.

(** X11: what a fresh client sends, and what the timeout touches.  A
    request of a client made by [NewClient] has the header [Accept],
    the header [Content-Type] when a request value is given, and no
    other header; a request of a client made by
    [NewJsonServiceClient] has exactly these two; both hand the
    transport an [http.Client] whose timeout is 30 seconds.
    [SetTimeout] changes no request: the call goes as before, with the
    transport handed the new timeout. *)
Theorem fresh_client_and_timeout `{GoRuntime} :
  (forall baseURL order ctx method path request req,
     Client.doRequest_build order ctx method path request (Client.NewClient baseURL) = Ok req ->
     Header req = match request with
                  | Some _ => <["Accept" := ["application/json"]]>
                                {["Content-Type" := ["application/json"]]}
                  | None => {["Accept" := ["application/json"]]}
                  end)
  /\ (forall baseURL order method request req,
        JsonServiceClient.Send_build order method request
          (JsonServiceClient.NewJsonServiceClient baseURL) = Ok req ->
        Header req = <["Accept" := ["application/json"]]>
                       {["Content-Type" := ["application/json"]]})
  /\ (forall baseURL,
        Timeout (Client.HTTPClient (Client.NewClient baseURL)) = 30 * time_Second
        /\ Timeout (JsonServiceClient.httpClient (JsonServiceClient.NewJsonServiceClient baseURL))
           = 30 * time_Second)
  /\ (forall (A : Type) (dec : Decoder A) order (do : Transport) method request
             (responseType : option A) timeout c,
        JsonServiceClient.Send_build order method request
          (JsonServiceClient.SetTimeout timeout c)
        = JsonServiceClient.Send_build order method request c
        /\ (JsonServiceClient.Send dec order do method request responseType
              (JsonServiceClient.SetTimeout timeout c)).1
           = (JsonServiceClient.Send dec order (fun _ => do (mk_http_Client timeout))
                method request responseType c).1).
Proof.
  split_and!.
  - intros baseURL order ctx method path request req Hbuild.
    apply doRequest_build_shape in Hbuild as (req0 & Hempty & _ & ->).
    cbn [Client.NewClient Client.Headers]. rewrite apply_headers_empty.
    destruct request; cbn; by rewrite Hempty.
  - intros baseURL order method request req Hbuild.
    apply Send_build_Header in Hbuild as (req0 & Hempty & ->).
    cbn [JsonServiceClient.NewJsonServiceClient JsonServiceClient.Headers].
    rewrite apply_headers_empty. cbn. by rewrite Hempty.
  - done.
  - intros A dec order do method request responseType timeout c. split; [done|].
    unfold JsonServiceClient.Send. rewrite Send_build_SetTimeout.
    destruct (JsonServiceClient.Send_build order method request c) as [req|]; [|done].
    cbn [JsonServiceClient.SetTimeout JsonServiceClient.httpClient].
    by destruct (do (mk_http_Client timeout) req).
Qed.

Lemma fresh_client_and_timeout_witness :
  exists req,
    @JsonServiceClient.Send_build test_runtime range_forward "GET" HelloRequest_World
      (JsonServiceClient.NewJsonServiceClient "https://test.servicestack.net") = Ok req
    /\ Header req = <["Accept" := ["application/json"]]>
                      {["Content-Type" := ["application/json"]]}.
Proof.
  destruct (@JsonServiceClient.Send_build test_runtime range_forward "GET" HelloRequest_World
              (JsonServiceClient.NewJsonServiceClient "https://test.servicestack.net"))
    as [req | err] eqn:Hbuild; [|vm_compute in Hbuild; discriminate].
  exists req. split; [done|].
  exact (proj1 (proj2 (@fresh_client_and_timeout test_runtime)) _ _ _ _ _ Hbuild).
Defined.

(** X12: the credentials reach the requests.  After any calls of
    [SetBearerToken] and [SetCredentials], on a client whose other
    headers do not spell [Authorization], every request [Send] builds
    carries under [Authorization] the one value of the last call,
    [Bearer] and the token or [Basic] and the base64 of
    [username:password], and [Header.Get] reads it under any spelling. *)
Theorem credentials_reach_the_request `{GoRuntime} (calls : list AuthCall) (call : AuthCall)
    (c : JsonServiceClient.t) (order : MapRange) (method : string) (request : Request)
    (req : http_Request) :
  (forall key value, JsonServiceClient.Headers c !! key = Some value ->
     CanonicalMIMEHeaderKey key = "Authorization" -> key = "Authorization") ->
  JsonServiceClient.Send_build order method request
    (foldl (fun c call => run_AuthCall call c) c (calls ++ [call])) = Ok req ->
  Header req !! "Authorization" = Some [AuthCall_header call]
  /\ (forall spelling, CanonicalMIMEHeaderKey spelling = "Authorization" ->
        Header_Get spelling (Header req) = AuthCall_header call).
Proof.
  intros Hothers Hbuild.
  apply Send_build_Header in Hbuild as (req0 & _ & ->).
  set (c' := foldl (fun c call => run_AuthCall call c) c (calls ++ [call])).
  assert (Hsent : Header (apply_headers order (JsonServiceClient.Headers c')
                            (req_Header_Set "Accept" "application/json"
                               (req_Header_Set "Content-Type" "application/json" req0)))
                  !! CanonicalMIMEHeaderKey "Authorization" = Some [AuthCall_header call]).
  { apply apply_headers_alone.
    - unfold c'. rewrite foldl_app. cbn [foldl]. rewrite run_AuthCall_Headers.
      apply lookup_insert_eq.
    - intros key' value' Hkey' Hname.
      destruct (decide (key' = "Authorization")) as [|Hne]; [done|].
      apply (Hothers key' value'); [|done].
      destruct (run_AuthCall_frame (calls ++ [call]) c) as (Hframe & _).
      fold c' in Hframe.
      rewrite <- (lookup_delete_ne (JsonServiceClient.Headers c) "Authorization" key') by done.
      rewrite <- Hframe. by rewrite lookup_delete_ne. }
  split; [done|].
  intros spelling Hspelling. apply Header_Get_lookup. by rewrite Hspelling.
Qed.

Lemma credentials_reach_the_request_witness :
  exists req,
    @JsonServiceClient.Send_build test_runtime range_forward "POST" HelloRequest_World
      (JsonServiceClient.SetCredentials "user" "pass"
         (JsonServiceClient.SetBearerToken "abc"
            (JsonServiceClient.NewJsonServiceClient "https://test.servicestack.net"))) = Ok req
    /\ Header req !! "Authorization" = Some ["Basic dXNlcjpwYXNz"].
Proof.
  destruct (@JsonServiceClient.Send_build test_runtime range_forward "POST" HelloRequest_World
              (JsonServiceClient.SetCredentials "user" "pass"
                 (JsonServiceClient.SetBearerToken "abc"
                    (JsonServiceClient.NewJsonServiceClient "https://test.servicestack.net"))))
    as [req | err] eqn:Hbuild; [|vm_compute in Hbuild; discriminate].
  exists req. split; [done|].
  refine (proj1 (@credentials_reach_the_request test_runtime
                   [CallSetBearerToken "abc"] (CallSetCredentials "user" "pass")
                   (JsonServiceClient.NewJsonServiceClient "https://test.servicestack.net")
                   range_forward "POST" HelloRequest_World req _ Hbuild)).
  intros key value Hkey. cbn in Hkey. by rewrite lookup_empty in Hkey.
Defined.

(** ** Decoding the answer *)

(** X13: the edges of decoding a success body.  With a nil target the
    body is never looked at: [doRequest] returns nil and [Send] returns
    nil and nil, whatever the body holds.  A body that is no JSON text
    gives the syntax error wrapped under [failed to unmarshal response];
    [doRequest] then leaves the caller's value as it was.  When the body
    is JSON but a part of it does not fit the target, [doRequest]
    returns the wrapped type error and the caller's value holds what did
    fit, while [Send] returns no value.  On a body that is not empty and
    a status from 200 to 299 the two clients decode alike: one returns
    nil with the value [v'] exactly when the other returns [v'] and nil. *)
Theorem decoding_edges `{GoRuntime} :
  (forall (A : Type) (dec : Decoder A) order (do : Transport) ctx method path request c
          req resp body,
     Client.doRequest_build order ctx method path request c = Ok req ->
     do (Client.HTTPClient c) req = Ok resp ->
     resp_Body resp = Ok body ->
     200 <= resp_StatusCode resp < 300 ->
     Client.doRequest dec order do ctx method path request None c = ((None, None), c))
  /\ (forall (A : Type) (dec : Decoder A) order (do : Transport) method request c
             req resp body,
        JsonServiceClient.Send_build order method request c = Ok req ->
        do (JsonServiceClient.httpClient c) req = Ok resp ->
        resp_Body resp = Ok body ->
        resp_StatusCode resp < 400 ->
        JsonServiceClient.Send dec order do method request None c = ((None, None), c))
  /\ (forall (A : Type) (dec : Decoder A) order (do : Transport) ctx method path request c
             req resp body (v : A),
        Client.doRequest_build order ctx method path request c = Ok req ->
        do (Client.HTTPClient c) req = Ok resp ->
        resp_Body resp = Ok body ->
        200 <= resp_StatusCode resp < 300 ->
        body <> "" ->
        (json_parse body = None ->
         Client.doRequest dec order do ctx method path request (Some v) c
         = ((Some (wrapError ("failed to unmarshal response: " ++ json_SyntaxError_text body)
                     (jsonSyntaxError body)), Some v), c))
        /\ (forall j v', json_parse body = Some j -> dec j v = (v', false) ->
            Client.doRequest dec order do ctx method path request (Some v) c
            = ((Some (wrapError ("failed to unmarshal response: "
                                 ++ json_UnmarshalTypeError_text body)
                        (jsonUnmarshalTypeError body)), Some v'), c))
        /\ (forall j v', json_parse body = Some j -> dec j v = (v', true) ->
            Client.doRequest dec order do ctx method path request (Some v) c
            = ((None, Some v'), c)))
  /\ (forall (A : Type) (dec : Decoder A) order (do : Transport) method request c
             req resp body (v : A),
        JsonServiceClient.Send_build order method request c = Ok req ->
        do (JsonServiceClient.httpClient c) req = Ok resp ->
        resp_Body resp = Ok body ->
        resp_StatusCode resp < 400 ->
        (json_parse body = None ->
         JsonServiceClient.Send dec order do method request (Some v) c
         = ((None, Some (wrapError ("failed to unmarshal response: "
                                    ++ json_SyntaxError_text body)
                           (jsonSyntaxError body))), c))
        /\ (forall j v', json_parse body = Some j -> dec j v = (v', false) ->
            JsonServiceClient.Send dec order do method request (Some v) c
            = ((None, Some (wrapError ("failed to unmarshal response: "
                                       ++ json_UnmarshalTypeError_text body)
                              (jsonUnmarshalTypeError body))), c))
        /\ (forall j v', json_parse body = Some j -> dec j v = (v', true) ->
            JsonServiceClient.Send dec order do method request (Some v) c
            = ((Some v', None), c)))
  /\ (forall (A : Type) (dec : Decoder A) (c : JsonServiceClient.t) resp body (v v' : A),
        resp_Body resp = Ok body ->
        200 <= resp_StatusCode resp < 300 ->
        body <> "" ->
        Client.doRequest_finish dec resp (Some v) = (None, Some v')
        <-> JsonServiceClient.Send_finish dec c resp (Some v) = (Some v', None)).
Proof.
  assert (Hgeneric : forall resp, 200 <= resp_StatusCode resp < 300 ->
            (resp_StatusCode resp <? 200) || (resp_StatusCode resp >=? 300) = false).
  { intros resp Hs. apply orb_false_iff. lia. }
  assert (Htyped : forall resp, resp_StatusCode resp < 400 ->
            (resp_StatusCode resp >=? 400) = false) by (intros; lia).
  assert (Hlen : forall body : string, body <> "" -> (0 <? String.length body)%nat = true)
    by (by intros [|? ?]).
  split_and!.
  - intros A dec order do ctx method path request c req resp body Hb Hd Hbody Hs.
    rewrite (doRequest_exchange _ _ _ _ _ _ _ _ _ _ _ Hb Hd).
    unfold Client.doRequest_finish. by rewrite Hbody, Hgeneric.
  - intros A dec order do method request c req resp body Hb Hd Hbody Hs.
    rewrite (Send_exchange _ _ _ _ _ _ _ _ _ Hb Hd).
    unfold JsonServiceClient.Send_finish. by rewrite Hbody, Htyped.
  - intros A dec order do ctx method path request c req resp body v Hb Hd Hbody Hs Hne.
    rewrite (doRequest_exchange _ _ _ _ _ _ _ _ _ _ _ Hb Hd).
    unfold Client.doRequest_finish, json_Unmarshal.
    rewrite Hbody, Hgeneric, Hlen by done.
    split_and!.
    + intros ->. by rewrite (Errorf_w_text "failed to unmarshal response: ").
    + intros j v' -> ->. by rewrite (Errorf_w_text "failed to unmarshal response: ").
    + by intros j v' -> ->.
  - intros A dec order do method request c req resp body v Hb Hd Hbody Hs.
    rewrite (Send_exchange _ _ _ _ _ _ _ _ _ Hb Hd).
    unfold JsonServiceClient.Send_finish, json_Unmarshal.
    rewrite Hbody, Htyped by done.
    split_and!.
    + intros ->. by rewrite (Errorf_w_text "failed to unmarshal response: ").
    + intros j v' -> ->. by rewrite (Errorf_w_text "failed to unmarshal response: ").
    + by intros j v' -> ->.
  - intros A dec c resp body v v' Hbody Hs Hne.
    unfold Client.doRequest_finish, JsonServiceClient.Send_finish.
    rewrite Hbody, Hgeneric, Htyped, Hlen by (done || lia).
    destruct (json_Unmarshal dec body v) as [v'' [e|]]; split; intros [= ?]; by subst.
Qed.

Lemma decoding_edges_witness :
  let do : @Transport test_runtime :=
    fun _ _ => Ok (mk_http_Response 200 "200 OK" (Ok "<html>not json</html>")) in
  @Client.doRequest test_runtime _ decode_HelloResponse range_forward do (Some tt)
    "GET" "/test" None None (Client.NewClient "https://api.example.com")
  = ((None, None), Client.NewClient "https://api.example.com")
  /\ @Client.doRequest test_runtime _ decode_HelloResponse range_forward do (Some tt)
       "GET" "/test" None (Some (mkHelloResponse "before"))
       (Client.NewClient "https://api.example.com")
     = ((Some (wrapError "failed to unmarshal response: invalid JSON"
                 (jsonSyntaxError "<html>not json</html>")),
         Some (mkHelloResponse "before")), Client.NewClient "https://api.example.com").
Proof.
  cbv zeta.
  destruct (@decoding_edges test_runtime) as (Hnil & _ & Hdecode & _).
  split.
  - eapply Hnil; [vm_compute; reflexivity | reflexivity | reflexivity | cbn; lia].
  - refine (proj1 (Hdecode _ decode_HelloResponse range_forward
                     (fun _ _ => Ok (mk_http_Response 200 "200 OK"
                                       (Ok "<html>not json</html>")))
                     (Some tt) "GET" "/test" None
                     (Client.NewClient "https://api.example.com") _
                     (mk_http_Response 200 "200 OK" (Ok "<html>not json</html>"))
                     "<html>not json</html>" (mkHelloResponse "before")
                     _ eq_refl eq_refl _ _) _).
    + vm_compute. reflexivity.
    + cbn. lia.
    + done.
    + vm_compute. reflexivity.
Defined.

(** ** The credentials in [basicAuth] *)

Section BasicAuth.

Ltac nlia := zify; Z.to_euclidean_division_equations; lia.

Lemma land_low_high (x y k : N) :
  (x mod 2 ^ k = 0)%N -> (y < 2 ^ k)%N -> N.land x y = 0%N.
Proof.
  intros Hx Hy. apply N.bits_inj. intros n. rewrite N.land_spec, N.bits_0.
  destruct (N.ltb_spec n k) as [Hn | Hn].
  - by rewrite <- (N.mod_pow2_bits_low x k n Hn), Hx, N.bits_0.
  - destruct (N.eq_dec y 0%N) as [-> | Hy0]; [by rewrite N.bits_0, andb_false_r|].
    rewrite (N.bits_above_log2 y n), andb_false_r; [done|].
    apply N.lt_le_trans with k; [|done]. apply N.log2_lt_pow2; lia.
Qed.

Lemma lor_low_high (x y k : N) :
  (x mod 2 ^ k = 0)%N -> (y < 2 ^ k)%N -> N.lor x y = (x + y)%N.
Proof.
  intros Hx Hy. pose proof (land_low_high x y k Hx Hy) as Hland.
  rewrite (N.add_nocarry_lxor _ _ Hland). symmetry. by apply N.lxor_lor.
Qed.

(** The 24-bit value of three bytes. *)
Lemma base64_val3 (a b c : N) :
  (a < 256)%N -> (b < 256)%N -> (c < 256)%N ->
  N.lor (N.lor (N.shiftl a 16) (N.shiftl b 8)) c = (a * 65536 + b * 256 + c)%N.
Proof.
  intros Ha Hb Hc. rewrite !N.shiftl_mul_pow2.
  change (2 ^ 16)%N with 65536%N. change (2 ^ 8)%N with 256%N.
  rewrite (lor_low_high (a * 65536) (b * 256) 16).
  - apply (lor_low_high _ c 8); [|done]. change (2 ^ 8)%N with 256%N. nlia.
  - change (2 ^ 16)%N with 65536%N. nlia.
  - change (2 ^ 16)%N with 65536%N. nlia.
Qed.

Lemma b64_digit (val shift : N) :
  b64 val shift = byte_at encodeStd ((val / 2 ^ shift) mod 64)%N.
Proof.
  unfold b64. rewrite N.shiftr_div_pow2. change 63%N with (N.ones 6).
  by rewrite N.land_ones.
Qed.

(** A digit of the table is not the padding, and its place is its value. *)
Lemma encodeStd_digit (i : N) :
  (i < 64)%N ->
  index_byte (byte_at encodeStd i) encodeStd = i
  /\ Ascii.eqb (byte_at encodeStd i) "=" = false.
Proof.
  intros Hi. rewrite <- (N2Nat.id i). assert (Hn : (N.to_nat i < 64)%nat) by lia.
  generalize dependent (N.to_nat i). clear. intros n Hn.
  do 64 (destruct n as [|n]; [by vm_compute|]). lia.
Qed.

(** The four digits of a 24-bit value, and the three bytes in them. *)
Lemma base64_sextets (a b c : N) :
  (a < 256)%N -> (b < 256)%N -> (c < 256)%N ->
  let val := (a * 65536 + b * 256 + c)%N in
  ((val / 2 ^ 18) mod 64 = a / 4
   /\ (val / 2 ^ 12) mod 64 = (a mod 4) * 16 + b / 16
   /\ (val / 2 ^ 6) mod 64 = (b mod 16) * 4 + c / 64
   /\ (val / 2 ^ 0) mod 64 = c mod 64)%N.
Proof.
  intros Ha Hb Hc val. unfold val.
  change (2 ^ 18)%N with 262144%N. change (2 ^ 12)%N with 4096%N.
  change (2 ^ 6)%N with 64%N. change (2 ^ 0)%N with 1%N.
  split_and!; nlia.
Qed.

Lemma base64_bytes (a b c : N) :
  (a < 256)%N -> (b < 256)%N -> (c < 256)%N ->
  (a / 4 * 4 + (a mod 4 * 16 + b / 16) / 16 = a
   /\ (a mod 4 * 16 + b / 16) mod 16 * 16 + (b mod 16 * 4 + c / 64) / 4 = b
   /\ (b mod 16 * 4 + c / 64) mod 4 * 64 + c mod 64 = c)%N.
Proof. intros Ha Hb Hc. split_and!; nlia. Qed.

Lemma base64_digits_of (a b c : N) :
  (a < 256)%N -> (b < 256)%N -> (c < 256)%N ->
  let val := (a * 65536 + b * 256 + c)%N in
  exists n1 n2 n3 n4,
    b64 val 18 = byte_at encodeStd n1 /\ b64 val 12 = byte_at encodeStd n2
    /\ b64 val 6 = byte_at encodeStd n3 /\ b64 val 0 = byte_at encodeStd n4
    /\ (n1 < 64 /\ n2 < 64 /\ n3 < 64 /\ n4 < 64)%N
    /\ (n1 * 4 + n2 / 16 = a /\ n2 mod 16 * 16 + n3 / 4 = b /\ n3 mod 4 * 64 + n4 = c)%N.
Proof.
  intros Ha Hb Hc val.
  destruct (base64_sextets a b c Ha Hb Hc) as (H1 & H2 & H3 & H4). fold val in H1, H2, H3, H4.
  destruct (base64_bytes a b c Ha Hb Hc) as (Hb1 & Hb2 & Hb3).
  exists (a / 4)%N, (a mod 4 * 16 + b / 16)%N, (b mod 16 * 4 + c / 64)%N, (c mod 64)%N.
  rewrite !b64_digit, H1, H2, H3, H4.
  do 4 (split; [reflexivity|]).
  split; [|by split_and!].
  clear H1 H2 H3 H4 Hb1 Hb2 Hb3 val. split_and!; nlia.
Qed.

Lemma base64_group (a b c : ascii) (rest : string) :
  let val := N.lor (N.lor (N.shiftl (N_of_ascii a) 16) (N.shiftl (N_of_ascii b) 8))
                   (N_of_ascii c) in
  base64_digits_bytes
    (String (b64 val 18) (String (b64 val 12) (String (b64 val 6) (String (b64 val 0) rest))))
  = String a (String b (String c (base64_digits_bytes rest))).
Proof.
  intros val. pose proof (N_ascii_bounded a) as Ha. pose proof (N_ascii_bounded b) as Hb.
  pose proof (N_ascii_bounded c) as Hc.
  unfold val. rewrite base64_val3 by done.
  destruct (base64_digits_of _ _ _ Ha Hb Hc)
    as (n1 & n2 & n3 & n4 & -> & -> & -> & -> & (L1 & L2 & L3 & L4) & B1 & B2 & B3).
  destruct (encodeStd_digit n1 L1) as [H1 _]. destruct (encodeStd_digit n2 L2) as [H2 _].
  destruct (encodeStd_digit n3 L3) as [H3 E3]. destruct (encodeStd_digit n4 L4) as [H4 E4].
  cbn [base64_digits_bytes]. rewrite E3, E4, H1, H2, H3, H4, B1, B2, B3.
  by rewrite !ascii_N_embedding.
Qed.

Lemma base64_tail2 (a b : ascii) :
  let val := N.lor (N.shiftl (N_of_ascii a) 16) (N.shiftl (N_of_ascii b) 8) in
  base64_digits_bytes
    (String (b64 val 18) (String (b64 val 12) (String (b64 val 6) "=")))
  = String a (String b "").
Proof.
  intros val. pose proof (N_ascii_bounded a) as Ha. pose proof (N_ascii_bounded b) as Hb.
  assert (Hc : (0 < 256)%N) by done.
  assert (Hval : val = (N_of_ascii a * 65536 + N_of_ascii b * 256 + 0)%N).
  { unfold val. rewrite <- (base64_val3 _ _ 0%N) by done. by rewrite N.lor_0_r. }
  rewrite Hval.
  destruct (base64_digits_of _ _ _ Ha Hb Hc)
    as (n1 & n2 & n3 & n4 & -> & -> & -> & _ & (L1 & L2 & L3 & L4) & B1 & B2 & B3).
  destruct (encodeStd_digit n1 L1) as [H1 _]. destruct (encodeStd_digit n2 L2) as [H2 _].
  destruct (encodeStd_digit n3 L3) as [H3 E3].
  cbn [base64_digits_bytes]. rewrite E3, H1, H2, H3, B1, B2. cbn [Ascii.eqb Bool.eqb].
  by rewrite !ascii_N_embedding.
Qed.

Lemma base64_tail1 (a : ascii) :
  let val := N.shiftl (N_of_ascii a) 16 in
  base64_digits_bytes (String (b64 val 18) (String (b64 val 12) "==")) = String a "".
Proof.
  intros val. pose proof (N_ascii_bounded a) as Ha.
  assert (Hc : (0 < 256)%N) by done.
  assert (Hval : val = (N_of_ascii a * 65536 + 0 * 256 + 0)%N).
  { unfold val. rewrite <- (base64_val3 _ 0%N 0%N) by done.
    by rewrite N.shiftl_0_l, !N.lor_0_r. }
  rewrite Hval.
  destruct (base64_digits_of _ _ _ Ha Hc Hc)
    as (n1 & n2 & n3 & n4 & -> & -> & _ & _ & (L1 & L2 & L3 & L4) & B1 & B2 & B3).
  destruct (encodeStd_digit n1 L1) as [H1 _]. destruct (encodeStd_digit n2 L2) as [H2 _].
  cbn [base64_digits_bytes]. rewrite H1, H2, B1. cbn [Ascii.eqb Bool.eqb].
  by rewrite !ascii_N_embedding.
Qed.

(** The digits stand for the bytes that were encoded. *)
Lemma base64_digits_bytes_Encode (src : string) :
  base64_digits_bytes (base64_StdEncoding_EncodeToString src) = src.
Proof.
  assert (Hall : base64_digits_bytes (base64_StdEncoding_EncodeToString src) = src
                 /\ (forall a, base64_digits_bytes
                                 (base64_StdEncoding_EncodeToString (String a src))
                               = String a src)
                 /\ (forall a b, base64_digits_bytes
                                   (base64_StdEncoding_EncodeToString (String a (String b src)))
                                 = String a (String b src))).
  { induction src as [|c src (IH0 & IH1 & IH2)].
    - split_and!; [done | apply base64_tail1 | apply base64_tail2].
    - split_and!; [exact (IH1 c) | exact (fun a => IH2 a c) |].
      intros a b. cbn [base64_StdEncoding_EncodeToString].
      rewrite base64_group. by f_equal; f_equal; f_equal. }
  apply Hall.
Qed.

Lemma base64_Encode_length (src : string) :
  String.length (base64_StdEncoding_EncodeToString src)
  = (4 * ((String.length src + 2) / 3))%nat.
Proof.
  assert (Hall : String.length (base64_StdEncoding_EncodeToString src)
                 = (4 * ((String.length src + 2) / 3))%nat
                 /\ (forall a, String.length (base64_StdEncoding_EncodeToString (String a src))
                               = (4 * ((String.length (String a src) + 2) / 3))%nat)
                 /\ (forall a b,
                       String.length (base64_StdEncoding_EncodeToString
                                        (String a (String b src)))
                       = (4 * ((String.length (String a (String b src)) + 2) / 3))%nat)).
  { induction src as [|c src (IH0 & IH1 & IH2)].
    - split_and!; done.
    - split_and!; [exact (IH1 c) | exact (fun a => IH2 a c) |].
      intros a b. cbn [base64_StdEncoding_EncodeToString String.length]. rewrite IH0.
      replace (S (S (S (String.length src))) + 2)%nat
        with (String.length src + 2 + 1 * 3)%nat by lia.
      rewrite Nat.div_add by done. lia. }
  apply Hall.
Qed.

Lemma length_append (a b : string) :
  String.length (a ++ b) = (String.length a + String.length b)%nat.
Proof. induction a as [|c a IH]; simpl; [done | by rewrite IH]. Qed.

End BasicAuth.

(** X15: [basicAuth] loses nothing but the place of the colon.  Two
    pairs of credentials give the same text exactly when
    [username:password] is the same string for both; so user names
    without a colon are told apart, with their passwords, while a colon
    in the user name can be moved to the password without any change of
    the header.  The text has four digits for every three bytes of
    [username:password], the last group padded. *)
Theorem basicAuth_credentials (username password : string) :
  (forall username' password',
     JsonServiceClient.basicAuth username password
     = JsonServiceClient.basicAuth username' password'
     <-> username ++ ":" ++ password = username' ++ ":" ++ password')
  /\ (forall username' password',
        mem_byte ":" username = false -> mem_byte ":" username' = false ->
        JsonServiceClient.basicAuth username password
        = JsonServiceClient.basicAuth username' password' ->
        username = username' /\ password = password')
  /\ (forall more,
        JsonServiceClient.basicAuth (username ++ ":" ++ more) password
        = JsonServiceClient.basicAuth username (more ++ ":" ++ password))
  /\ String.length (JsonServiceClient.basicAuth username password)
     = (4 * ((String.length username + String.length password + 3) / 3))%nat.
Proof.
  assert (Hinj : forall username' password',
            JsonServiceClient.basicAuth username password
            = JsonServiceClient.basicAuth username' password'
            -> username ++ ":" ++ password = username' ++ ":" ++ password').
  { unfold JsonServiceClient.basicAuth. intros username' password' Heq.
    apply (f_equal base64_digits_bytes) in Heq.
    by rewrite !base64_digits_bytes_Encode in Heq. }
  split_and!.
  - intros username' password'. split; [apply Hinj|].
    unfold JsonServiceClient.basicAuth. by intros ->.
  - intros username' password' Hu Hu' Heq. apply Hinj in Heq.
    apply (f_equal (fun s => strings_Cut s ":")) in Heq.
    change (username ++ ":" ++ password) with (username ++ String ":" password) in Heq.
    change (username' ++ ":" ++ password') with (username' ++ String ":" password') in Heq.
    rewrite !strings_Cut_at in Heq by done. by injection Heq.
  - intros more. unfold JsonServiceClient.basicAuth. by rewrite append_assoc.
  - unfold JsonServiceClient.basicAuth.
    rewrite base64_Encode_length, !length_append. cbn [String.length]. f_equal. f_equal. lia.
Qed.

(** ** What the exception says *)

Lemma WebServiceException_Error_text (e : WebServiceException) :
  WebServiceException_Error e =
    strconv_Itoa (StatusCode e) ++ " " ++ StatusDescription e ++
      (if decide (Message (wsResponseStatus e) = "") then ""
       else ": " ++ Message (wsResponseStatus e)).
Proof.
  unfold WebServiceException_Error.
  destruct (String.eqb_spec (Message (wsResponseStatus e)) "") as [Hm | Hm].
  - rewrite decide_True by done. cbn -[strconv_Itoa]. reflexivity.
  - rewrite decide_False by done. cbn -[strconv_Itoa]. by rewrite append_nil_r.
Qed.

(** X14: what the caller reads after a failure status.  After a status
    of 400 or more and a body that could be read, the text of the error
    of [Send] is the status code, a space and the status text of the
    response, followed by a colon, a space and a message when that is
    not empty; the message is the whole body when the body is no JSON
    text, and otherwise what [parseError] decoded or fell back to.  The
    error wraps nothing: [errors.Unwrap] gives nil, so the error of the
    decoder cannot be reached. *)
Theorem failure_status_text `{GoRuntime} {A : Type} (dec : Decoder A) (order : MapRange)
    (do : Transport) (method : string) (request : Request) (responseType : option A)
    (c : JsonServiceClient.t) (req : http_Request) (resp : http_Response) (body : string) :
  JsonServiceClient.Send_build order method request c = Ok req ->
  do (JsonServiceClient.httpClient c) req = Ok resp ->
  resp_Body resp = Ok body ->
  400 <= resp_StatusCode resp ->
  exists err message,
    JsonServiceClient.Send dec order do method request responseType c = ((None, Some err), c)
    /\ error_Error err
       = strconv_Itoa (resp_StatusCode resp) ++ " " ++ resp_Status resp
         ++ (if decide (message = "") then "" else ": " ++ message)
    /\ errors_Unwrap err = None
    /\ (json_parse body = None -> message = body)
    /\ (forall decoded,
          json_Unmarshal decode_errorResponse body ResponseStatus_zero = (decoded, None) ->
          message = Message decoded)
    /\ (forall e, as_WebServiceException err = Some e ->
          Message (wsResponseStatus e) = message).
Proof.
  intros Hb Hd Hbody Hs.
  rewrite (Send_exchange _ _ _ _ _ _ _ _ _ Hb Hd). unfold JsonServiceClient.Send_finish.
  rewrite Hbody. replace (resp_StatusCode resp >=? 400) with true by (symmetry; lia).
  unfold JsonServiceClient.parseError.
  destruct (json_Unmarshal decode_errorResponse body ResponseStatus_zero)
    as [decoded [e|]] eqn:Hdecode.
  - exists (WebServiceExceptionErr
              (mkWebServiceException (resp_StatusCode resp) (resp_Status resp)
                 (mkResponseStatus "" body "" [] None))), body.
    split_and!; try done.
    + cbn [error_Error]. by rewrite WebServiceException_Error_text.
    + by intros ? [= <-].
  - exists (WebServiceExceptionErr
              (mkWebServiceException (resp_StatusCode resp) (resp_Status resp) decoded)),
           (Message decoded).
    split_and!; try done.
    + cbn [error_Error]. by rewrite WebServiceException_Error_text.
    + intros Hparse. unfold json_Unmarshal in Hdecode. by rewrite Hparse in Hdecode.
    + by intros ? [= <-].
    + by intros ? [= <-].
Qed.

Lemma failure_status_text_witness :
  let do : @Transport test_runtime :=
    fun _ _ => Ok (mk_http_Response 500 "500 Internal Server Error" (Ok "Server error")) in
  exists err,
    @JsonServiceClient.Send test_runtime _ decode_HelloResponse range_forward do
      "POST" HelloRequest_World (Some (mkHelloResponse ""))
      (JsonServiceClient.NewJsonServiceClient "https://test.servicestack.net")
    = ((None, Some err), JsonServiceClient.NewJsonServiceClient "https://test.servicestack.net")
    /\ @error_Error test_runtime err = "500 500 Internal Server Error: Server error".
Proof.
  cbv zeta.
  destruct (@JsonServiceClient.Send_build test_runtime range_forward "POST" HelloRequest_World
              (JsonServiceClient.NewJsonServiceClient "https://test.servicestack.net"))
    as [req | err] eqn:Hbuild; [|vm_compute in Hbuild; discriminate].
  destruct (@failure_status_text test_runtime _ decode_HelloResponse range_forward
              (fun _ _ => Ok (mk_http_Response 500 "500 Internal Server Error"
                                (Ok "Server error")))
              "POST" HelloRequest_World (Some (mkHelloResponse ""))
              (JsonServiceClient.NewJsonServiceClient "https://test.servicestack.net")
              req (mk_http_Response 500 "500 Internal Server Error" (Ok "Server error"))
              "Server error" Hbuild eq_refl eq_refl ltac:(cbn; lia))
    as (err & message & HSend & Htext & _ & Hraw & _).
  exists err. split; [exact HSend|].
  rewrite Htext, (Hraw eq_refl). reflexivity.
Defined.

(** ** The context of a request *)

Section RequestContext.
Context `{GoRuntime}.

Lemma apply_headers_Ctx (order : MapRange) (headers : gmap string string) (req : http_Request) :
  Ctx (apply_headers order headers req) = Ctx req.
Proof.
  unfold apply_headers. generalize (range_of order headers) as entries.
  intros entries. revert req. induction entries as [|kv entries IH]; intros req; [done|].
  cbn [foldl]. by rewrite IH.
Qed.

Lemma http_NewRequestWithContext_Ctx (ctx : option Context) (method url : string)
    (body : option string) (req : http_Request) :
  http_NewRequestWithContext ctx method url body = Ok req -> ctx = Some (Ctx req).
Proof.
  unfold http_NewRequestWithContext.
  destruct (negb _); [done|]. destruct ctx as [ctx|]; [|done].
  destruct (url_Parse_error url); [done|]. by intros [= <-].
Qed.

End RequestContext.

(** X16: whose context a request runs under.  A request of the generic
    client carries the context the caller gave, which therefore was not
    nil; a request of [Send] always carries the background context,
    whatever the caller holds, so only the timeout of the client can end
    it. *)
Theorem request_context `{GoRuntime} :
  (forall order ctx method path request c req,
     Client.doRequest_build order ctx method path request c = Ok req ->
     ctx = Some (Ctx req))
  /\ (forall order method request c req,
        JsonServiceClient.Send_build order method request c = Ok req ->
        Ctx req = context_Background).
Proof.
  split.
  - intros order ctx method path request c req. unfold Client.doRequest_build.
    destruct (url_JoinPath (Client.BaseURL c) path) as [fullURL|]; [|done].
    destruct request as [r|].
    + destruct (json_Marshal r) as [jsonData|]; [|done].
      destruct (http_NewRequestWithContext ctx method fullURL (Some jsonData))
        as [req0|] eqn:Hnew; [|done].
      intros [= <-]. rewrite apply_headers_Ctx. cbn.
      by apply http_NewRequestWithContext_Ctx in Hnew.
    + destruct (http_NewRequestWithContext ctx method fullURL None)
        as [req0|] eqn:Hnew; [|done].
      intros [= <-]. rewrite apply_headers_Ctx. cbn.
      by apply http_NewRequestWithContext_Ctx in Hnew.
  - intros order method request c req Hbuild.
    apply Send_build_shape in Hbuild as (req0 & Hnew & ->).
    rewrite apply_headers_Ctx. cbn.
    apply http_NewRequestWithContext_Ctx in Hnew. by injection Hnew.
Qed.

Lemma basicAuth_credentials_witness :
  JsonServiceClient.basicAuth "a:b" "c" = JsonServiceClient.basicAuth "a" "b:c"
  /\ (JsonServiceClient.basicAuth "user" "pass" = JsonServiceClient.basicAuth "user" "word" ->
      "user" = "user" /\ "pass" = "word").
Proof.
  split.
  - exact (proj1 (proj2 (proj2 (basicAuth_credentials "a" "c"))) "b").
  - exact (proj1 (proj2 (basicAuth_credentials "user" "pass")) "user" "word" eq_refl eq_refl).
Defined.

Lemma request_context_witness :
  exists req,
    @JsonServiceClient.Send_build test_runtime range_forward "GET" HelloRequest_World
      (JsonServiceClient.NewJsonServiceClient "https://test.servicestack.net") = Ok req
    /\ Ctx req = @context_Background test_runtime.
Proof.
  destruct (@JsonServiceClient.Send_build test_runtime range_forward "GET" HelloRequest_World
              (JsonServiceClient.NewJsonServiceClient "https://test.servicestack.net"))
    as [req | err] eqn:Hbuild; [|vm_compute in Hbuild; discriminate].
  exists req. split; [done|].
  exact (proj2 (@request_context test_runtime) _ _ _ _ _ Hbuild).
Defined.

(** ** What the query string keeps of a request *)

(** X17: two requests get the same query string exactly when their
    JSON objects have the same members that are not null, by name, with
    the same rendering under [%v].  The rendering does not keep the
    type nor the structure of a value: the string [true] and the
    boolean, a list of the one string [s t] and the list of [s] and [t],
    a list and the string that spells it, are sent alike. *)
Theorem same_query_string `{GoRuntime} (order : MapRange) (r1 r2 : Request)
    (j1 j2 : string) (d1 d2 : option (gmap string Value)) :
  json_Marshal r1 = Ok j1 -> json_Marshal r2 = Ok j2 ->
  json_Unmarshal decode_map_interface j1 None = (d1, None) ->
  json_Unmarshal decode_map_interface j2 None = (d2, None) ->
  (JsonServiceClient.toQueryString order r1 = JsonServiceClient.toQueryString order r2
   <-> forall key s,
         (exists value, default ∅ d1 !! key = Some value /\ value <> VNil
                        /\ s = Value_print value)
         <-> (exists value, default ∅ d2 !! key = Some value /\ value <> VNil
                            /\ s = Value_print value))
  /\ Value_print (VString "true") = Value_print (VBool true)
  /\ (forall s t, Value_print (VSlice [VString (s ++ " " ++ t)])
                  = Value_print (VSlice [VString s; VString t]))
  /\ (forall l, Value_print (VString (Value_print (VSlice l))) = Value_print (VSlice l)).
Proof.
  intros Hj1 Hj2 Hd1 Hd2. split_and!; [|done | |done].
  - rewrite !toQueryString_unfold, Hj1, Hj2, Hd1, Hd2.
    change (strings_Join (encode_pair <$> Values_pairs (query_values (default ∅ d1))) "&")
      with (Values_Encode (query_values (default ∅ d1))).
    change (strings_Join (encode_pair <$> Values_pairs (query_values (default ∅ d2))) "&")
      with (Values_Encode (query_values (default ∅ d2))).
    assert (Hnonempty : forall d key, query_values d !! key <> Some []).
    { intros d key Hkey. by apply query_values_lookup in Hkey as (value & _ & _ & ?). }
    split.
    + intros [= Hsame] key s.
      assert (Hvalues : query_values (default ∅ d1) = query_values (default ∅ d2)).
      { pose proof (url_ParseQuery_Encode _ (Hnonempty (default ∅ d1))) as H1.
        pose proof (url_ParseQuery_Encode _ (Hnonempty (default ∅ d2))) as H2.
        rewrite Hsame in H1. congruence. }
      split; intros (value & Hkey & Hn & ->).
      * assert (Hq : query_values (default ∅ d2) !! key = Some [Value_print value])
          by (rewrite <- Hvalues; apply query_values_lookup; by exists value).
        apply query_values_lookup in Hq as (value' & Hkey' & Hn' & [= Hprint]).
        by exists value'.
      * assert (Hq : query_values (default ∅ d1) !! key = Some [Value_print value])
          by (rewrite Hvalues; apply query_values_lookup; by exists value).
        apply query_values_lookup in Hq as (value' & Hkey' & Hn' & [= Hprint]).
        by exists value'.
    + intros Hsame. do 2 f_equal. apply map_eq. intros key.
      apply option_eq. intros vs. rewrite !query_values_lookup. split.
      * intros (value & Hkey & Hn & ->).
        destruct (proj1 (Hsame key (Value_print value))) as (value' & Hkey' & Hn' & Hprint);
          [by exists value|].
        exists value'. by rewrite Hprint.
      * intros (value & Hkey & Hn & ->).
        destruct (proj2 (Hsame key (Value_print value))) as (value' & Hkey' & Hn' & Hprint);
          [by exists value|].
        exists value'. by rewrite Hprint.
  - intros s t. cbn. by rewrite !append_assoc.
Qed.

Lemma same_query_string_witness :
  let d2 : gmap string (@Value test_runtime) := {["tags" := VSlice [VString "a"; VString "b"]]} in
  exists value, d2 !! "tags" = Some value /\ value <> VNil /\ "[a b]" = Value_print value.
Proof.
  cbv zeta.
  pose (r1 := mkRequest (TPtr (TNamed "main" "Find")) (Ok (js "{'tags':['a b']}")) "&{[a b]}").
  pose (r2 := mkRequest (TPtr (TNamed "main" "Find")) (Ok (js "{'tags':['a','b']}")) "&{[a b]}").
  refine (proj1 (proj1 (proj1 (@same_query_string test_runtime range_forward r1 r2
                                 (js "{'tags':['a b']}") (js "{'tags':['a','b']}")
                                 (Some {["tags" := VSlice [VString "a b"]]})
                                 (Some {["tags" := VSlice [VString "a"; VString "b"]]})
                                 eq_refl eq_refl _ _)) _ "tags" "[a b]") _).
  - vm_compute. reflexivity.
  - vm_compute. reflexivity.
  - vm_compute. reflexivity.
  - exists (VSlice [VString "a b"]). split_and!; [apply lookup_singleton_eq | done | done].
Defined.
